(** * Verification of the EIA distillate pipeline

    Shallow embedding of [src/config.py], [src/bronze/ingest.py],
    [src/silver/transform.py], [src/gold/aggregate.py] and
    [run_pipeline.py].

    Modelling conventions.
    - A pandas [float64] cell is a [float64] value below: a finite number
      (an exact rational: binary rounding, overflow and the sign of zero are
      not tracked), a signed infinity, or [NaN], which is pandas' marker for
      an absent value ([pd.isna]).
    - A long-format DataFrame is a list of records (one per row, in row
      order).  The wide DataFrame has a dynamic column set: it is a list of
      data-column names plus rows carrying an association list from column
      name to cell; its integer [year] column is a field of each row.
    - Python exceptions are the [Raise] results of [result]; stateful code
      (DataFrame objects that are mutated or copied, files that are written)
      runs in the state-and-exception monad [M] over a [world].
    - The bronze layer talks to the network: the API and the clock are
      parameters of the model, and the requests sent are logged in the
      state of the monad [N], which extends [M].  Printing and
      [time.sleep] are not modelled. *)

From stdpp Require Import base numbers list strings gmap sorting.
From Stdlib Require Import QArith Qcanon.
From Stdlib Require Import Ascii.
From Stdlib Require OrderedTypeEx.

Local Open Scope Z_scope.
Local Open Scope string_scope.

(** ** Configuration: [src/config.py] *)

Module Config.

(** [SERIES_MAPPING]: a dict, iterated in insertion order. *)
Definition SERIES_MAPPING : list (string * string) :=
  [ ("MDIRPP32", "Production");
    ("MDIIMP32", "Imports");
    ("MDINRP32", "Net_Receipts");
    ("MDISCP32", "Stock_Change");
    ("MDIEXP32", "Exports");
    ("MDIUPP32", "Product_Supplied") ].

Definition SUPPLY_COMPONENTS : list string :=
  ["Production"; "Imports"; "Net_Receipts"].

Definition DISPOSITION_COMPONENTS : list string :=
  ["Exports"; "Product_Supplied"; "Stock_Change"].

(** [SERIES_MAPPING.values()] *)
Definition SERIES_MAPPING_values : list string := SERIES_MAPPING.*2.

End Config.

(** ** Python exceptions and results *)

Inductive exn := ValueError | KeyError | FileNotFoundError.

Inductive result (A : Type) :=
  | Ok (a : A)
  | Raise (e : exn).
Global Arguments Ok {A} a.
Global Arguments Raise {A} e.

Global Instance exn_eq_dec : EqDecision exn.
Proof. solve_decision. Defined.
Global Instance result_eq_dec `{EqDecision A} : EqDecision (result A).
Proof. solve_decision. Defined.

Global Instance result_fmap : FMap result := λ A B f m,
  match m with Ok a => Ok (f a) | Raise e => Raise e end.
Global Instance result_ret : MRet result := @Ok.
Global Instance result_bind : MBind result := λ A B f m,
  match m with Ok a => f a | Raise e => Raise e end.

(** Association lists keyed by strings (a Python dict or a row of named
    cells, in insertion order). *)
Fixpoint assoc {V} (k : string) (l : list (string * V)) : option V :=
  match l with
  | [] => None
  | (k', v) :: l => if decide (k' = k) then Some v else assoc k l
  end.

(** [d[k] = v] on an insertion-ordered dict: an existing key keeps its
    position, a new key goes last. *)
Fixpoint assoc_set {V} (k : string) (v : V) (l : list (string * V))
  : list (string * V) :=
  match l with
  | [] => [(k, v)]
  | (k', v') :: l =>
      if decide (k' = k) then (k, v) :: l else (k', v') :: assoc_set k v l
  end.

(** ** Cells of a float64 column *)

Module Float.

Local Open Scope Qc_scope.

Inductive float64 :=
  | Finite (q : Qc)
  | Inf (neg : bool)
  | NaN.

Global Instance float64_eq_dec : EqDecision float64.
Proof. solve_decision. Defined.

(** [pd.isna]: only NaN is absent; zero and the infinities are present. *)
Definition isna (x : float64) : bool :=
  match x with NaN => true | _ => false end.
Definition notna (x : float64) : bool := negb (isna x).


Definition Qc_neg (q : Qc) : bool :=
  match q ?= 0 with Lt => true | _ => false end.

Definition fadd (a b : float64) : float64 :=
  match a, b with
  | NaN, _ | _, NaN => NaN
  | Finite x, Finite y => Finite (x + y)
  | Inf s, Finite _ => Inf s
  | Finite _, Inf s => Inf s
  | Inf s, Inf t => if decide (s = t) then Inf s else NaN
  end.

Definition fsub (a b : float64) : float64 :=
  match a, b with
  | NaN, _ | _, NaN => NaN
  | Finite x, Finite y => Finite (x - y)
  | Inf s, Finite _ => Inf s
  | Finite _, Inf s => Inf (negb s)
  | Inf s, Inf t => if decide (s = t) then NaN else Inf s
  end.

Definition fmul (a b : float64) : float64 :=
  match a, b with
  | NaN, _ | _, NaN => NaN
  | Finite x, Finite y => Finite (x * y)
  | Inf s, Finite y | Finite y, Inf s =>
      if decide (y = 0) then NaN else Inf (xorb s (Qc_neg y))
  | Inf s, Inf t => Inf (xorb s t)
  end.

(** Division does not raise: a finite nonzero value over zero is an
    infinity, zero over zero is NaN. *)
Definition fdiv (a b : float64) : float64 :=
  match a, b with
  | NaN, _ | _, NaN => NaN
  | Finite x, Finite y =>
      if decide (y = 0)
      then (if decide (x = 0) then NaN else Inf (Qc_neg x))
      else Finite (x / y)
  | Finite _, Inf _ => Finite 0
  | Inf s, Finite y => Inf (xorb s (Qc_neg y))
  | Inf _, Inf _ => NaN
  end.

(** Round to the nearest integer, ties to the even one ([np.rint]). *)
Definition rint (q : Qc) : Z :=
  let n := Qnum q in
  let d := Z.pos (Qden q) in
  let f := (n `div` d)%Z in
  let r := (2 * (n `mod` d))%Z in
  if (r <? d)%Z then f
  else if (d <? r)%Z then (f + 1)%Z
  else if Z.even f then f else (f + 1)%Z.

(** [Series.round(decimals)]: scale, [rint], scale back. *)
Definition fround (decimals : nat) (x : float64) : float64 :=
  match x with
  | Finite q =>
      let s := Qc_of_Z (10 ^ Z.of_nat decimals) in
      Finite (Qc_of_Z (rint (q * s)) / s)
  | _ => x
  end.

(** Plain left-to-right sum. *)
Definition fsum (xs : list float64) : float64 :=
  foldl fadd (Finite 0) xs.

(** [sum] with pandas' defaults [skipna=True, min_count=0]: NaN cells are
    replaced by 0 and the cells are added up. *)
Definition nansum (xs : list float64) : float64 :=
  fsum ((λ x, if isna x then Finite 0 else x) <$> xs).

(** [mean] with [skipna=True]: the sum of the present cells over their
    count; NaN when no cell is present. *)
Definition nanmean (xs : list float64) : float64 :=
  let present := filter (λ x, notna x = true) xs in
  match present with
  | [] => NaN
  | _ => fdiv (fsum present) (Finite (Qc_of_Z (Z.of_nat (length present))))
  end.


Definition of_Z (z : Z) : float64 := Finite (Qc_of_Z z).
(** The decimal literal [n / 10^k]. *)
Definition dec (n : Z) (k : nat) : float64 :=
  Finite (Qc_of_Z n / Qc_of_Z (10 ^ Z.of_nat k)).

End Float.
Export Float.

(** ** Tables *)

(** A calendar month: [pd.to_datetime] with format [%Y-%m] yields the first
    day of the month, so a timestamp is determined by year and month. *)
Record Date := { d_year : Z; d_month : Z }.

(** One record of [api_response["response"]["data"]]. *)
Record SeriesRecord := { period : string; value : string; series : string }.

(** The raw response envelope: ["response"] and, inside it, ["data"] may
    each be missing. *)
Record ResponseBody := { data : option (list SeriesRecord) }.
Record ApiResponse := { response : option ResponseBody }.

(** A row of the frame built by [parse_series_data]: the record's own
    columns plus [series_id] and [component]. *)
Record RawRow := {
  r_period : string;
  r_value : string;
  r_series : string;
  r_series_id : string;
  r_component : string
}.

(** A row of the silver table (columns [date, series_id, component,
    value_mbblpd, year, month, category]). *)
Record ObservationRow := {
  date : Date;
  series_id : string;
  component : string;
  value_mbblpd : float64;
  year : Z;
  month : Z;
  category : string
}.

(** A row of the long annual table (columns [year, component,
    annual_avg_mbblpd]). *)
Record AnnualMetric := {
  a_year : Z;
  a_component : string;
  annual_avg_mbblpd : float64
}.

(** A row of the wide table: the [year] column and the float64 cells of
    the data columns, keyed by column name in column order. *)
Record Row := { w_year : Z; cells : list (string * float64) }.

(** The wide DataFrame.  [df.columns] is ["year"] followed by the data
    columns. *)
Record DataFrame := { data_columns : list string; rows : list Row }.

Definition columns (df : DataFrame) : list string :=
  "year" :: data_columns df.

Global Instance Date_eq_dec : EqDecision Date.
Proof. solve_decision. Defined.
Global Instance SeriesRecord_eq_dec : EqDecision SeriesRecord.
Proof. solve_decision. Defined.
Global Instance RawRow_eq_dec : EqDecision RawRow.
Proof. solve_decision. Defined.
Global Instance ObservationRow_eq_dec : EqDecision ObservationRow.
Proof. solve_decision. Defined.
Global Instance AnnualMetric_eq_dec : EqDecision AnnualMetric.
Proof. solve_decision. Defined.
Global Instance Row_eq_dec : EqDecision Row.
Proof. solve_decision. Defined.
Global Instance DataFrame_eq_dec : EqDecision DataFrame.
Proof. solve_decision. Defined.

(** The cell of row [r] in column [c]. *)
Definition cell (c : string) (r : Row) : option float64 := assoc c (cells r).

(** The same cell as a float64 value (for row-wise arithmetic on columns
    that the frame has). *)
Definition get (c : string) (r : Row) : float64 := default NaN (cell c r).

(** [df[name] = f(row)]: column assignment.  A new column is appended, an
    existing one is overwritten in place. *)
Definition assign (name : string) (f : Row → float64) (df : DataFrame)
  : DataFrame :=
  {| data_columns :=
       if decide (name ∈ data_columns df) then data_columns df
       else data_columns df ++ [name];
     rows := (λ r, {| w_year := w_year r;
                      cells := assoc_set name (f r) (cells r) |}) <$> rows df |}.

(** [df[["year"] + cols]]: column selection; a name that is not a column
    raises KeyError. *)
Definition select_year_and (cols : list string) (df : DataFrame)
  : result DataFrame :=
  if decide (Forall (λ c, c ∈ columns df) cols) then
    Ok {| data_columns := cols;
          rows := (λ r, {| w_year := w_year r;
                           cells := (λ c, (c, get c r)) <$> cols |}) <$> rows df |}
  else Raise KeyError.

(** ** The world: DataFrame objects and the three artifacts *)

Record world := {
  frames : gmap positive DataFrame;
  bronze_file : option (list (string * ApiResponse));
  silver_file : option (list ObservationRow);
  gold_file : option DataFrame
}.

(** The world with its DataFrame objects replaced. *)
Definition with_frames (fr : gmap positive DataFrame) (w : world) : world :=
  {| frames := fr; bronze_file := bronze_file w;
     silver_file := silver_file w; gold_file := gold_file w |}.

(** The world with its silver (resp. gold) file written. *)
Definition with_silver_file (df : list ObservationRow) (w : world) : world :=
  {| frames := frames w; bronze_file := bronze_file w;
     silver_file := Some df; gold_file := gold_file w |}.
Definition with_gold_file (df : DataFrame) (w : world) : world :=
  {| frames := frames w; bronze_file := bronze_file w;
     silver_file := silver_file w; gold_file := Some df |}.

(** State and exceptions: an exception keeps the world reached so far. *)
Definition M (A : Type) : Type := world → result A * world.

Global Instance M_ret : MRet M := λ A a w, (Ok a, w).
Global Instance M_bind : MBind M := λ A B f m w,
  match m w with
  | (Ok a, w') => f a w'
  | (Raise e, w') => (Raise e, w')
  end.

Definition raise {A} (e : exn) : M A := λ w, (Raise e, w).
Definition lift {A} (r : result A) : M A := λ w, (r, w).
Definition gets {A} (f : world → A) : M A := λ w, (Ok (f w), w).
Definition modify (f : world → world) : M unit := λ w, (Ok tt, f w).

(** A new DataFrame object. *)
Definition alloc (df : DataFrame) : M positive := λ w,
  let l := fresh (dom (frames w)) in
  (Ok l, with_frames (<[l := df]> (frames w)) w).

(** Read the DataFrame object behind a reference. *)
Definition deref (l : positive) : M DataFrame := λ w,
  match frames w !! l with
  | Some df => (Ok df, w)
  | None => (Raise KeyError, w)
  end.

(** In-place update of the DataFrame object behind a reference. *)
Definition update (l : positive) (f : DataFrame → DataFrame) : M unit :=
  df ← deref l;
  modify (λ w, with_frames (<[l := f df]> (frames w)) w).

(** ** Silver layer: [src/silver/transform.py] *)

Module SilverTransformation.
Import Config.

(** Order of [sort_values(["date", "component"])]: by date, then by
    component name. *)
Definition date_compare (a b : Date) : comparison :=
  match (d_year a ?= d_year b)%Z with
  | Eq => (d_month a ?= d_month b)%Z
  | c => c
  end.

Definition row_leb (a b : ObservationRow) : bool :=
  match date_compare (date a) (date b) with
  | Lt => true
  | Gt => false
  | Eq => String.leb (component a) (component b)
  end.

Definition row_le (a b : ObservationRow) : Prop := row_leb a b = true.

Global Instance row_le_dec : RelDecision row_le.
Proof. intros a b. unfold row_le. apply _. Defined.

(** [load_raw_data]: the bronze file parsed as JSON. *)
Definition load_raw_data : M (list (string * ApiResponse)) := λ w,
  match bronze_file w with
  | Some raw_data => (Ok raw_data, w)
  | None => (Raise FileNotFoundError, w)
  end.

(** The observation list of a raw response, empty when it is missing. *)
Definition observation_list (api_response : ApiResponse) : list SeriesRecord :=
  match response api_response with
  | Some body => default [] (data body)
  | None => []
  end.

(** [parse_series_data]: the records of one series with [series_id] and
    [component] attached; an empty frame when the observation list is
    missing or empty.  [SERIES_MAPPING[series_id]] raises KeyError for an
    unknown series. *)
Definition parse_series_data (series_id : string) (api_response : ApiResponse)
  : result (list RawRow) :=
  match response api_response with
  | None => Ok []
  | Some body =>
      match data body with
      | None => Ok []
      | Some [] => Ok []
      | Some records =>
          match assoc series_id SERIES_MAPPING with
          | None => Raise KeyError
          | Some comp =>
              Ok ((λ rec, {| r_period := period rec; r_value := value rec;
                             r_series := series rec;
                             r_series_id := series_id;
                             r_component := comp |}) <$> records)
          end
      end
  end.

(** The loop of [run]: parse every series, keep the non-empty frames. *)
Fixpoint parse_all (items : list (string * ApiResponse))
  : result (list (list RawRow)) :=
  match items with
  | [] => Ok []
  | (series_id, api_response) :: items =>
      df ← parse_series_data series_id api_response;
      dfs ← parse_all items;
      Ok (match df with [] => dfs | _ => df :: dfs end)
  end.

(** [pd.concat(dfs, ignore_index=True)]: no frame to concatenate is a
    ValueError. *)
Definition pd_concat (dfs : list (list RawRow)) : result (list RawRow) :=
  match dfs with
  | [] => Raise ValueError
  | _ => Ok (concat dfs)
  end.

(** The component classification of [clean_and_normalize]. *)
Definition classify (x : string) : string :=
  if decide (x ∈ SUPPLY_COMPONENTS) then "Supply"
  else if decide (x ∈ DISPOSITION_COMPONENTS) then "Disposition"
  else "Other".

(** [save_clean_data]: the silver file is (over)written. *)
Definition save_clean_data (df : list ObservationRow) : M unit :=
  modify (with_silver_file df).

Section Coercions.
(** The two pandas coercions, on one cell each:
    [pd.to_datetime(_, format="%Y-%m")], which fails ([None], a
    ValueError for the whole column) on a string that does not parse, and
    [pd.to_numeric(_, errors="coerce")], which yields NaN on a string
    that is not a number. *)
Variable to_datetime : string → option Date.
Variable to_numeric : string → float64.

(** One row through the column operations of [clean_and_normalize]:
    date parsing, numeric coercion, [year], [month], [category]. *)
Definition clean_row (r : RawRow) : result ObservationRow :=
  match to_datetime (r_period r) with
  | None => Raise ValueError
  | Some d =>
      Ok {| date := d;
            series_id := r_series_id r;
            component := r_component r;
            value_mbblpd := to_numeric (r_value r);
            year := d_year d;
            month := d_month d;
            category := classify (r_component r) |}
  end.

(** What the column operations make of one raw row. *)
Definition cleaned_from (raw : RawRow) (r : ObservationRow) : Prop :=
  to_datetime (r_period raw) = Some (date r) ∧
  value_mbblpd r = to_numeric (r_value raw) ∧
  year r = d_year (date r) ∧
  month r = d_month (date r) ∧
  series_id r = r_series_id raw ∧
  component r = r_component raw ∧
  category r = classify (r_component raw).

(** [clean_and_normalize]: coerce the columns, sort by date and
    component, drop the rows whose value is NaN. *)
Definition clean_and_normalize (df : list RawRow)
  : result (list ObservationRow) :=
  df ← mapM clean_row df;
  let df := merge_sort row_le df in
  Ok (filter (λ r, notna (value_mbblpd r) = true) df).

(** [run]: the whole silver stage. *)
Definition run : M (list ObservationRow) :=
  raw_data ← load_raw_data;
  dfs ← lift (parse_all raw_data);
  combined_df ← lift (pd_concat dfs);
  clean_df ← lift (clean_and_normalize combined_df);
  save_clean_data clean_df;;
  mret clean_df.
End Coercions.

(** Reference coercions for evaluating the model on concrete strings. *)

Definition digit (c : ascii) : option Z :=
  let n := Z.of_N (N_of_ascii c) in
  if decide (48 ≤ n ≤ 57)%Z then Some (n - 48) else None.

Fixpoint digits_acc (s : string) (acc : Z) : option Z :=
  match s with
  | EmptyString => Some acc
  | String c s => d ← digit c; digits_acc s (10 * acc + d)
  end.

(** A non-empty string of decimal digits. *)
Definition digits (s : string) : option Z :=
  match s with EmptyString => None | _ => digits_acc s 0 end.

(** [%Y-%m]: four digits, a dash, a month 1..12 in one or two digits. *)
Definition strptime_Ym (s : string) : option Date :=
  y ← digits (String.substring 0 4 s);
  guard (String.length (String.substring 0 4 s) = 4%nat);;
  guard (String.substring 4 1 s = "-");;
  let ms := String.substring 5 (String.length s - 5) s in
  guard (String.length ms ≤ 2)%nat;;
  m ← digits ms;
  guard (1 ≤ m ≤ 12)%Z;;
  Some {| d_year := y; d_month := m |}.

(** Unsigned or signed decimal literals [ddd] and [ddd.ddd]; anything
    else is NaN. *)
Definition parse_decimal (s : string) : option Qc :=
  match String.index 0 "." s with
  | None => Qc_of_Z <$> digits s
  | Some i =>
      let fs := String.substring (S i) (String.length s - S i) s in
      ip ← digits (String.substring 0 i s);
      fp ← digits fs;
      let scale := 10 ^ Z.of_nat (String.length fs) in
      Some ((Qc_of_Z (ip * scale + fp) / Qc_of_Z scale)%Qc)
  end.

Definition parse_float (s : string) : float64 :=
  match s with
  | String "-" s' =>
      match parse_decimal s' with Some q => Finite (- q)%Qc | None => NaN end
  | _ => match parse_decimal s with Some q => Finite q | None => NaN end
  end.

End SilverTransformation.


(** ** Gold layer: [src/gold/aggregate.py] *)

Module GoldAggregation.
Import Config.

(** Orders used by pandas when it sorts group keys, the pivot index and the
    pivot columns. *)
Definition key_leb (a b : Z * string) : bool :=
  match (a.1 ?= b.1)%Z with
  | Lt => true
  | Gt => false
  | Eq => String.leb a.2 b.2
  end.
Definition key_le (a b : Z * string) : Prop := key_leb a b = true.
Definition string_le (a b : string) : Prop := String.leb a b = true.

Global Instance key_le_dec : RelDecision key_le.
Proof. intros a b. unfold key_le. apply _. Defined.
Global Instance string_le_dec : RelDecision string_le.
Proof. intros a b. unfold string_le. apply _. Defined.

(** [load_clean_data]: the silver file read back as a table. *)
Definition load_clean_data : M (list ObservationRow) := λ w,
  match silver_file w with
  | Some df => (Ok df, w)
  | None => (Raise FileNotFoundError, w)
  end.

(** The group key of a monthly row. *)
Definition group_key (r : ObservationRow) : Z * string :=
  (year r, component r).

(** The keys of [df.groupby(["year", "component"])]: the distinct keys, in
    sorted order. *)
Definition group_keys (df : list ObservationRow) : list (Z * string) :=
  merge_sort key_le (remove_dups (group_key <$> df)).

(** The values of the rows of one group, in row order. *)
Definition group_values (k : Z * string) (df : list ObservationRow)
  : list float64 :=
  value_mbblpd <$> filter (λ r, group_key r = k) df.

(** [calculate_annual_averages]:
    [df.groupby(["year", "component"])["value_mbblpd"].mean().reset_index()]. *)
Definition calculate_annual_averages (df : list ObservationRow)
  : list AnnualMetric :=
  (λ k, {| a_year := k.1; a_component := k.2;
           annual_avg_mbblpd := nanmean (group_values k df) |})
    <$> group_keys df.

(** The annual average recorded for [(y, c)], NaN when there is none: the
    cell that [pivot] puts at row [y], column [c]. *)
Definition pivot_cell (df : list AnnualMetric) (y : Z) (c : string)
  : float64 :=
  match list_find (λ a, a_year a = y ∧ a_component a = c) df with
  | Some (_, a) => annual_avg_mbblpd a
  | None => NaN
  end.

(** [df.pivot(index="year", columns="component",
    values="annual_avg_mbblpd").reset_index()]: one row per distinct year
    and one column per distinct component, both sorted.  A repeated
    (year, component) pair is a ValueError of [pivot]; a component called
    ["year"] is a ValueError of [reset_index]. *)
Definition pivot_reset_index (df : list AnnualMetric) : result DataFrame :=
  if decide (NoDup ((λ a, (a_year a, a_component a)) <$> df)) then
    let years := merge_sort Z.le (remove_dups (a_year <$> df)) in
    let comps := merge_sort string_le (remove_dups (a_component <$> df)) in
    if decide ("year" ∈ comps) then Raise ValueError
    else
      Ok {| data_columns := comps;
            rows := (λ y, {| w_year := y;
                             cells := (λ c, (c, pivot_cell df y c)) <$> comps |})
                      <$> years |}
  else Raise ValueError.

(** The column order computed by [pivot_to_wide_format]: the catalog's
    supply components, then its disposition components, each in
    [SERIES_MAPPING] order and only when it is a column of the frame. *)
Definition component_order (wide_df : DataFrame) : list string :=
  filter (λ comp, comp ∈ SUPPLY_COMPONENTS ∧ comp ∈ columns wide_df)
         SERIES_MAPPING_values
  ++ filter (λ comp, comp ∈ DISPOSITION_COMPONENTS ∧ comp ∈ columns wide_df)
            SERIES_MAPPING_values.

(** The table computed by [pivot_to_wide_format]. *)
Definition pivot_to_wide_table (df : list AnnualMetric) : result DataFrame :=
  wide_df ← pivot_reset_index df;
  select_year_and (component_order wide_df) wide_df.

(** [pivot_to_wide_format]: the table above as a new DataFrame object. *)
Definition pivot_to_wide_format (df : list AnnualMetric) : M positive :=
  wide_df ← lift (pivot_to_wide_table df);
  alloc wide_df.

(** [df[cols].sum(axis=1)] on one row. *)
Definition sum_axis1 (cols : list string) (r : Row) : float64 :=
  nansum ((λ c, get c r) <$> cols).

(** The column assignments of [add_balance_check], in source order. *)
Definition add_balance_columns (df : DataFrame) : DataFrame :=
  let supply_cols := filter (λ col, col ∈ SUPPLY_COMPONENTS) (columns df) in
  let df :=
    match supply_cols with
    | [] => df
    | _ => assign "Total_Supply" (sum_axis1 supply_cols) df
    end in
  let disposition_cols :=
    filter (λ col, col ∈ DISPOSITION_COMPONENTS) (columns df) in
  let df :=
    match disposition_cols with
    | [] => df
    | _ => assign "Total_Disposition" (sum_axis1 disposition_cols) df
    end in
  if decide ("Total_Supply" ∈ columns df ∧ "Total_Disposition" ∈ columns df)
  then
    let df :=
      assign "Balance_Difference"
        (λ r, fsub (get "Total_Supply" r) (get "Total_Disposition" r)) df in
    assign "Balance_Pct_Diff"
      (λ r, fround 3 (fmul (fdiv (get "Balance_Difference" r)
                                 (get "Total_Supply" r))
                           (of_Z 100))) df
  else df.

(** [add_balance_check]: the columns are assigned on the object passed in,
    which is also the object returned. *)
Definition add_balance_check (df : positive) : M positive :=
  update df add_balance_columns;;
  mret df.

(** [df_rounded[col] = df_rounded[col].round(3)] *)
Definition round_column (col : string) (df : DataFrame) : DataFrame :=
  assign col (λ r, fround 3 (get col r)) df.

(** [to_csv] to the gold file. *)
Definition to_csv (df : DataFrame) : M unit :=
  modify (with_gold_file df).

(** The rounding loop of [save_annual_data] over [numeric_cols]. *)
Fixpoint round_loop (df_rounded : positive) (numeric_cols : list string)
  : M unit :=
  match numeric_cols with
  | [] => mret tt
  | col :: numeric_cols =>
      (if decide (col ≠ "year")
       then update df_rounded (round_column col)
       else mret tt);;
      round_loop df_rounded numeric_cols
  end.

(** [save_annual_data]: copy, round every numeric column but [year] on the
    copy, write the copy.  Every column of the wide table is numeric. *)
Definition save_annual_data (df : positive) : M unit :=
  d ← deref df;
  df_rounded ← alloc d;
  d ← deref df_rounded;
  round_loop df_rounded (columns d);;
  d ← deref df_rounded;
  to_csv d.

(** The frame that the rounding loop over [cols] makes of [d], and the
    rounded copy that [save_annual_data] writes. *)
Definition round_columns (cols : list string) (d : DataFrame) : DataFrame :=
  foldl (λ d col, if decide (col ≠ "year") then round_column col d else d)
        d cols.
Definition rounded_copy (d : DataFrame) : DataFrame :=
  round_columns (columns d) d.

(** [run]: the whole gold stage; returns the wide DataFrame object. *)
Definition run : M positive :=
  clean_df ← load_clean_data;
  let annual_avg := calculate_annual_averages clean_df in
  wide_df ← pivot_to_wide_format annual_avg;
  wide_df ← add_balance_check wide_df;
  save_annual_data wide_df;;
  mret wide_df.

End GoldAggregation.


(** ** Test data *)

Module Examples.
Import Config SilverTransformation GoldAggregation.

Definition wide_row (y : Z) (cs : list (string * float64)) : Row :=
  {| w_year := y; cells := cs |}.

(** A year with disposition data only: no supply value is present. *)
Definition disposition_only : DataFrame :=
  {| data_columns := ["Production"; "Exports"];
     rows := [wide_row 2020 [("Production", NaN); ("Exports", of_Z 20)]] |}.

(** The frames of [test_add_balance_check_perfect_match] and
    [test_add_balance_check_with_difference]. *)
Definition balanced_row (product_supplied : Z) : Row :=
  wide_row 2020
    [("Production", of_Z 100); ("Imports", of_Z 50);
     ("Net_Receipts", of_Z 30); ("Exports", of_Z 20);
     ("Product_Supplied", of_Z product_supplied);
     ("Stock_Change", of_Z 10)].

Definition balanced (product_supplied : Z) : DataFrame :=
  {| data_columns := ["Production"; "Imports"; "Net_Receipts"; "Exports";
                      "Product_Supplied"; "Stock_Change"];
     rows := [balanced_row product_supplied] |}.

(** The batch of [test_clean_and_normalize]: four rows, one value that is
    not a number. *)
Definition raw_row (p v : string) : RawRow :=
  {| r_period := p; r_value := v; r_series := "PET.M_EPPO_FPF_R30_MBBLPD.M";
     r_series_id := "PET.M_EPPO_FPF_R30_MBBLPD.M";
     r_component := "Production" |}.

Definition unit_test_batch : list RawRow :=
  [raw_row "2020-01" "100.5"; raw_row "2020-02" "200.3";
   raw_row "2020-03" "invalid"; raw_row "2020-04" "150.0"].

Definition clean (m : Z) (v : float64) : ObservationRow :=
  {| date := {| d_year := 2020; d_month := m |};
     series_id := "PET.M_EPPO_FPF_R30_MBBLPD.M"; component := "Production";
     value_mbblpd := v; year := 2020; month := m; category := "Supply" |}.


(** Raw mappings: every series without observations, and one series with
    observations next to two without. *)
Definition no_data : ApiResponse := {| response := None |}.
Definition no_records : ApiResponse :=
  {| response := Some {| data := None |} |}.
Definition empty_records : ApiResponse :=
  {| response := Some {| data := Some [] |} |}.
Definition some_records : ApiResponse :=
  {| response := Some {| data := Some
       [ {| period := "2020-01"; value := "100.5"; series := "MDIRPP32" |};
         {| period := "2020-02"; value := "200.3"; series := "MDIRPP32" |} ]
     |} |}.

Definition bronze_world (raw : list (string * ApiResponse)) : world :=
  {| frames := ∅; bronze_file := Some raw; silver_file := None;
     gold_file := None |}.

Definition all_empty_raw : list (string * ApiResponse) :=
  [("MDIRPP32", no_data); ("MDIIMP32", no_records);
   ("MDINRP32", empty_records)].
Definition one_series_raw : list (string * ApiResponse) :=
  [("MDIRPP32", some_records); ("MDIIMP32", no_records);
   ("MDINRP32", empty_records)].

(** The long table of [test_pivot_handles_missing_components]: no Imports
    in 2021. *)
Definition annual (y : Z) (c : string) (v : Z) : AnnualMetric :=
  {| a_year := y; a_component := c; annual_avg_mbblpd := of_Z v |}.

Definition missing_imports : list AnnualMetric :=
  [annual 2020 "Production" 100; annual 2020 "Imports" 50;
   annual 2021 "Production" 110].

(** A long table with a metric that the catalog does not classify. *)
Definition with_other_metric : list AnnualMetric :=
  [annual 2021 "Exports" 30; annual 2021 "Other_Metric" 7;
   annual 2021 "Stock_Change" 5; annual 2021 "Imports" 50;
   annual 2021 "Production" 100].

(** The wide table of a long table, the empty table if the pivot raises. *)
Definition wide_of (df : list AnnualMetric) : DataFrame :=
  match pivot_to_wide_table df with
  | Ok wide => wide
  | Raise _ => {| data_columns := []; rows := [] |}
  end.

(** A world whose silver file holds the rows [df]. *)
Definition silver_world (df : list ObservationRow) : world :=
  {| frames := ∅; bronze_file := None; silver_file := Some df;
     gold_file := None |}.

(** Monthly rows of one component in year [y], months 1, 2, ... with the
    values [vs]. *)
Definition monthly (y : Z) (c : string) (vs : list Z) : list ObservationRow :=
  imap (λ i v, {| date := {| d_year := y; d_month := Z.of_nat (S i) |};
                  series_id := "MDIRPP32"; component := c;
                  value_mbblpd := of_Z v;
                  year := y; month := Z.of_nat (S i);
                  category := classify c |}) vs.


(** The data of [test_calculate_annual_averages] and
    [test_calculate_annual_averages_partial_year]. *)
Definition two_years : list ObservationRow :=
  monthly 2020 "Production" (replicate 12 100)
  ++ monthly 2021 "Production" (replicate 12 200).
Definition partial_year : list ObservationRow :=
  monthly 2020 "Production" [100; 100; 100; 200; 200; 200].


(** The table without columns and rows. *)
Definition empty_table : DataFrame := {| data_columns := []; rows := [] |}.

(** A world with one DataFrame object. *)
Definition frame_world (d : DataFrame) : world :=
  {| frames := {[ 1%positive := d ]}; bronze_file := None;
     silver_file := None; gold_file := None |}.

(** A wide row whose Production cell is 301/3. *)
Definition unrounded : DataFrame :=
  {| data_columns := ["Production"];
     rows := [wide_row 2021 [("Production", Finite (Q2Qc (301 # 3)))]] |}.

(** Three months whose mean, 301/3, has no 3-decimal representation. *)
Definition thirds : list ObservationRow :=
  monthly 2021 "Production" [100; 101; 100]
  ++ monthly 2021 "Exports" [100; 100; 100].

End Examples.


(** ** Constructors of the silver and gold stages *)

Module Init.

(** [SilverTransformation.__init__] with the default path: the bronze file
    must exist. *)
Definition SilverTransformation_init : M unit := λ w,
  match bronze_file w with
  | Some _ => (Ok tt, w)
  | None => (Raise FileNotFoundError, w)
  end.

(** [GoldAggregation.__init__] with the default path: the silver file must
    exist. *)
Definition GoldAggregation_init : M unit := λ w,
  match silver_file w with
  | Some _ => (Ok tt, w)
  | None => (Raise FileNotFoundError, w)
  end.

End Init.

(** ** Bronze layer: [src/bronze/ingest.py] *)

Module EIADataIngestion.
Import Config.

(** The API constants of [src/config.py]. *)
Definition EIA_API_BASE_URL : string := "https://api.eia.gov/v2".
Definition START_DATE : string := "2015-01".

(** One [requests.get]: the URL and the query parameters. *)
Record Request := {
  url : string;
  p_api_key : string;
  p_frequency : string;
  p_data_0 : string;
  p_facets_series : string;
  p_start : string;
  p_sort_column : string;
  p_sort_direction : string;
  p_offset : Z;
  p_length : Z
}.

(** The [_metadata] block attached to a response. *)
Record Metadata := {
  m_series_id : string;
  m_component_name : string;
  m_fetch_timestamp : string;
  m_start_date : string
}.

(** A fetched response: the API envelope and its [_metadata]. *)
Record RawResponse := { envelope : ApiResponse; _metadata : Metadata }.

Global Instance Request_eq_dec : EqDecision Request.
Proof. solve_decision. Defined.
Global Instance Metadata_eq_dec : EqDecision Metadata.
Proof. solve_decision. Defined.

(** The ingestion client built by [__init__]. *)
Record Client := {
  api_key : string;
  base_url : string;
  series_ids : list string
}.

(** Exceptions of the ingestion: those of [requests] next to the built-in
    ones. *)
Inductive fetch_exn := RequestException | Builtin (e : exn).

Inductive outcome (A : Type) :=
  | Done (a : A)
  | Failed (e : fetch_exn).
Global Arguments Done {A} a.
Global Arguments Failed {A} e.

(** The state of a pipeline run: the files and DataFrame objects, the
    [_metadata] blocks stored in the bronze file next to the envelopes, and
    the requests sent so far. *)
Record net_world := {
  files : world;
  bronze_metadata : option (list (string * Metadata));
  sent : list Request
}.

Definition N (A : Type) : Type := net_world → outcome A * net_world.

Global Instance N_ret : MRet N := λ A a s, (Done a, s).
Global Instance N_bind : MBind N := λ A B f m s,
  match m s with
  | (Done a, s') => f a s'
  | (Failed e, s') => (Failed e, s')
  end.

Definition fail {A} (e : fetch_exn) : N A := λ s, (Failed e, s).

(** A step on files and DataFrame objects as a step of the run. *)
Definition liftM {A} (m : M A) : N A := λ s,
  let '(r, w') := m (files s) in
  let s' := {| files := w'; bronze_metadata := bronze_metadata s;
               sent := sent s |} in
  match r with
  | Ok a => (Done a, s')
  | Raise e => (Failed (Builtin e), s')
  end.

Section Network.
(** The outside world of the ingestion.  [API_KEY] is the environment
    variable of that name.  [http_get sent req] is what [requests.get],
    [raise_for_status] and [response.json] make of request [req] after the
    requests [sent]: the decoded envelope, or [None] for a
    [RequestException].  [now sent] is the clock read after the requests
    [sent]. *)
Variable API_KEY : option string.
Variable http_get : list Request → Request → option ApiResponse.
Variable now : list Request → string.

(** [EIA_API_KEY = os.getenv("API_KEY", "")] *)
Definition EIA_API_KEY : string := default "" API_KEY.

(** [__init__]: [api_key or EIA_API_KEY]; an empty key is a ValueError. *)
Definition init (api_key : option string) : result Client :=
  let key :=
    match api_key with
    | Some k => if decide (k = "") then EIA_API_KEY else k
    | None => EIA_API_KEY
    end in
  if decide (key = "") then Raise ValueError
  else Ok {| api_key := key; base_url := EIA_API_BASE_URL;
             series_ids := SERIES_MAPPING.*1 |}.

(** The request built by [fetch_series_data]. *)
Definition request_for (self : Client) (series_id start_date : string)
  : Request :=
  {| url := base_url self +:+ "/petroleum/sum/snd/data/";
     p_api_key := api_key self;
     p_frequency := "monthly";
     p_data_0 := "value";
     p_facets_series := series_id;
     p_start := start_date;
     p_sort_column := "period";
     p_sort_direction := "asc";
     p_offset := 0;
     p_length := 5000 |}.

(** [fetch_series_data]: [SERIES_MAPPING[series_id]] is looked up before
    the request is sent; a failed request is re-raised. *)
Definition fetch_series_data (self : Client) (series_id start_date : string)
  : N RawResponse :=
  match assoc series_id SERIES_MAPPING with
  | None => fail (Builtin KeyError)
  | Some component_name => λ s,
      let req := request_for self series_id start_date in
      let s' := {| files := files s; bronze_metadata := bronze_metadata s;
                   sent := sent s ++ [req] |} in
      match http_get (sent s) req with
      | None => (Failed RequestException, s')
      | Some data =>
          (Done {| envelope := data;
                   _metadata := {| m_series_id := series_id;
                                   m_component_name := component_name;
                                   m_fetch_timestamp := now (sent s');
                                   m_start_date := start_date |} |}, s')
      end
  end.

(** The loop of [fetch_all_series]: [all_data[series_id] = ...] for every
    configured series, in order. *)
Fixpoint fetch_loop (self : Client) (ids : list string)
    (all_data : list (string * RawResponse)) : N (list (string * RawResponse)) :=
  match ids with
  | [] => mret all_data
  | series_id :: ids =>
      data ← fetch_series_data self series_id START_DATE;
      fetch_loop self ids (assoc_set series_id data all_data)
  end.

Definition fetch_all_series (self : Client) : N (list (string * RawResponse)) :=
  fetch_loop self (series_ids self) [].

(** [save_raw_data]: the mapping is written to the bronze file. *)
Definition save_raw_data (data : list (string * RawResponse)) : N unit := λ s,
  (Done tt,
   {| files := {| frames := frames (files s);
                  bronze_file := Some (prod_map id envelope <$> data);
                  silver_file := silver_file (files s);
                  gold_file := gold_file (files s) |};
      bronze_metadata := Some (prod_map id _metadata <$> data);
      sent := sent s |}).

(** [run]: fetch every series, then save. *)
Definition run (self : Client) : N unit :=
  raw_data ← fetch_all_series self;
  save_raw_data raw_data.

End Network.

End EIADataIngestion.

(** ** The pipeline runner: [run_pipeline.py] *)

Module Pipeline.
Import Config Init EIADataIngestion.

(** The command-line flags. *)
Record Args := { bronze : bool; silver : bool; gold : bool }.

(** [try: ... return True / except Exception: return False] *)
Definition attempt {A} (m : N A) : N bool := λ s,
  match m s with
  | (Done _, s') => (Done true, s')
  | (Failed _, s') => (Done false, s')
  end.

Section Runner.
Variable API_KEY : option string.
Variable http_get : list Request → Request → option ApiResponse.
Variable now : list Request → string.
Variable to_datetime : string → option Date.
Variable to_numeric : string → float64.

Definition run_bronze : N bool :=
  attempt (ingestion ← liftM (lift (init API_KEY None));
           EIADataIngestion.run http_get now ingestion).

Definition run_silver : N bool :=
  attempt (liftM (SilverTransformation_init;;
                  SilverTransformation.run to_datetime to_numeric)).

Definition run_gold : N bool :=
  attempt (liftM (GoldAggregation_init;; GoldAggregation.run)).

(** [run_full_pipeline]: the key check, then the three stages, stopping at
    the first that fails. *)
Definition run_full_pipeline : N bool :=
  match API_KEY with
  | None | Some "" => mret false
  | Some _ =>
      success ← run_bronze;
      if negb success then mret false
      else
        success ← run_silver;
        if negb success then mret false
        else run_gold
  end.

(** [if args.x: success = success and run_x()] *)
Definition selected (flag : bool) (stage : N bool) (success : bool) : N bool :=
  if flag then (if success then stage else mret false) else mret success.

(** [main]: the exit status passed to [sys.exit]. *)
Definition main (args : Args) : N Z :=
  success ←
    (if negb (bronze args || silver args || gold args) then run_full_pipeline
     else
       success ← selected (bronze args) run_bronze true;
       success ← selected (silver args) run_silver success;
       selected (gold args) run_gold success);
  mret (if success : bool then 0 else 1).

End Runner.

End Pipeline.


(** ** Relations between tables, for stating frame properties *)

Module FrameSpec.

(** [out] extends [df] by columns among [names]: the columns of [df] come
    first and the further ones are among [names]; the rows correspond in
    order, with the same year and the same cell in every column outside
    [names]. *)
Definition extends_by (names : list string) (df out : DataFrame) : Prop :=
  (∃ new, data_columns out = (data_columns df ++ new)%list ∧
          Forall (λ c, c ∈ names) new) ∧
  Forall2 (λ r r', w_year r' = w_year r ∧
                   ∀ c, c ∉ names → cell c r' = cell c r)
          (rows df) (rows out).

(** The four columns that [add_balance_check] may assign. *)
Definition balance_names : list string :=
  ["Total_Supply"; "Total_Disposition"; "Balance_Difference";
   "Balance_Pct_Diff"].

End FrameSpec.


(** ** More test data *)

Module MoreExamples.
Import Config Examples.

(** A raw mapping with records for a series that the catalog does not
    know. *)
Definition unknown_series_raw : list (string * ApiResponse) :=
  [("MDIRPP32", some_records); ("XXXXXX", some_records)].


(** An API that answers every request with two records, one that fails
    from the third request on, and a clock. *)
Definition good_api (sent : list EIADataIngestion.Request)
    (req : EIADataIngestion.Request) : option ApiResponse :=
  Some some_records.
Definition flaky_api (sent : list EIADataIngestion.Request)
    (req : EIADataIngestion.Request) : option ApiResponse :=
  if decide (length sent < 2)%nat then Some some_records else None.
Definition clock (sent : list EIADataIngestion.Request) : string :=
  "2024-01-01T00:00:00".

(** The state before the first run: no file, no object, no request. *)
Definition start_state : EIADataIngestion.net_world :=
  {| EIADataIngestion.files :=
       {| frames := ∅; bronze_file := None; silver_file := None;
          gold_file := None |};
     EIADataIngestion.bronze_metadata := None;
     EIADataIngestion.sent := [] |}.

(** The client that [__init__] builds from the key "k". *)
Definition client : EIADataIngestion.Client :=
  {| EIADataIngestion.api_key := "k";
     EIADataIngestion.base_url := EIADataIngestion.EIA_API_BASE_URL;
     EIADataIngestion.series_ids := SERIES_MAPPING.*1 |}.

(** The silver run on [one_series_raw] and the table it returns. *)
Definition one_series_run : result (list ObservationRow) * world :=
  SilverTransformation.run SilverTransformation.strptime_Ym
    SilverTransformation.parse_float (bronze_world one_series_raw).
Definition one_series_out : list ObservationRow :=
  match one_series_run.1 with Ok out => out | Raise _ => [] end.

(** The full pipeline with the key "k" from the start state, against the
    API that answers and against the one that fails. *)
Definition full_run
  : EIADataIngestion.outcome bool * EIADataIngestion.net_world :=
  Pipeline.run_full_pipeline (Some "k") good_api clock
    SilverTransformation.strptime_Ym SilverTransformation.parse_float
    start_state.
Definition failed_run
  : EIADataIngestion.outcome bool * EIADataIngestion.net_world :=
  Pipeline.run_full_pipeline (Some "k") flaky_api clock
    SilverTransformation.strptime_Ym SilverTransformation.parse_float
    start_state.

(** A state in which only the silver file exists. *)
Definition silver_only_state : EIADataIngestion.net_world :=
  {| EIADataIngestion.files := silver_world thirds;
     EIADataIngestion.bronze_metadata := None;
     EIADataIngestion.sent := [] |}.

End MoreExamples.


(** * Properties *)

Ltac decide_by_computation :=
  apply (bool_decide_unpack _); vm_compute; exact I.

(** ** Association lists and column assignment *)

Lemma assoc_set_eq {V} k (v : V) l : assoc k (assoc_set k v l) = Some v.
Proof.
  induction l as [|[k' v'] l IH]; simpl.
  - by rewrite decide_True.
  - destruct (decide (k' = k)) as [->|Hne]; simpl.
    + by rewrite decide_True.
    + by rewrite decide_False.
Qed.

Lemma assoc_set_ne {V} k k' (v : V) l :
  k ≠ k' → assoc k' (assoc_set k v l) = assoc k' l.
Proof.
  intros Hne. induction l as [|[k0 v0] l IH]; simpl.
  - by rewrite decide_False.
  - destruct (decide (k0 = k)) as [->|Hne0]; simpl.
    + by rewrite !(decide_False (P := k = k')).
    + by rewrite IH.
Qed.

Lemma assoc_tabulate {V} (f : string → V) c (l : list string) :
  c ∈ l → assoc c ((λ c, (c, f c)) <$> l) = Some (f c).
Proof.
  induction l as [|c' l IH]; simpl.
  - by intros ?%elem_of_nil.
  - intros Hin. destruct (decide (c' = c)) as [->|Hne]; [done|].
    apply elem_of_cons in Hin as [->|Hin]; [done|]. by apply IH.
Qed.

Lemma assoc_tabulate_None {V} (f : string → V) c (l : list string) :
  c ∉ l → assoc c ((λ c, (c, f c)) <$> l) = None.
Proof.
  induction l as [|c' l IH]; simpl; [done|].
  intros Hin. apply not_elem_of_cons in Hin as [Hne Hin].
  rewrite decide_False by done. by apply IH.
Qed.

Lemma get_assign_eq name f df i r :
  rows df !! i = Some r →
  ∃ r', rows (assign name f df) !! i = Some r' ∧ w_year r' = w_year r ∧
        cell name r' = Some (f r) ∧ get name r' = f r ∧
        ∀ c, c ≠ name → cell c r' = cell c r ∧ get c r' = get c r.
Proof.
  intros Hr. eexists. split.
  { unfold assign; simpl. rewrite list_lookup_fmap, Hr. reflexivity. }
  unfold get, cell; simpl. rewrite assoc_set_eq. repeat split; auto.
  all: by rewrite assoc_set_ne.
Qed.

Lemma rows_assign_lookup name f df i :
  rows (assign name f df) !! i =
  (λ r, {| w_year := w_year r; cells := assoc_set name (f r) (cells r) |})
    <$> rows df !! i.
Proof. unfold assign; simpl. by rewrite list_lookup_fmap. Qed.

Lemma columns_assign name f df c :
  c ∈ columns (assign name f df) ↔ c ∈ columns df ∨ c = name.
Proof.
  unfold columns, assign; simpl. rewrite !elem_of_cons.
  destruct (decide (name ∈ data_columns df)) as [Hin|Hin].
  - split; [tauto|]. intros [H| ->]; tauto.
  - rewrite elem_of_app, list_elem_of_singleton. tauto.
Qed.

Lemma filter_columns_assign (P : string → Prop) `{∀ c, Decision (P c)}
    name f df :
  ¬ P name →
  filter P (columns (assign name f df)) = filter P (columns df).
Proof.
  intros HP. unfold columns, assign; simpl.
  destruct (decide (name ∈ data_columns df)); [done|].
  rewrite app_comm_cons, filter_app. simpl.
  rewrite (filter_cons_False P name) by done.
  rewrite filter_nil. apply app_nil_r.
Qed.

(** ** Sums that skip absent cells *)

Lemma fadd_zero_r x : fadd x (Finite 0) = x.
Proof. destruct x; simpl; [|done..]. by rewrite Qcplus_0_r. Qed.

Lemma foldl_fadd_skipna acc xs :
  foldl fadd acc ((λ x, if isna x then Finite 0 else x) <$> xs)
  = foldl fadd acc (filter (λ x, notna x = true) xs).
Proof.
  revert acc. induction xs as [|x xs IH]; intros acc; [done|].
  rewrite fmap_cons. cbn [foldl].
  destruct x as [q|s|]; cbn [isna].
  - rewrite filter_cons_True by done. cbn [foldl]. apply IH.
  - rewrite filter_cons_True by done. cbn [foldl]. apply IH.
  - rewrite filter_cons_False by (by cbn). rewrite fadd_zero_r. apply IH.
Qed.

Lemma nansum_present xs :
  nansum xs = fsum (filter (λ x, notna x = true) xs).
Proof. apply foldl_fadd_skipna. Qed.

Lemma nansum_all_absent xs :
  Forall (λ x, isna x = true) xs → nansum xs = Finite 0.
Proof.
  intros Hall. rewrite nansum_present.
  replace (filter (λ x, notna x = true) xs) with (@nil float64); [done|].
  symmetry. induction Hall as [|x xs Hx _ IH]; [done|].
  rewrite filter_cons_False; [done|]. unfold notna. by rewrite Hx.
Qed.

(** ** The balance columns, row by row *)

Section BalanceColumns.
Import Config GoldAggregation.

Lemma cell_assoc_set_eq name v y cs :
  cell name {| w_year := y; cells := assoc_set name v cs |} = Some v.
Proof. apply assoc_set_eq. Qed.

Lemma cell_assoc_set_ne name c v y cs :
  name ≠ c →
  cell c {| w_year := y; cells := assoc_set name v cs |}
  = cell c {| w_year := y; cells := cs |}.
Proof. intros. by apply assoc_set_ne. Qed.

Lemma get_assoc_set_eq name v y cs :
  get name {| w_year := y; cells := assoc_set name v cs |} = v.
Proof. unfold get. by rewrite cell_assoc_set_eq. Qed.

Lemma get_assoc_set_ne name c v y cs :
  name ≠ c →
  get c {| w_year := y; cells := assoc_set name v cs |}
  = get c {| w_year := y; cells := cs |}.
Proof. intros. unfold get. by rewrite cell_assoc_set_ne. Qed.

Lemma row_eta r : {| w_year := w_year r; cells := cells r |} = r.
Proof. by destruct r. Qed.

Lemma sum_axis1_assoc_set_ne name v cols r :
  name ∉ cols →
  sum_axis1 cols {| w_year := w_year r; cells := assoc_set name v (cells r) |}
  = sum_axis1 cols r.
Proof.
  intros Hnin. unfold sum_axis1. f_equal. apply list_fmap_ext.
  intros i c Hc. rewrite get_assoc_set_ne, row_eta; [done|].
  intros ->. apply Hnin. by eapply list_elem_of_lookup_2.
Qed.

Lemma sum_axis1_present cols r :
  sum_axis1 cols r
  = fsum (filter (λ x, notna x = true) ((λ c, get c r) <$> cols)).
Proof. apply nansum_present. Qed.

Lemma sum_axis1_all_absent cols r :
  Forall (λ c, isna (get c r) = true) cols → sum_axis1 cols r = Finite 0.
Proof. intros Hall. apply nansum_all_absent. by apply Forall_fmap. Qed.

(** What [add_balance_check] leaves in the row at position [i]. *)
Lemma add_balance_columns_row (df : DataFrame) (i : nat) (r : Row) :
  rows df !! i = Some r →
  let scols := filter (λ col, col ∈ SUPPLY_COMPONENTS) (columns df) in
  let dcols := filter (λ col, col ∈ DISPOSITION_COMPONENTS) (columns df) in
  let out := add_balance_columns df in
  ∃ r', rows out !! i = Some r' ∧
        w_year r' = w_year r ∧
        (scols ≠ [] → cell "Total_Supply" r' = Some (sum_axis1 scols r)) ∧
        (dcols ≠ [] → cell "Total_Disposition" r' = Some (sum_axis1 dcols r)) ∧
        ("Total_Supply" ∈ columns out → "Total_Disposition" ∈ columns out →
         cell "Balance_Difference" r'
         = Some (fsub (get "Total_Supply" r') (get "Total_Disposition" r')) ∧
         cell "Balance_Pct_Diff" r'
         = Some (fround 3 (fmul (fdiv (get "Balance_Difference" r')
                                      (get "Total_Supply" r'))
                                (of_Z 100)))).
Proof.
  intros Hr scols dcols out. subst out. unfold add_balance_columns.
  fold scols.
  set (df1 := match scols with [] => df | _ => _ end).
  assert (Hd : filter (λ col, col ∈ DISPOSITION_COMPONENTS) (columns df1)
               = dcols).
  { subst df1. destruct scols; [done|].
    apply filter_columns_assign. decide_by_computation. }
  rewrite Hd.
  assert (HTS : "Total_Supply" ∉ dcols).
  { intros [H _]%list_elem_of_filter. revert H. decide_by_computation. }
  set (df2 := match dcols with [] => df1 | _ => _ end).
  set (bal := assign "Balance_Pct_Diff" _ _).
  assert (∃ r1, rows df1 !! i = Some r1 ∧ w_year r1 = w_year r ∧
            (scols ≠ [] → cell "Total_Supply" r1 = Some (sum_axis1 scols r)) ∧
            sum_axis1 dcols r1 = sum_axis1 dcols r)
    as (r1 & Hr1 & Hy1 & Hs1 & Hd1).
  { subst df1. destruct scols as [|c0 scols'] eqn:Hsc.
    - exists r. done.
    - eexists. rewrite rows_assign_lookup, Hr. split; [done|].
      split; [done|]. split.
      + intros _. apply cell_assoc_set_eq.
      + by apply sum_axis1_assoc_set_ne. }
  assert (∃ r2, rows df2 !! i = Some r2 ∧ w_year r2 = w_year r ∧
            (scols ≠ [] → cell "Total_Supply" r2 = Some (sum_axis1 scols r)) ∧
            (dcols ≠ [] →
             cell "Total_Disposition" r2 = Some (sum_axis1 dcols r)))
    as (r2 & Hr2 & Hy2 & Hs2 & Hd2).
  { subst df2. destruct dcols as [|c0 dcols'] eqn:Hdc.
    - exists r1. done.
    - eexists. rewrite rows_assign_lookup, Hr1. split; [done|].
      split; [done|]. split.
      + intros Hne. rewrite cell_assoc_set_ne by done.
        rewrite row_eta. by apply Hs1.
      + intros _. rewrite cell_assoc_set_eq. by rewrite Hd1. }
  case_decide as Hcond.
  - subst bal. eexists. rewrite !rows_assign_lookup, Hr2.
    split; [done|]. split; [done|]. simpl.
    rewrite !(cell_assoc_set_ne _ "Total_Supply") by done.
    rewrite !(cell_assoc_set_ne _ "Total_Disposition") by done.
    rewrite row_eta. split; [done|]. split; [done|]. intros _ _.
    rewrite cell_assoc_set_eq.
    rewrite (cell_assoc_set_ne "Balance_Pct_Diff" "Balance_Difference")
      by done.
    rewrite cell_assoc_set_eq.
    rewrite !(get_assoc_set_ne "Balance_Pct_Diff") by done.
    rewrite get_assoc_set_eq.
    rewrite !(get_assoc_set_ne "Balance_Difference") by done.
    by rewrite row_eta.
  - exists r2. repeat (split; [done|]). intros ??. by destruct Hcond.
Qed.

End BalanceColumns.

(** ** Stateful steps *)

Section Stateful.
Import GoldAggregation.

Lemma deref_ok l df w : frames w !! l = Some df → deref l w = (Ok df, w).
Proof. intros H. unfold deref. by rewrite H. Qed.

Lemma update_ok l f df w :
  frames w !! l = Some df →
  update l f w = (Ok tt, with_frames (<[l := f df]> (frames w)) w).
Proof.
  intros H. unfold update, mbind, M_bind. by rewrite (deref_ok l df).
Qed.

Lemma add_balance_check_ok l df w :
  frames w !! l = Some df →
  add_balance_check l w
  = (Ok l, with_frames (<[l := add_balance_columns df]> (frames w)) w).
Proof.
  intros H. unfold add_balance_check, mbind, M_bind.
  by rewrite (update_ok l _ df).
Qed.

End Stateful.

(** ** Claims about the balance check *)

Section BalanceClaims.
Import Config GoldAggregation Examples.
Local Open Scope Qc_scope.

(** C1 (amended).  For every row of the wide table, [Total_Supply] (resp.
    [Total_Disposition]) is the sum of the present Supply (resp.
    Disposition) cells of that row: absent cells contribute nothing.  When
    every such cell of the row is absent the total is the number zero, a
    present value, not the absent marker. *)
Theorem totals_skip_absent_cells (df : DataFrame) (i : nat) (r : Row) :
  rows df !! i = Some r →
  ∃ r', rows (add_balance_columns df) !! i = Some r' ∧
        w_year r' = w_year r ∧
        (∀ cols,
           cols = filter (λ col, col ∈ SUPPLY_COMPONENTS) (columns df) →
           cols ≠ [] →
           cell "Total_Supply" r'
           = Some (fsum (filter (λ x, notna x = true)
                                ((λ c, get c r) <$> cols))) ∧
           (Forall (λ c, isna (get c r) = true) cols →
            cell "Total_Supply" r' = Some (Finite 0))) ∧
        (∀ cols,
           cols = filter (λ col, col ∈ DISPOSITION_COMPONENTS) (columns df) →
           cols ≠ [] →
           cell "Total_Disposition" r'
           = Some (fsum (filter (λ x, notna x = true)
                                ((λ c, get c r) <$> cols))) ∧
           (Forall (λ c, isna (get c r) = true) cols →
            cell "Total_Disposition" r' = Some (Finite 0))).
Proof.
  intros Hr.
  destruct (add_balance_columns_row df i r Hr)
    as (r' & Hr' & Hy & Hs & Hd & _).
  exists r'. split; [done|]. split; [done|].
  split; intros cols -> Hne.
  - rewrite (Hs Hne). split.
    + by rewrite sum_axis1_present.
    + intros Hall. by rewrite sum_axis1_all_absent.
  - rewrite (Hd Hne). split.
    + by rewrite sum_axis1_present.
    + intros Hall. by rewrite sum_axis1_all_absent.
Qed.

Lemma totals_skip_absent_cells_witness :
  ∃ r', rows (add_balance_columns disposition_only) !! 0%nat = Some r' ∧
        w_year r' = 2020%Z ∧
        (∀ cols,
           cols = filter (λ col, col ∈ SUPPLY_COMPONENTS)
                         (columns disposition_only) →
           cols ≠ [] →
           cell "Total_Supply" r'
           = Some (fsum (filter (λ x, notna x = true)
                     ((λ c, get c (wide_row 2020 [("Production", NaN);
                                                  ("Exports", of_Z 20)]))
                        <$> cols))) ∧
           (Forall (λ c, isna (get c (wide_row 2020 [("Production", NaN);
                                                     ("Exports", of_Z 20)]))
                         = true) cols →
            cell "Total_Supply" r' = Some (Finite 0))) ∧
        (∀ cols,
           cols = filter (λ col, col ∈ DISPOSITION_COMPONENTS)
                         (columns disposition_only) →
           cols ≠ [] →
           cell "Total_Disposition" r'
           = Some (fsum (filter (λ x, notna x = true)
                     ((λ c, get c (wide_row 2020 [("Production", NaN);
                                                  ("Exports", of_Z 20)]))
                        <$> cols))) ∧
           (Forall (λ c, isna (get c (wide_row 2020 [("Production", NaN);
                                                     ("Exports", of_Z 20)]))
                         = true) cols →
            cell "Total_Disposition" r' = Some (Finite 0))).
Proof.
  apply (totals_skip_absent_cells disposition_only 0
           (wide_row 2020 [("Production", NaN); ("Exports", of_Z 20)])).
  reflexivity.
Defined.

(** C1 as stated fails: in the frame [disposition_only] the row of 2020 has
    a Supply column, every Supply cell of the row is absent, and
    [Total_Supply] is the present value 0, not the absent marker. *)
Lemma all_absent_supply_total_is_zero :
  filter (λ col, col ∈ SUPPLY_COMPONENTS) (columns disposition_only)
  = ["Production"] ∧
  (rows disposition_only !! 0%nat) ≫= cell "Production" = Some NaN ∧
  (rows (add_balance_columns disposition_only) !! 0%nat)
    ≫= cell "Total_Supply" = Some (Finite 0) ∧
  (rows (add_balance_columns disposition_only) !! 0%nat)
    ≫= cell "Total_Supply" ≠ Some NaN ∧
  isna (Finite 0) = false.
Proof. decide_by_computation. Qed.





(** The two balance unit tests: 180 against 180 gives difference 0 and
    0 percent; 180 against 170 gives difference 10 and 5.556 percent. *)
Example balance_check_perfect_match :
  (λ r, (cell "Total_Supply" r, cell "Total_Disposition" r,
         cell "Balance_Difference" r, cell "Balance_Pct_Diff" r))
    <$> rows (add_balance_columns (balanced 150))
  = [(Some (of_Z 180), Some (of_Z 180), Some (of_Z 0), Some (of_Z 0))].
Proof. decide_by_computation. Qed.

Example balance_check_with_difference :
  (λ r, (cell "Total_Supply" r, cell "Total_Disposition" r,
         cell "Balance_Difference" r, cell "Balance_Pct_Diff" r))
    <$> rows (add_balance_columns (balanced 140))
  = [(Some (of_Z 180), Some (of_Z 170), Some (of_Z 10), Some (dec 5556 3))].
Proof. decide_by_computation. Qed.

End BalanceClaims.

(** ** Annual averages *)

Section AnnualAverages.
Import Config GoldAggregation Examples.
Local Open Scope Qc_scope.








Lemma elem_of_group_keys df k :
  k ∈ group_keys df ↔ k ∈ group_key <$> df.
Proof.
  unfold group_keys. rewrite merge_sort_Permutation.
  apply elem_of_remove_dups.
Qed.

Lemma NoDup_group_keys df : NoDup (group_keys df).
Proof.
  unfold group_keys. rewrite merge_sort_Permutation.
  apply NoDup_remove_dups.
Qed.

Lemma annual_keys df :
  (λ a, (a_year a, a_component a)) <$> calculate_annual_averages df
  = group_keys df.
Proof.
  unfold calculate_annual_averages. rewrite <- list_fmap_compose.
  rewrite <- (list_fmap_id (group_keys df)) at 2.
  apply list_fmap_ext. by intros i [y c] _.
Qed.





(** The two unit tests of [calculate_annual_averages]. *)
Example annual_averages_two_years :
  calculate_annual_averages two_years
  = [{| a_year := 2020; a_component := "Production";
        annual_avg_mbblpd := of_Z 100 |};
     {| a_year := 2021; a_component := "Production";
        annual_avg_mbblpd := of_Z 200 |}].
Proof. decide_by_computation. Qed.

Example annual_averages_partial_year :
  calculate_annual_averages partial_year
  = [{| a_year := 2020; a_component := "Production";
        annual_avg_mbblpd := of_Z 150 |}].
Proof. decide_by_computation. Qed.

End AnnualAverages.

(** ** The silver layer *)

Section Silver.
Import Config SilverTransformation Examples.

Variable to_datetime : string → option Date.
Variable to_numeric : string → float64.

Lemma clean_row_Ok raw r :
  clean_row to_datetime to_numeric raw = Ok r →
  cleaned_from to_datetime to_numeric raw r.
Proof.
  unfold clean_row, cleaned_from.
  destruct (to_datetime (r_period raw)) as [d|]; [|done].
  by intros [= <-].
Qed.

Lemma clean_row_parsed raw :
  is_Some (to_datetime (r_period raw)) →
  ∃ r, clean_row to_datetime to_numeric raw = Ok r.
Proof. intros [d Hd]. unfold clean_row. rewrite Hd. by eexists. Qed.


Lemma mapM_cons_result {A B} (f : A → result B) x l :
  mapM f (x :: l) = y ← f x; k ← mapM f l; Ok (y :: k).
Proof. reflexivity. Qed.

Lemma mapM_clean_row_Ok df cleaned :
  mapM (clean_row to_datetime to_numeric) df = Ok cleaned →
  Forall2 (cleaned_from to_datetime to_numeric) df cleaned.
Proof.
  revert cleaned. induction df as [|raw df IH]; intros cleaned.
  - intros [= <-]. constructor.
  - rewrite mapM_cons_result.
    destruct (clean_row to_datetime to_numeric raw) as [r|e] eqn:Hr; [|done].
    destruct (mapM (clean_row to_datetime to_numeric) df) as [k|e]; [|done].
    intros [= <-]. constructor; [by apply clean_row_Ok | by apply IH].
Qed.

Lemma mapM_clean_row_total df :
  Forall (λ raw, is_Some (to_datetime (r_period raw))) df →
  ∃ cleaned, mapM (clean_row to_datetime to_numeric) df = Ok cleaned.
Proof.
  induction 1 as [|raw df [r Hr]%clean_row_parsed _ [k IH]].
  - by eexists.
  - rewrite mapM_cons_result, Hr, IH. by eexists.
Qed.


Lemma length_filter_cleaned df cleaned :
  Forall2 (cleaned_from to_datetime to_numeric) df cleaned →
  length (filter (λ r, notna (value_mbblpd r) = true) cleaned)
  = length (filter (λ raw, notna (to_numeric (r_value raw)) = true) df).
Proof.
  induction 1 as [|raw r df cleaned (_ & Hv & _) _ IH]; [done|].
  destruct (decide (notna (to_numeric (r_value raw)) = true)) as [Hp|Hp].
  - rewrite !filter_cons_True by (by rewrite ?Hv). simpl. by rewrite IH.
  - by rewrite !filter_cons_False by (by rewrite ?Hv).
Qed.

Lemma clean_and_normalize_spec (df : list RawRow) :
  (Forall (λ raw, is_Some (to_datetime (r_period raw))) df →
   ∃ out, clean_and_normalize to_datetime to_numeric df = Ok out) ∧
  (∀ out, clean_and_normalize to_datetime to_numeric df = Ok out →
     ∃ cleaned,
       Forall2 (cleaned_from to_datetime to_numeric) df cleaned ∧
       out ≡ₚ filter (λ r, notna (value_mbblpd r) = true) cleaned ∧
       Forall (λ r, isna (value_mbblpd r) = false) out ∧
       Forall (λ r, ∃ raw, raw ∈ df ∧
                           cleaned_from to_datetime to_numeric raw r) out ∧
       length out
       = length (filter (λ raw, notna (to_numeric (r_value raw)) = true) df)).
Proof.
  unfold clean_and_normalize. split.
  - intros [cleaned ->]%mapM_clean_row_total. by eexists.
  - intros out.
    destruct (mapM (clean_row to_datetime to_numeric) df)
      as [cleaned|e] eqn:Hc; [|done].
    intros [= <-]. apply mapM_clean_row_Ok in Hc.
    exists cleaned. split; [done|].
    assert (Hperm : filter (λ r, notna (value_mbblpd r) = true)
                      (merge_sort row_le cleaned)
                    ≡ₚ filter (λ r, notna (value_mbblpd r) = true) cleaned)
      by by rewrite merge_sort_Permutation.
    split; [done|]. split; [|split].
    + apply Forall_forall. intros r [Hr _]%list_elem_of_filter.
      unfold notna in Hr. by destruct (isna (value_mbblpd r)).
    + apply Forall_forall. intros r Hr. rewrite Hperm in Hr.
      apply list_elem_of_filter in Hr as [_ Hr].
      apply list_elem_of_lookup in Hr as [i Hi].
      destruct (Forall2_lookup_r _ _ _ _ _ Hc Hi) as (raw & Hraw & Hcr).
      exists raw. split; [|done]. by eapply list_elem_of_lookup_2.
    + rewrite Hperm. by apply length_filter_cleaned.
Qed.

Lemma run_raises w raw dfs e :
  bronze_file w = Some raw →
  parse_all raw = Ok dfs →
  (combined ← pd_concat dfs;
   clean_and_normalize to_datetime to_numeric combined) = Raise e →
  run to_datetime to_numeric w = (Raise e, w).
Proof.
  intros Hb Hp He. unfold run, mbind, M_bind.
  unfold load_raw_data. rewrite Hb. unfold lift. rewrite Hp.
  destruct (pd_concat dfs) as [combined|e'] eqn:Hcc; simpl in He.
  - by rewrite He.
  - by inversion He.
Qed.

End Silver.

Section SilverClaims.
Import Config SilverTransformation Examples.

(** C5.  When every period parses, [clean_and_normalize] returns; what it
    returns is, up to the sort, the cleaned rows (one per raw row, with
    [year] and [month] taken from the parsed date) minus exactly those
    whose value the numeric coercion turned into NaN.  No returned row has
    an absent value.  The unit-test batch of four rows with one value that
    is not a number gives the three other rows. *)
Theorem normalization_drops_exactly_failed_values
    (to_datetime : string → option Date) (to_numeric : string → float64)
    (df : list RawRow) :
  (Forall (λ raw, is_Some (to_datetime (r_period raw))) df →
   ∃ out, clean_and_normalize to_datetime to_numeric df = Ok out) ∧
  (∀ out, clean_and_normalize to_datetime to_numeric df = Ok out →
     ∃ cleaned,
       Forall2 (cleaned_from to_datetime to_numeric) df cleaned ∧
       out ≡ₚ filter (λ r, notna (value_mbblpd r) = true) cleaned ∧
       Forall (λ r, isna (value_mbblpd r) = false) out ∧
       Forall (λ r, ∃ raw, raw ∈ df ∧
                           cleaned_from to_datetime to_numeric raw r) out ∧
       length out
       = length (filter (λ raw, notna (to_numeric (r_value raw)) = true) df)) ∧
  clean_and_normalize strptime_Ym parse_float unit_test_batch
  = Ok [clean 1 (dec 1005 1); clean 2 (dec 2003 1); clean 4 (of_Z 150)].
Proof.
  destruct (clean_and_normalize_spec to_datetime to_numeric df) as [H1 H2].
  split; [done|]. split; [done|]. decide_by_computation.
Qed.



Lemma parse_series_data_no_observations series_id api_response :
  observation_list api_response = [] →
  parse_series_data series_id api_response = Ok [].
Proof.
  unfold observation_list, parse_series_data.
  destruct (response api_response) as [body|]; [|done].
  destruct (data body) as [[|rec records]|]; done.
Qed.

Lemma parse_all_no_observations raw :
  Forall (λ item, observation_list item.2 = []) raw →
  parse_all raw = Ok [].
Proof.
  induction 1 as [|[series_id api_response] raw Hx _ IH]; [done|].
  simpl in Hx. cbn [parse_all].
  by rewrite (parse_series_data_no_observations _ _ Hx), IH.
Qed.

(** C9.  If every series of the raw mapping has a missing or empty
    observation list, the silver [run] raises (the ValueError of
    [pd.concat] on no frames) and leaves the world as it was: no silver
    file is written. *)
Theorem all_empty_series_raise
    (to_datetime : string → option Date) (to_numeric : string → float64)
    (w : world) (raw : list (string * ApiResponse)) :
  bronze_file w = Some raw →
  Forall (λ item, observation_list item.2 = []) raw →
  run to_datetime to_numeric w = (Raise ValueError, w).
Proof.
  intros Hb Hall.
  apply (run_raises _ _ w raw []); [done| |done].
  by apply parse_all_no_observations.
Qed.

Lemma all_empty_series_raise_witness :
  run strptime_Ym parse_float (bronze_world all_empty_raw)
  = (Raise ValueError, bronze_world all_empty_raw).
Proof.
  apply (all_empty_series_raise strptime_Ym parse_float
           (bronze_world all_empty_raw) all_empty_raw).
  - reflexivity.
  - repeat constructor.
Defined.

(** A series without observations next to one with observations is
    skipped: the run succeeds on the rows of the other series. *)
Example empty_series_are_skipped :
  (run strptime_Ym parse_float (bronze_world one_series_raw)).1
  = Ok [ {| date := {| d_year := 2020; d_month := 1 |};
            series_id := "MDIRPP32"; component := "Production";
            value_mbblpd := dec 1005 1; year := 2020; month := 1;
            category := "Supply" |};
         {| date := {| d_year := 2020; d_month := 2 |};
            series_id := "MDIRPP32"; component := "Production";
            value_mbblpd := dec 2003 1; year := 2020; month := 2;
            category := "Supply" |} ].
Proof. decide_by_computation. Qed.

End SilverClaims.

(** ** The pivot to wide format *)

Section Pivot.
Import Config GoldAggregation Examples.

Lemma NoDup_fmap_inj_on {A B} (f : A → B) (l : list A) x y :
  NoDup (f <$> l) → x ∈ l → y ∈ l → f x = f y → x = y.
Proof.
  intros Hnd [i Hi]%list_elem_of_lookup [j Hj]%list_elem_of_lookup Hf.
  assert (i = j) as ->.
  { apply (NoDup_lookup (f <$> l) i j (f x)); [done|..].
    - by rewrite list_lookup_fmap, Hi.
    - by rewrite list_lookup_fmap, Hj, Hf. }
  congruence.
Qed.

Lemma pivot_cell_absent (df : list AnnualMetric) y c :
  (∀ a, a ∈ df → ¬ (a_year a = y ∧ a_component a = c)) →
  pivot_cell df y c = NaN.
Proof.
  intros Hno. unfold pivot_cell.
  destruct (list_find _ df) as [[i a]|] eqn:Hf; [|done].
  apply list_find_Some in Hf as (Hi & Ha & _).
  destruct (Hno a); [|done]. by eapply list_elem_of_lookup_2.
Qed.

Lemma pivot_cell_present (df : list AnnualMetric) a :
  NoDup ((λ a, (a_year a, a_component a)) <$> df) →
  a ∈ df →
  pivot_cell df (a_year a) (a_component a) = annual_avg_mbblpd a.
Proof.
  intros Hnd Ha. unfold pivot_cell.
  destruct (list_find _ df) as [[i a']|] eqn:Hf.
  - apply list_find_Some in Hf as (Hi & [Hy Hc] & _).
    assert (a' = a) as ->; [|done].
    apply (NoDup_fmap_inj_on (λ a, (a_year a, a_component a)) df);
      [done| |done|congruence].
    by eapply list_elem_of_lookup_2.
  - apply list_find_None in Hf.
    rewrite Forall_forall in Hf. by destruct (Hf a Ha).
Qed.

(** The sorted distinct years and components of a long table. *)
Lemma elem_of_sorted_distinct `{EqDecision A} (R : relation A)
    `{∀ x y, Decision (R x y)} (l : list A) x :
  x ∈ merge_sort R (remove_dups l) ↔ x ∈ l.
Proof. rewrite merge_sort_Permutation. apply elem_of_remove_dups. Qed.

Lemma pivot_reset_index_Ok df wide0 :
  pivot_reset_index df = Ok wide0 →
  NoDup ((λ a, (a_year a, a_component a)) <$> df) ∧
  (∀ c, c ∈ data_columns wide0 ↔ c ∈ a_component <$> df) ∧
  ("year" ∉ data_columns wide0) ∧
  (∀ r0, r0 ∈ rows wide0 →
         w_year r0 ∈ a_year <$> df ∧
         ∀ c, c ∈ data_columns wide0 → get c r0 = pivot_cell df (w_year r0) c).
Proof.
  unfold pivot_reset_index. case_decide as Hnd; [|done].
  case_decide as Hy; [done|]. intros [= <-]. simpl.
  split; [done|]. split; [intros c; apply elem_of_sorted_distinct|].
  split; [done|]. intros r0 (y & -> & Hyr)%list_elem_of_fmap. simpl.
  split; [by apply elem_of_sorted_distinct in Hyr|].
  intros c Hc. unfold get, cell. simpl. by rewrite assoc_tabulate.
Qed.

Lemma pivot_reset_index_total df :
  NoDup ((λ a, (a_year a, a_component a)) <$> df) →
  "year" ∉ a_component <$> df →
  ∃ wide0, pivot_reset_index df = Ok wide0.
Proof.
  intros Hnd Hy. unfold pivot_reset_index.
  rewrite decide_True by done.
  rewrite decide_False; [by eexists|].
  by rewrite elem_of_sorted_distinct.
Qed.

Lemma component_order_columns wide0 :
  Forall (λ c, c ∈ columns wide0) (component_order wide0).
Proof.
  unfold component_order. apply Forall_app.
  split; apply Forall_forall; by intros c [[_ ?] _]%list_elem_of_filter.
Qed.

Lemma component_order_classified wide0 c :
  c ∈ component_order wide0 →
  c ∈ SERIES_MAPPING_values ∧ c ∈ data_columns wide0 ∧
  (c ∈ SUPPLY_COMPONENTS ∨ c ∈ DISPOSITION_COMPONENTS).
Proof.
  assert (Hyear : ∀ c, c ∈ SERIES_MAPPING_values → c ≠ "year").
  { intros c' Hc' ->. revert Hc'. decide_by_computation. }
  unfold component_order. rewrite elem_of_app, !list_elem_of_filter.
  unfold columns. intros [[[Hs Hc] Hv]|[[Hd Hc] Hv]].
  all: apply elem_of_cons in Hc as [->|Hc]; [by destruct (Hyear "year")|].
  all: auto.
Qed.

Lemma pivot_to_wide_table_Ok df wide :
  pivot_to_wide_table df = Ok wide →
  ∃ wide0,
    pivot_reset_index df = Ok wide0 ∧
    data_columns wide = component_order wide0 ∧
    ∀ r, r ∈ rows wide →
         ∃ r0, r0 ∈ rows wide0 ∧ w_year r = w_year r0 ∧
               ∀ c, c ∈ data_columns wide → cell c r = Some (get c r0).
Proof.
  unfold pivot_to_wide_table.
  destruct (pivot_reset_index df) as [wide0|e] eqn:Hp; [|done].
  unfold mbind, result_bind, select_year_and. case_decide as Hall; [|done].
  intros [= <-]. exists wide0. split; [done|]. split; [done|]. simpl.
  intros r (r0 & -> & Hr0)%list_elem_of_fmap. exists r0.
  split; [done|]. split; [done|]. intros c Hc. unfold cell. simpl.
  by rewrite assoc_tabulate.
Qed.

Lemma pivot_to_wide_table_total df :
  NoDup ((λ a, (a_year a, a_component a)) <$> df) →
  "year" ∉ a_component <$> df →
  ∃ wide, pivot_to_wide_table df = Ok wide.
Proof.
  intros Hnd Hy. unfold pivot_to_wide_table.
  destruct (pivot_reset_index_total df Hnd Hy) as [wide0 ->].
  unfold mbind, result_bind, select_year_and.
  rewrite decide_True by apply component_order_columns. by eexists.
Qed.

End Pivot.

Section PivotClaims.
Import Config GoldAggregation Examples.

(** C6.  The pivot succeeds on a long table whose (year, component) pairs
    are distinct.  In its result, the cell of a pair that occurs in the
    input is the recorded average, and the cell of a pair that does not
    occur is NaN, never zero; NaN is told apart from zero by [isna].  In
    the unit-test table the Imports cell of 2021 is NaN. *)
Theorem pivot_marks_missing_pairs_absent (df : list AnnualMetric) :
  (NoDup ((λ a, (a_year a, a_component a)) <$> df) →
   "year" ∉ a_component <$> df →
   ∃ wide, pivot_to_wide_table df = Ok wide) ∧
  (∀ wide r c,
     pivot_to_wide_table df = Ok wide →
     r ∈ rows wide → c ∈ data_columns wide →
     (∀ a, a ∈ df → a_year a = w_year r → a_component a = c →
           cell c r = Some (annual_avg_mbblpd a)) ∧
     ((∀ a, a ∈ df → ¬ (a_year a = w_year r ∧ a_component a = c)) →
      cell c r = Some NaN ∧ cell c r ≠ Some (Finite 0))) ∧
  isna NaN = true ∧ isna (Finite 0) = false ∧
  pivot_to_wide_table missing_imports
  = Ok {| data_columns := ["Production"; "Imports"];
          rows := [wide_row 2020 [("Production", of_Z 100);
                                  ("Imports", of_Z 50)];
                   wide_row 2021 [("Production", of_Z 110);
                                  ("Imports", NaN)]] |}.
Proof.
  split; [apply pivot_to_wide_table_total|].
  split; [|split; [done|split; [done|decide_by_computation]]].
  intros wide r c Hw Hr Hc.
  destruct (pivot_to_wide_table_Ok df wide Hw) as (wide0 & Hp & Hcols & Hrows).
  destruct (Hrows r Hr) as (r0 & Hr0 & Hy & Hcell).
  destruct (pivot_reset_index_Ok df wide0 Hp) as (Hnd & _ & _ & Hget).
  destruct (Hget r0 Hr0) as [_ Hget0].
  assert (Hc0 : c ∈ data_columns wide0).
  { rewrite Hcols in Hc. by apply component_order_classified in Hc as (_&?&_). }
  rewrite (Hcell c Hc), (Hget0 c Hc0), <- Hy. split.
  - intros a Ha <- <-. by rewrite pivot_cell_present.
  - intros Hno. by rewrite pivot_cell_absent.
Qed.

(** C7 (amended).  The columns of the wide table are [year], then the
    Supply components that occur in the input, then the Disposition
    components that occur in the input, each group in the order of
    [SERIES_MAPPING]; a metric that is neither a Supply nor a Disposition
    component is not a column of the wide table. *)
Theorem wide_columns_follow_catalog (df : list AnnualMetric)
    (wide : DataFrame) :
  pivot_to_wide_table df = Ok wide →
  columns wide
  = "year"
    :: filter (λ c, c ∈ SUPPLY_COMPONENTS ∧ c ∈ a_component <$> df)
              SERIES_MAPPING_values
    ++ filter (λ c, c ∈ DISPOSITION_COMPONENTS ∧ c ∈ a_component <$> df)
              SERIES_MAPPING_values ∧
  ∀ c, c ∉ SUPPLY_COMPONENTS → c ∉ DISPOSITION_COMPONENTS →
       c ∉ data_columns wide.
Proof.
  intros Hw.
  destruct (pivot_to_wide_table_Ok df wide Hw) as (wide0 & Hp & Hcols & _).
  destruct (pivot_reset_index_Ok df wide0 Hp) as (_ & Hin & _ & _).
  split.
  - unfold columns. rewrite Hcols. unfold component_order. f_equal.
    f_equal; apply list_filter_iff; intros c; unfold columns.
    all: rewrite elem_of_cons, Hin; split; [|tauto].
    all: intros [Hcat [->|Hc]]; [|done].
    all: revert Hcat; decide_by_computation.
  - intros c Hs Hd Hc. rewrite Hcols in Hc.
    apply component_order_classified in Hc as (_ & _ & [?|?]); tauto.
Qed.

Lemma wide_columns_follow_catalog_witness :
  columns (wide_of with_other_metric)
  = "year"
    :: filter (λ c, c ∈ SUPPLY_COMPONENTS
                    ∧ c ∈ a_component <$> with_other_metric)
              SERIES_MAPPING_values
    ++ filter (λ c, c ∈ DISPOSITION_COMPONENTS
                    ∧ c ∈ a_component <$> with_other_metric)
              SERIES_MAPPING_values ∧
  ∀ c, c ∉ SUPPLY_COMPONENTS → c ∉ DISPOSITION_COMPONENTS →
       c ∉ data_columns (wide_of with_other_metric).
Proof.
  apply (wide_columns_follow_catalog with_other_metric
           (wide_of with_other_metric)).
  vm_compute. reflexivity.
Defined.

(** C7 as stated fails: [Other_Metric] occurs in the input and is in
    neither classification list, and it is not a column of the wide
    table. *)
Lemma unclassified_metric_is_dropped :
  "Other_Metric" ∈ a_component <$> with_other_metric ∧
  ("Other_Metric" ∉ SUPPLY_COMPONENTS) ∧
  ("Other_Metric" ∉ DISPOSITION_COMPONENTS) ∧
  columns <$> pivot_to_wide_table with_other_metric
  = Ok ["year"; "Production"; "Imports"; "Stock_Change"; "Exports"] ∧
  "Other_Metric" ∉ columns (wide_of with_other_metric).
Proof. decide_by_computation. Qed.

End PivotClaims.

(** ** Saving and running the gold stage *)

Section Save.
Import Config GoldAggregation Examples.
Local Open Scope Qc_scope.

Lemma thousand_ne_0 : Qc_of_Z (10 ^ Z.of_nat 3) ≠ 0.
Proof. decide_by_computation. Qed.

Lemma rint_of_Z n : rint (Qc_of_Z n) = n.
Proof.
  unfold rint. simpl. rewrite Z.div_1_r, Z.mod_1_r. reflexivity.
Qed.

(** Rounding a rounded value changes nothing. *)
Lemma fround_idempotent x : fround 3 (fround 3 x) = fround 3 x.
Proof.
  destruct x as [q| |]; [|done..]. unfold fround.
  set (s := Qc_of_Z (10 ^ Z.of_nat 3)). set (n := rint (q * s)).
  assert (Hs : s ≠ 0) by apply thousand_ne_0.
  replace (Qc_of_Z n / s * s) with (Qc_of_Z n); [by rewrite rint_of_Z|].
  field. done.
Qed.

Lemma round_columns_cons col cols d :
  round_columns (col :: cols) d
  = round_columns cols (if decide (col ≠ "year") then round_column col d
                        else d).
Proof. reflexivity. Qed.

(** The rounded frame, cell by cell. *)
Lemma round_columns_spec cols d :
  Forall (λ c, c ∈ columns d) cols →
  data_columns (round_columns cols d) = data_columns d ∧
  length (rows (round_columns cols d)) = length (rows d) ∧
  ∀ i r, rows d !! i = Some r →
    ∃ r', rows (round_columns cols d) !! i = Some r' ∧
          w_year r' = w_year r ∧
          ∀ c, get c r'
               = if decide (c ∈ cols ∧ c ≠ "year") then fround 3 (get c r)
                 else get c r.
Proof.
  revert d. induction cols as [|col cols IH]; intros d Hcols.
  - split; [done|]. split; [done|]. intros i r Hr. exists r.
    split; [done|]. split; [done|]. intros c.
    rewrite decide_False; [done|]. by intros [?%elem_of_nil _].
  - apply Forall_cons in Hcols as [Hcol Hcols].
    rewrite round_columns_cons. case_decide as Hy.
    + assert (Hin : col ∈ data_columns d).
      { unfold columns in Hcol. by apply elem_of_cons in Hcol as [?|?]. }
      assert (Hdc : data_columns (round_column col d) = data_columns d).
      { unfold round_column, assign. simpl. by rewrite decide_True. }
      destruct (IH (round_column col d)) as (Hc' & Hl' & Hrows').
      { unfold columns. by rewrite Hdc. }
      split; [by rewrite Hc'|]. split.
      { rewrite Hl'. unfold round_column, assign. simpl.
        by rewrite length_fmap. }
      intros i r Hr.
      destruct (get_assign_eq col (λ r, fround 3 (get col r)) d i r Hr)
        as (r1 & Hr1 & Hy1 & _ & Hg1 & Hother).
      destruct (Hrows' i r1 Hr1) as (r' & Hr' & Hy' & Hg').
      exists r'. split; [done|]. split; [congruence|]. intros c.
      rewrite Hg'. destruct (decide (c = col)) as [->|Hne].
      * rewrite Hg1. rewrite (decide_True (P := col ∈ col :: cols ∧ _));
          [|split; [by left|done]].
        case_decide; [apply fround_idempotent|done].
      * destruct (Hother c Hne) as [_ ->].
        apply decide_ext. rewrite elem_of_cons. tauto.
    + destruct (IH d Hcols) as (Hc' & Hl' & Hrows').
      split; [done|]. split; [done|]. intros i r Hr.
      destruct (Hrows' i r Hr) as (r' & Hr' & Hy' & Hg').
      exists r'. split; [done|]. split; [done|]. intros c. rewrite Hg'.
      apply decide_ext. rewrite elem_of_cons.
      assert (col = "year") by by destruct (decide (col = "year")); tauto.
      split; [tauto|]. intros [[->|?] ?]; [congruence|tauto].
Qed.

Lemma with_frames_with_frames fr fr' w :
  with_frames fr (with_frames fr' w) = with_frames fr w.
Proof. reflexivity. Qed.

Lemma round_loop_spec l cols d w :
  frames w !! l = Some d →
  round_loop l cols w
  = (Ok tt, with_frames (<[l := round_columns cols d]> (frames w)) w).
Proof.
  revert d w. induction cols as [|col cols IH]; intros d w Hl.
  - unfold round_columns. simpl. rewrite insert_id by done.
    unfold mret, M_ret. by destruct w.
  - cbn [round_loop]. unfold mbind, M_bind. rewrite round_columns_cons.
    case_decide.
    + rewrite (update_ok l _ d) by done.
      rewrite (IH (round_column col d)).
      * simpl. by rewrite insert_insert_eq.
      * simpl. by rewrite lookup_insert_eq.
    + unfold mret, M_ret. by apply IH.
Qed.

Lemma fresh_frame (w : world) : frames w !! fresh (dom (frames w)) = None.
Proof. apply not_elem_of_dom, is_fresh. Qed.

(** [save_annual_data] in one step. *)
Lemma save_annual_data_spec l d w :
  frames w !! l = Some d →
  save_annual_data l w
  = (Ok tt,
     with_gold_file (rounded_copy d)
       (with_frames (<[fresh (dom (frames w)) := rounded_copy d]> (frames w))
                    w)).
Proof.
  intros Hl. unfold save_annual_data, mbind, M_bind.
  rewrite (deref_ok l d) by done. unfold alloc.
  set (l' := fresh (dom (frames w))).
  set (w1 := with_frames (<[l' := d]> (frames w)) w).
  assert (Hl1 : frames w1 !! l' = Some d) by by (simpl; rewrite lookup_insert_eq).
  rewrite (deref_ok l' d w1) by done.
  rewrite (round_loop_spec l' (columns d) d w1) by done.
  rewrite (deref_ok l' (round_columns (columns d) d)).
  - unfold to_csv, modify, rounded_copy. simpl. by rewrite insert_insert_eq.
  - simpl. by rewrite lookup_insert_eq.
Qed.

(** [run] in one step. *)
Lemma run_spec clean wide w :
  silver_file w = Some clean →
  pivot_to_wide_table (calculate_annual_averages clean) = Ok wide →
  let l := fresh (dom (frames w)) in
  let out := add_balance_columns wide in
  let w2 := with_frames (<[l := out]> (frames w)) w in
  run w
  = (Ok l,
     with_gold_file (rounded_copy out)
       (with_frames (<[fresh (dom (frames w2)) := rounded_copy out]>
                       (frames w2)) w2)).
Proof.
  intros Hs Hp l out w2. unfold run, mbind, M_bind.
  unfold load_clean_data. rewrite Hs.
  unfold pivot_to_wide_format, mbind, M_bind, lift. rewrite Hp.
  unfold alloc. fold l.
  rewrite (add_balance_check_ok l wide); [|simpl; by rewrite lookup_insert_eq].
  rewrite with_frames_with_frames. cbn [frames with_frames].
  rewrite insert_insert_eq. fold out. fold w2.
  assert (Hl : frames w2 !! l = Some out)
    by (simpl; by rewrite lookup_insert_eq).
  by rewrite (save_annual_data_spec l out w2 Hl).
Qed.

(** What [run] returns and writes. *)
Lemma run_returns clean wide w :
  silver_file w = Some clean →
  pivot_to_wide_table (calculate_annual_averages clean) = Ok wide →
  ∃ l w', run w = (Ok l, w') ∧
          frames w' !! l = Some (add_balance_columns wide) ∧
          gold_file w' = Some (rounded_copy (add_balance_columns wide)).
Proof.
  intros Hs Hp. eexists _, _.
  split; [apply (run_spec clean wide w Hs Hp)|]. simpl. split; [|done].
  rewrite lookup_insert_ne.
  - by rewrite lookup_insert_eq.
  - intros Heq.
    pose proof (is_fresh (dom (<[fresh (dom (frames w))
                                 := add_balance_columns wide]> (frames w))))
      as Hf.
    rewrite Heq in Hf. apply Hf. rewrite dom_insert. set_solver.
Qed.

End Save.

Section RunClaims.
Import Config GoldAggregation Examples.

(** C10.  [save_annual_data] leaves every existing DataFrame object as it
    was, the one passed in included: it writes to the gold file a copy in
    which every data cell is rounded to 3 decimals.  Hence the object
    returned by [run] holds the unrounded table and the gold file the
    rounded one. *)
Theorem save_rounds_a_copy (w : world) (df : positive) (d : DataFrame) :
  frames w !! df = Some d →
  (∃ w' g,
     save_annual_data df w = (Ok tt, w') ∧
     (∀ l, is_Some (frames w !! l) → frames w' !! l = frames w !! l) ∧
     frames w' !! df = Some d ∧
     gold_file w' = Some g ∧
     data_columns g = data_columns d ∧
     length (rows g) = length (rows d) ∧
     ∀ i r, rows d !! i = Some r →
       ∃ r', rows g !! i = Some r' ∧ w_year r' = w_year r ∧
             ∀ c, c ∈ data_columns d → c ≠ "year" →
                  get c r' = fround 3 (get c r)) ∧
  (∀ clean wide,
     silver_file w = Some clean →
     pivot_to_wide_table (calculate_annual_averages clean) = Ok wide →
     ∃ l w', run w = (Ok l, w') ∧
             frames w' !! l = Some (add_balance_columns wide) ∧
             gold_file w' = Some (rounded_copy (add_balance_columns wide))).
Proof.
  intros Hdf. split.
  - eexists _, (rounded_copy d).
    split; [by apply save_annual_data_spec|]. simpl.
    assert (Hfresh : ∀ l, is_Some (frames w !! l) →
                          fresh (dom (frames w)) ≠ l).
    { intros l [x Hx] <-. by rewrite fresh_frame in Hx. }
    split; [intros l Hl; by rewrite lookup_insert_ne by by apply Hfresh|].
    split; [by rewrite lookup_insert_ne by by apply Hfresh|].
    split; [done|].
    destruct (round_columns_spec (columns d) d) as (Hc & Hl & Hrows).
    { by apply Forall_forall. }
    split; [done|]. split; [done|]. intros i r Hr.
    destruct (Hrows i r Hr) as (r' & Hr' & Hy & Hg).
    exists r'. split; [done|]. split; [done|]. intros c Hc1 Hc2.
    rewrite Hg. rewrite decide_True; [done|].
    split; [|done]. unfold columns. by right.
  - intros clean wide Hs Hp. by apply (run_returns clean).
Qed.

Lemma save_rounds_a_copy_witness :
  (∃ w' g,
     save_annual_data 1%positive (frame_world unrounded) = (Ok tt, w') ∧
     (∀ l, is_Some (frames (frame_world unrounded) !! l) →
           frames w' !! l = frames (frame_world unrounded) !! l) ∧
     frames w' !! 1%positive = Some unrounded ∧
     gold_file w' = Some g ∧
     data_columns g = data_columns unrounded ∧
     length (rows g) = length (rows unrounded) ∧
     ∀ i r, rows unrounded !! i = Some r →
       ∃ r', rows g !! i = Some r' ∧ w_year r' = w_year r ∧
             ∀ c, c ∈ data_columns unrounded → c ≠ "year" →
                  get c r' = fround 3 (get c r)) ∧
  (∀ clean wide,
     silver_file (frame_world unrounded) = Some clean →
     pivot_to_wide_table (calculate_annual_averages clean) = Ok wide →
     ∃ l w', run (frame_world unrounded) = (Ok l, w') ∧
             frames w' !! l = Some (add_balance_columns wide) ∧
             gold_file w' = Some (rounded_copy (add_balance_columns wide))).
Proof.
  apply (save_rounds_a_copy (frame_world unrounded) 1%positive unrounded).
  reflexivity.
Defined.

(** On the frame [unrounded], the object passed in keeps 301/3 and the
    gold file holds 100.333. *)
Example saved_copy_is_rounded :
  (save_annual_data 1%positive (frame_world unrounded)).1 = Ok tt ∧
  frames (save_annual_data 1%positive (frame_world unrounded)).2 !! 1%positive
  = Some unrounded ∧
  gold_file (save_annual_data 1%positive (frame_world unrounded)).2
  = Some {| data_columns := ["Production"];
            rows := [wide_row 2021 [("Production", dec 100333 3)]] |}.
Proof. decide_by_computation. Qed.

(** The same through [run]: the returned table has the mean 301/3, the
    gold file has 100.333. *)
Example returned_table_is_unrounded :
  (run (silver_world thirds)).1 = Ok 1%positive ∧
  (frames (run (silver_world thirds)).2 !! 1%positive)
    ≫= (λ d : DataFrame, (rows d !! 0%nat) ≫= cell "Production")
  = Some (Finite (Q2Qc (301 # 3))) ∧
  gold_file (run (silver_world thirds)).2
    ≫= (λ d : DataFrame, (rows d !! 0%nat) ≫= cell "Production")
  = Some (dec 100333 3).
Proof. decide_by_computation. Qed.

(** C2 (amended).  On a silver file with zero rows the gold [run] raises
    nothing: the annual table is empty, and the run returns, and writes to
    the gold file, the wide table that has the [year] column only and no
    rows. *)
Theorem empty_input_gives_empty_table (w : world) :
  silver_file w = Some [] →
  calculate_annual_averages [] = [] ∧
  ∃ l w', run w = (Ok l, w') ∧
          frames w' !! l = Some empty_table ∧
          columns empty_table = ["year"] ∧
          gold_file w' = Some empty_table.
Proof.
  intros Hs. split; [done|].
  destruct (run_returns [] empty_table w Hs eq_refl) as (l & w' & Hrun & Hl & Hg).
  by exists l, w'.
Qed.

Lemma empty_input_gives_empty_table_witness :
  calculate_annual_averages [] = [] ∧
  ∃ l w', run (silver_world []) = (Ok l, w') ∧
          frames w' !! l = Some empty_table ∧
          columns empty_table = ["year"] ∧
          gold_file w' = Some empty_table.
Proof.
  apply (empty_input_gives_empty_table (silver_world [])).
  reflexivity.
Defined.

(** C2 as stated fails: on a silver file with zero rows [run] returns a
    DataFrame object instead of raising, and the gold file holds an empty
    table. *)
Lemma empty_input_does_not_raise :
  silver_file (silver_world []) = Some [] ∧
  (run (silver_world [])).1 = Ok 1%positive ∧
  (∀ e, (run (silver_world [])).1 ≠ Raise e) ∧
  gold_file (run (silver_world [])).2 = Some empty_table.
Proof.
  split; [done|]. split; [decide_by_computation|].
  split; [|decide_by_computation].
  intros e. destruct e; decide_by_computation.
Qed.

End RunClaims.

(** * Further properties *)

(** ** Orders *)

Section Orders.
Import SilverTransformation GoldAggregation.

Lemma string_leb_iff a b :
  String.leb a b = true ↔ a = b ∨ OrderedTypeEx.String_as_OT.lt a b.
Proof.
  unfold String.leb.
  pose proof (OrderedTypeEx.String_as_OT.cmp_eq a b) as Heq.
  pose proof (OrderedTypeEx.String_as_OT.cmp_lt a b) as Hlt.
  pose proof (OrderedTypeEx.String_as_OT.lt_not_eq a b) as Hne.
  unfold OrderedTypeEx.String_as_OT.cmp, OrderedTypeEx.String_as_OT.eq in *.
  destruct (String.compare a b) eqn:Hc.
  - split; [|done]. left. by apply Heq.
  - split; [|done]. right. by apply Hlt.
  - split; [done|]. intros [H|H].
    + apply Heq in H. congruence.
    + apply Hlt in H. congruence.
Qed.

Lemma string_leb_trans a b c :
  String.leb a b = true → String.leb b c = true → String.leb a c = true.
Proof.
  rewrite !string_leb_iff. intros [->|Hab] [->|Hbc]; auto.
  right. by eapply OrderedTypeEx.String_as_OT.lt_trans.
Qed.

Lemma string_le_trans : Transitive string_le.
Proof. intros a b c. apply string_leb_trans. Qed.
Lemma string_le_total : Total string_le.
Proof. intros a b. apply String.leb_total. Qed.

Lemma date_compare_Lt a b :
  date_compare a b = Lt ↔
  (d_year a < d_year b ∨ (d_year a = d_year b ∧ d_month a < d_month b))%Z.
Proof.
  unfold date_compare.
  destruct (Z.compare_spec (d_year a) (d_year b));
    destruct (Z.compare_spec (d_month a) (d_month b)); split; try done; lia.
Qed.

Lemma date_compare_Eq a b : date_compare a b = Eq ↔ a = b.
Proof.
  unfold date_compare. destruct a as [ya ma], b as [yb mb]. simpl.
  destruct (Z.compare_spec ya yb); destruct (Z.compare_spec ma mb);
    split; try done; try (intros [=]; lia). by subst.
Qed.

Lemma row_le_iff a b :
  row_le a b ↔
  date_compare (date a) (date b) = Lt ∨
  (date a = date b ∧ String.leb (component a) (component b) = true).
Proof.
  unfold row_le, row_leb.
  destruct (date_compare (date a) (date b)) eqn:Hc.
  - apply date_compare_Eq in Hc. split; [auto|]. by intros [?|[_ ?]].
  - split; auto.
  - split; [done|]. intros [?|[Heq _]]; [done|].
    apply date_compare_Eq in Heq. congruence.
Qed.

Lemma row_le_trans : Transitive row_le.
Proof.
  intros a b c. rewrite !row_le_iff, !date_compare_Lt.
  intros [Hab|[Hab Hcab]] [Hbc|[Hbc Hcbc]].
  - left. lia.
  - left. rewrite <- Hbc. lia.
  - left. rewrite Hab. lia.
  - right. split; [congruence|]. by eapply string_leb_trans.
Qed.

Lemma row_le_total : Total row_le.
Proof.
  intros a b. rewrite !row_le_iff.
  destruct (date_compare (date a) (date b)) eqn:Hc.
  - apply date_compare_Eq in Hc.
    destruct (String.leb_total (component a) (component b)); auto.
  - auto.
  - right. left. apply date_compare_Lt.
    assert (date_compare (date a) (date b) ≠ Lt) as H1 by congruence.
    assert (date_compare (date a) (date b) ≠ Eq) as H2 by congruence.
    rewrite date_compare_Lt in H1. rewrite date_compare_Eq in H2.
    destruct (date a) as [ya ma], (date b) as [yb mb]. simpl in *.
    destruct (decide (ya = yb)) as [->|?]; [|lia].
    destruct (decide (ma = mb)) as [->|?]; [done|lia].
Qed.

Lemma key_le_iff (a b : Z * string) :
  key_le a b ↔
  (a.1 < b.1)%Z ∨ (a.1 = b.1 ∧ String.leb a.2 b.2 = true).
Proof.
  unfold key_le, key_leb.
  destruct (Z.compare_spec a.1 b.1); split; try done; auto.
  all: intros [?|[? ?]]; first [done | lia].
Qed.

Lemma key_le_trans : Transitive key_le.
Proof.
  intros a b c. rewrite !key_le_iff.
  intros [?|[? ?]] [?|[? ?]]; [left; lia..|].
  right. split; [lia|]. by eapply string_leb_trans.
Qed.

Lemma key_le_total : Total key_le.
Proof.
  intros a b. rewrite !key_le_iff.
  destruct (String.leb_total a.2 b.2);
    destruct (Z.lt_trichotomy a.1 b.1) as [?|[?|?]]; auto.
Qed.

Lemma key_le_antisym : AntiSymm (=) key_le.
Proof.
  intros [y1 c1] [y2 c2]. rewrite !key_le_iff. simpl.
  intros [?|[? H1]] [?|[? H2]]; try lia.
  f_equal; [done|]. by apply String.leb_antisym.
Qed.

Lemma StronglySorted_filter {A} (R : relation A) (P : A → Prop)
    `{∀ x, Decision (P x)} (l : list A) :
  StronglySorted R l → StronglySorted R (filter P l).
Proof.
  induction 1 as [|x l Hl IH Hx]; [constructor|].
  destruct (decide (P x)).
  - rewrite filter_cons_True by done. constructor; [done|].
    apply Forall_forall. intros y [_ Hy]%list_elem_of_filter.
    rewrite Forall_forall in Hx. auto.
  - by rewrite filter_cons_False.
Qed.

End Orders.

(** ** More on the silver layer *)

Section SilverMore.
Import Config SilverTransformation Examples MoreExamples.

(** X1.  The output of [clean_and_normalize] is in ascending order of date and,
    within a date, of component name. *)
Theorem clean_output_is_sorted
    (to_datetime : string → option Date) (to_numeric : string → float64)
    (df : list RawRow) (out : list ObservationRow) :
  clean_and_normalize to_datetime to_numeric df = Ok out →
  StronglySorted row_le out.
Proof.
  unfold clean_and_normalize.
  destruct (mapM _ df) as [cleaned|e]; [|done]. intros [= <-].
  apply StronglySorted_filter.
  apply (@StronglySorted_merge_sort _ row_le _ row_le_trans row_le_total).
Qed.

Lemma clean_output_is_sorted_witness :
  StronglySorted row_le
    [clean 1 (dec 1005 1); clean 2 (dec 2003 1); clean 4 (of_Z 150)].
Proof.
  apply (clean_output_is_sorted strptime_Ym parse_float unit_test_batch).
  decide_by_computation.
Defined.

Lemma parse_series_data_cases series_id api_response :
  (observation_list api_response = [] ∧
   parse_series_data series_id api_response = Ok []) ∨
  (observation_list api_response ≠ [] ∧
   assoc series_id SERIES_MAPPING = None ∧
   parse_series_data series_id api_response = Raise KeyError) ∨
  (observation_list api_response ≠ [] ∧
   ∃ comp, assoc series_id SERIES_MAPPING = Some comp ∧
     parse_series_data series_id api_response
     = Ok ((λ rec, {| r_period := period rec; r_value := value rec;
                      r_series := series rec; r_series_id := series_id;
                      r_component := comp |})
             <$> observation_list api_response)).
Proof.
  unfold observation_list, parse_series_data.
  destruct (response api_response) as [body|]; [|by left].
  destruct (data body) as [[|rec records]|]; [by left| |by left].
  right. destruct (assoc series_id SERIES_MAPPING) as [comp|].
  - right. split; [done|]. by exists comp.
  - by left.
Qed.

(** The frames of [parse_all], concatenated: one row per record, in
    order, each with the catalog name of its series. *)
Lemma parse_all_Ok raw dfs :
  parse_all raw = Ok dfs →
  Forall (λ df, df ≠ []) dfs ∧
  r_period <$> concat dfs
  = period <$> (raw ≫= λ item, observation_list item.2) ∧
  r_value <$> concat dfs
  = value <$> (raw ≫= λ item, observation_list item.2) ∧
  Forall (λ r, assoc (r_series_id r) SERIES_MAPPING = Some (r_component r))
         (concat dfs).
Proof.
  revert dfs. induction raw as [|[series_id api_response] raw IH]; intros dfs.
  - intros [= <-]. by repeat split.
  - cbn [parse_all]. unfold mbind at 1, result_bind at 1.
    destruct (parse_series_data_cases series_id api_response)
      as [[Hobs ->]|[(Hobs & Hm & ->)|(Hobs & comp & Hm & ->)]]; [|done|].
    + unfold mbind, result_bind.
      destruct (parse_all raw) as [dfs'|e]; [|done]. intros [= <-].
      destruct (IH dfs' eq_refl) as (H1 & H2 & H3 & H4).
      rewrite bind_cons. cbn [snd]. rewrite Hobs, app_nil_l. by repeat split.
    + unfold mbind, result_bind.
      destruct (parse_all raw) as [dfs'|e]; [|done].
      destruct (IH dfs' eq_refl) as (H1 & H2 & H3 & H4).
      destruct (observation_list api_response) as [|rec recs] eqn:Hrecs;
        [done|].
      rewrite fmap_cons. intros [= <-]. rewrite bind_cons. cbn [snd concat].
      rewrite Hrecs, !fmap_app, H2, H3.
      split; [by constructor|].
      split; [f_equal; cbn [fmap list_fmap]; f_equal;
              by rewrite <- list_fmap_compose|].
      split; [f_equal; cbn [fmap list_fmap]; f_equal;
              by rewrite <- list_fmap_compose|].
      apply Forall_app. split; [|done].
      constructor; [done|]. apply Forall_fmap, Forall_forall. by intros.
Qed.

Lemma parse_all_total raw :
  Forall (λ item, observation_list item.2 ≠ [] →
                  is_Some (assoc item.1 SERIES_MAPPING)) raw →
  ∃ dfs, parse_all raw = Ok dfs ∧
         (Exists (λ item, observation_list item.2 ≠ []) raw → dfs ≠ []).
Proof.
  induction 1 as [|[series_id api_response] raw Hx _ (dfs & IH & Hne)].
  - exists []. split; [done|]. by intros ?%Exists_nil.
  - cbn [parse_all]. unfold mbind, result_bind. rewrite IH.
    destruct (parse_series_data_cases series_id api_response)
      as [[Hobs ->]|[(Hobs & Hm & ->)|(Hobs & comp & Hm & ->)]].
    + exists dfs. split; [done|].
      intros [?|?]%Exists_cons; [done|by apply Hne].
    + cbn [fst snd] in Hx. destruct (Hx Hobs) as [? ?]. congruence.
    + destruct (observation_list api_response) as [|rec recs]; [done|].
      rewrite fmap_cons. by eexists.
Qed.

Lemma parse_all_unknown raw item :
  item ∈ raw →
  observation_list item.2 ≠ [] →
  assoc item.1 SERIES_MAPPING = None →
  parse_all raw = Raise KeyError.
Proof.
  intros Hin Hobs Hm. induction raw as [|[series_id api_response] raw IH].
  - by apply elem_of_nil in Hin.
  - cbn [parse_all]. unfold mbind, result_bind.
    destruct (parse_series_data_cases series_id api_response)
      as [[Hobs' ->]|[(Hobs' & Hm' & ->)|(Hobs' & comp & Hm' & ->)]];
      [|done|].
    all: apply elem_of_cons in Hin as [->|Hin]; [cbn [fst snd] in *; congruence|].
    all: by rewrite IH.
Qed.

Lemma length_filter_fmap {A B} (f : A → B) (P : B → Prop)
    `{∀ x, Decision (P x)} (l : list A) :
  length (filter (λ x, P (f x)) l) = length (filter P (f <$> l)).
Proof.
  induction l as [|x l IH]; [done|]. rewrite fmap_cons.
  destruct (decide (P (f x))).
  - rewrite !filter_cons_True by done. simpl. by rewrite IH.
  - by rewrite !filter_cons_False by done.
Qed.

Lemma run_Ok_inv to_datetime to_numeric w out w' :
  run to_datetime to_numeric w = (Ok out, w') →
  ∃ raw dfs,
    bronze_file w = Some raw ∧ parse_all raw = Ok dfs ∧ dfs ≠ [] ∧
    clean_and_normalize to_datetime to_numeric (concat dfs) = Ok out ∧
    w' = with_silver_file out w.
Proof.
  unfold run, mbind, M_bind, load_raw_data, lift.
  destruct (bronze_file w) as [raw|]; cbv beta iota; [|by intros [=]].
  destruct (parse_all raw) as [dfs|e] eqn:Hp; cbv beta iota; [|by intros [=]].
  destruct (pd_concat dfs) as [combined|e] eqn:Hc; cbv beta iota;
    [|by intros [=]].
  destruct (clean_and_normalize _ _ combined) as [clean_df|e] eqn:Hcl;
    cbv beta iota; [|by intros [=]].
  unfold save_clean_data, modify, mret, M_ret. intros [= <- <-].
  exists raw, dfs. unfold pd_concat in Hc. destruct dfs; [done|].
  injection Hc as <-. done.
Qed.

Lemma run_Ok to_datetime to_numeric w raw dfs out :
  bronze_file w = Some raw → parse_all raw = Ok dfs → dfs ≠ [] →
  clean_and_normalize to_datetime to_numeric (concat dfs) = Ok out →
  run to_datetime to_numeric w = (Ok out, with_silver_file out w).
Proof.
  intros Hb Hp Hne Hc.
  unfold run, mbind, M_bind, load_raw_data, lift. rewrite Hb, Hp.
  unfold pd_concat. destruct dfs; [done|]. by rewrite Hc.
Qed.


Lemma assoc_Some_elem {V} k (v : V) l : assoc k l = Some v → (k, v) ∈ l.
Proof.
  induction l as [|[k' v'] l IH]; cbn [assoc]; [done|].
  case_decide as Hk.
  - intros [= ->]. subst. by left.
  - intros H. right. by apply IH.
Qed.

Lemma catalog_component_classified k c :
  assoc k SERIES_MAPPING = Some c →
  c ∈ SERIES_MAPPING_values ∧ classify c ≠ "Other" ∧
  (classify c = "Supply" ↔ c ∈ SUPPLY_COMPONENTS) ∧
  (classify c = "Disposition" ↔ c ∈ DISPOSITION_COMPONENTS).
Proof.
  intros Hk%assoc_Some_elem.
  assert (Hc : c ∈ SERIES_MAPPING_values).
  { unfold SERIES_MAPPING_values. apply list_elem_of_fmap.
    by exists (k, c). }
  split; [done|]. clear Hk. revert c Hc. apply Forall_forall.
  decide_by_computation.
Qed.

(** X2.  On a bronze file in which every series that has records is a catalog
    series, at least one series has records and every period parses, the
    silver [run] returns; it writes the returned table to the silver file
    and touches nothing else; the table has one row per record whose value
    is a number. *)
Theorem silver_run_succeeds
    (to_datetime : string → option Date) (to_numeric : string → float64)
    (w : world) (raw : list (string * ApiResponse)) :
  bronze_file w = Some raw →
  Forall (λ item, observation_list item.2 ≠ [] →
                  is_Some (assoc item.1 SERIES_MAPPING)) raw →
  Exists (λ item, observation_list item.2 ≠ []) raw →
  Forall (λ rec, is_Some (to_datetime (period rec)))
         (raw ≫= λ item, observation_list item.2) →
  ∃ out,
    run to_datetime to_numeric w = (Ok out, with_silver_file out w) ∧
    length out
    = length (filter (λ v, notna (to_numeric v) = true)
                     (value <$> (raw ≫= λ item, observation_list item.2))).
Proof.
  intros Hb Hknown Hsome Hdates.
  destruct (parse_all_total raw Hknown) as (dfs & Hp & Hne).
  destruct (parse_all_Ok raw dfs Hp) as (_ & Hper & Hval & _).
  destruct (clean_and_normalize_spec to_datetime to_numeric (concat dfs))
    as [Htot Hspec].
  destruct Htot as [out Hout].
  { apply (Forall_fmap r_period (λ p, is_Some (to_datetime p))).
    rewrite Hper. by apply Forall_fmap. }
  destruct (Hspec out Hout) as (cleaned & _ & _ & _ & _ & Hlen).
  exists out. split; [by apply (run_Ok _ _ w raw dfs); auto|].
  rewrite Hlen, <- Hval.
  exact (@length_filter_fmap _ _ r_value
           (λ v, notna (to_numeric v) = true) _ (concat dfs)).
Qed.

Lemma silver_run_succeeds_witness :
  ∃ out,
    run strptime_Ym parse_float (bronze_world one_series_raw)
    = (Ok out, with_silver_file out (bronze_world one_series_raw)) ∧
    length out
    = length (filter (λ v, notna (parse_float v) = true)
                (value <$> (one_series_raw ≫= λ item, observation_list item.2))).
Proof.
  apply (silver_run_succeeds strptime_Ym parse_float
           (bronze_world one_series_raw) one_series_raw).
  - reflexivity.
  - decide_by_computation.
  - decide_by_computation.
  - decide_by_computation.
Defined.

Lemma silver_run_rows
    (to_datetime : string → option Date) (to_numeric : string → float64)
    (w w' : world) (out : list ObservationRow) :
  run to_datetime to_numeric w = (Ok out, w') →
  w' = with_silver_file out w ∧
  Forall (λ r, assoc (series_id r) SERIES_MAPPING = Some (component r) ∧
               category r ≠ "Other" ∧
               (category r = "Supply" ↔ component r ∈ SUPPLY_COMPONENTS) ∧
               (category r = "Disposition"
                ↔ component r ∈ DISPOSITION_COMPONENTS) ∧
               isna (value_mbblpd r) = false ∧
               year r = d_year (date r) ∧ month r = d_month (date r)) out.
Proof.
  intros (raw & dfs & Hb & Hp & Hne & Hc & ->)%run_Ok_inv.
  split; [done|].
  destruct (parse_all_Ok raw dfs Hp) as (_ & _ & _ & Hcat).
  destruct (clean_and_normalize_spec to_datetime to_numeric (concat dfs))
    as [_ Hspec].
  destruct (Hspec out Hc) as (cleaned & _ & _ & Hna & Hfrom & _).
  rewrite Forall_forall in Hna. rewrite Forall_forall in Hfrom.
  rewrite Forall_forall in Hcat. apply Forall_forall.
  intros r Hr.
  destruct (Hfrom r Hr) as (rawrow & Hin & Hd & Hv & Hy & Hm & Hs & Hco & Hca).
  specialize (Hcat rawrow Hin). rewrite <- Hs, <- Hco in Hcat.
  destruct (catalog_component_classified _ _ Hcat) as (_ & H1 & H2 & H3).
  rewrite Hca, <- Hco. repeat split; auto; by apply H2 || apply H3.
Qed.

(** X3.  Every row that the silver [run] returns belongs to a catalog series:
    its component is the catalog name of its series id, its category is
    Supply or Disposition according to the component lists and never
    Other, its value is present, and its year and month are those of its
    date.  The run has written these rows to the silver file and nothing
    else. *)
Theorem silver_rows_are_catalogued
    (to_datetime : string → option Date) (to_numeric : string → float64)
    (w w' : world) (out : list ObservationRow) :
  run to_datetime to_numeric w = (Ok out, w') →
  w' = with_silver_file out w ∧
  Forall (λ r, assoc (series_id r) SERIES_MAPPING = Some (component r) ∧
               category r ≠ "Other" ∧
               (category r = "Supply" ↔ component r ∈ SUPPLY_COMPONENTS) ∧
               (category r = "Disposition"
                ↔ component r ∈ DISPOSITION_COMPONENTS) ∧
               isna (value_mbblpd r) = false ∧
               year r = d_year (date r) ∧ month r = d_month (date r)) out.
Proof. apply silver_run_rows. Qed.

Lemma silver_rows_are_catalogued_witness :
  one_series_run.2 = with_silver_file one_series_out (bronze_world one_series_raw) ∧
  Forall (λ r, assoc (series_id r) SERIES_MAPPING = Some (component r) ∧
               category r ≠ "Other" ∧
               (category r = "Supply" ↔ component r ∈ SUPPLY_COMPONENTS) ∧
               (category r = "Disposition"
                ↔ component r ∈ DISPOSITION_COMPONENTS) ∧
               isna (value_mbblpd r) = false ∧
               year r = d_year (date r) ∧ month r = d_month (date r))
         one_series_out.
Proof.
  apply (silver_rows_are_catalogued strptime_Ym parse_float
           (bronze_world one_series_raw)).
  vm_compute. reflexivity.
Defined.

(** X4.  A series that has records but is not in the catalog makes the silver
    [run] raise KeyError, whatever the other series hold; nothing is
    written.  (Without records such a series is skipped.) *)
Theorem unknown_series_with_records_raises
    (to_datetime : string → option Date) (to_numeric : string → float64)
    (w : world) (raw : list (string * ApiResponse))
    (item : string * ApiResponse) :
  bronze_file w = Some raw →
  item ∈ raw →
  observation_list item.2 ≠ [] →
  assoc item.1 SERIES_MAPPING = None →
  run to_datetime to_numeric w = (Raise KeyError, w).
Proof.
  intros Hb Hin Hobs Hm.
  unfold run, mbind, M_bind, load_raw_data, lift. rewrite Hb.
  by rewrite (parse_all_unknown raw item).
Qed.

Lemma unknown_series_with_records_raises_witness :
  run strptime_Ym parse_float (bronze_world unknown_series_raw)
  = (Raise KeyError, bronze_world unknown_series_raw).
Proof.
  apply (unknown_series_with_records_raises strptime_Ym parse_float
           (bronze_world unknown_series_raw) unknown_series_raw
           ("XXXXXX", some_records)).
  - reflexivity.
  - apply elem_of_cons. right. apply elem_of_cons. by left.
  - discriminate.
  - reflexivity.
Defined.

End SilverMore.

(** ** More on the annual table and the pivot *)

Section GoldMore.
Import Config GoldAggregation Examples MoreExamples.

(** X5.  The annual table is in ascending order of (year, component): the
    group keys come out sorted. *)
Theorem annual_table_is_sorted (df : list ObservationRow) :
  StronglySorted key_le
    ((λ a, (a_year a, a_component a)) <$> calculate_annual_averages df).
Proof.
  rewrite annual_keys. unfold group_keys.
  apply (@StronglySorted_merge_sort _ key_le _ key_le_trans key_le_total).
Qed.

Lemma StronglySorted_le_lt (l : list Z) :
  StronglySorted Z.le l → NoDup l → StronglySorted Z.lt l.
Proof.
  induction 1 as [|x l Hl IH Hx]; [constructor|].
  intros [Hnin Hnd]%NoDup_cons. constructor; [by apply IH|].
  apply Forall_forall. intros y Hy. rewrite Forall_forall in Hx.
  specialize (Hx y Hy). assert (x ≠ y) by (by intros ->). lia.
Qed.

Lemma list_fmap_id_ext {A} (f : A → A) (l : list A) :
  (∀ x, f x = x) → f <$> l = l.
Proof.
  intros Hf. rewrite <- (list_fmap_id l) at 2. apply list_fmap_ext; auto.
Qed.

Lemma pivot_to_wide_table_rows df wide :
  pivot_to_wide_table df = Ok wide →
  w_year <$> rows wide = merge_sort Z.le (remove_dups (a_year <$> df)) ∧
  Forall (λ r, (cells r).*1 = data_columns wide) (rows wide).
Proof.
  unfold pivot_to_wide_table, pivot_reset_index.
  case_decide; [|done]. case_decide; [done|].
  unfold mbind, result_bind, select_year_and.
  case_decide; [|done]. intros [= <-]. cbn [rows data_columns]. split.
  - rewrite <- !list_fmap_compose. by apply list_fmap_id_ext.
  - apply Forall_fmap, Forall_forall. intros r _.
    unfold compose. cbn [cells data_columns].
    rewrite <- list_fmap_compose. by apply list_fmap_id_ext.
Qed.

(** X6.  The wide table has one row per year of the long table, in strictly
    ascending order of year, and every row has exactly one cell per data
    column, in column order. *)
Theorem wide_rows_one_per_year (df : list AnnualMetric) (wide : DataFrame) :
  pivot_to_wide_table df = Ok wide →
  StronglySorted Z.lt (w_year <$> rows wide) ∧
  (∀ y, y ∈ w_year <$> rows wide ↔ y ∈ a_year <$> df) ∧
  Forall (λ r, (cells r).*1 = data_columns wide) (rows wide).
Proof.
  intros [Hy Hcells]%pivot_to_wide_table_rows. rewrite Hy.
  split; [|split; [|done]].
  - apply StronglySorted_le_lt.
    + apply StronglySorted_merge_sort; apply _.
    + rewrite merge_sort_Permutation. apply NoDup_remove_dups.
  - intros y. apply elem_of_sorted_distinct.
Qed.

Lemma wide_rows_one_per_year_witness :
  StronglySorted Z.lt (w_year <$> rows (wide_of missing_imports)) ∧
  (∀ y, y ∈ w_year <$> rows (wide_of missing_imports)
        ↔ y ∈ a_year <$> missing_imports) ∧
  Forall (λ r, (cells r).*1 = data_columns (wide_of missing_imports))
         (rows (wide_of missing_imports)).
Proof.
  apply (wide_rows_one_per_year missing_imports (wide_of missing_imports)).
  vm_compute. reflexivity.
Defined.

Lemma annual_components df :
  a_component <$> calculate_annual_averages df = (group_keys df).*2.
Proof.
  unfold calculate_annual_averages. rewrite <- list_fmap_compose.
  by apply list_fmap_ext.
Qed.

Lemma gold_run_total (w : world) (clean_df : list ObservationRow) :
  silver_file w = Some clean_df →
  "year" ∉ component <$> clean_df →
  ∃ wide l w',
    pivot_to_wide_table (calculate_annual_averages clean_df) = Ok wide ∧
    run w = (Ok l, w') ∧
    frames w' !! l = Some (add_balance_columns wide) ∧
    gold_file w' = Some (rounded_copy (add_balance_columns wide)) ∧
    bronze_file w' = bronze_file w ∧ silver_file w' = silver_file w.
Proof.
  intros Hs Hy.
  destruct (pivot_to_wide_table_total (calculate_annual_averages clean_df))
    as [wide Hw].
  { rewrite annual_keys. apply NoDup_group_keys. }
  { rewrite annual_components. intros (k & Hk & Hin)%list_elem_of_fmap.
    apply elem_of_group_keys in Hin as (r & -> & Hr)%list_elem_of_fmap.
    apply Hy. apply list_elem_of_fmap. by exists r. }
  exists wide. eexists _, _. split; [done|].
  split; [apply (run_spec clean_df wide w Hs Hw)|]. cbn.
  split; [|done].
  rewrite lookup_insert_ne.
  - by rewrite lookup_insert_eq.
  - intros Heq.
    pose proof (is_fresh (dom (<[fresh (dom (frames w))
                                 := add_balance_columns wide]> (frames w))))
      as Hf.
    rewrite Heq in Hf. apply Hf. rewrite dom_insert. set_solver.
Qed.



End GoldMore.

(** ** More on the balance columns *)

Section BalanceMore.
Import Config GoldAggregation FrameSpec Examples MoreExamples.

Lemma extends_by_refl names df : extends_by names df df.
Proof.
  split.
  - exists []. by rewrite app_nil_r.
  - apply Forall2_same_length_lookup_2; [done|].
    intros i r r' Hr Hr'. split; congruence.
Qed.

Lemma extends_by_trans names df1 df2 df3 :
  extends_by names df1 df2 → extends_by names df2 df3 →
  extends_by names df1 df3.
Proof.
  intros [(new1 & Hc1 & Hn1) Hr1] [(new2 & Hc2 & Hn2) Hr2]. split.
  - exists (new1 ++ new2)%list. rewrite Hc2, Hc1, <- app_assoc.
    split; [done|]. by apply Forall_app.
  - eapply Forall2_trans; [|done..].
    intros r1 r2 r3 [Hy1 Hcell1] [Hy2 Hcell2]. split; [congruence|].
    intros c Hc. by rewrite Hcell2, Hcell1.
Qed.

Lemma extends_by_assign names name f df :
  name ∈ names → extends_by names df (assign name f df).
Proof.
  intros Hin. split.
  - unfold assign. cbn [data_columns]. case_decide.
    + exists []. by rewrite app_nil_r.
    + exists [name]. split; [done|]. by constructor.
  - unfold assign. cbn [rows]. apply Forall2_fmap_r, Forall_Forall2_diag.
    apply Forall_forall. intros r _. cbn [w_year]. split; [done|].
    intros c Hc. apply assoc_set_ne. by intros ->.
Qed.

Lemma add_balance_columns_extends df :
  extends_by balance_names df (add_balance_columns df).
Proof.
  unfold add_balance_columns.
  set (df1 := match filter _ (columns df) with [] => df | _ => _ end).
  assert (H1 : extends_by balance_names df df1).
  { subst df1. destruct (filter _ (columns df)).
    - apply extends_by_refl.
    - apply extends_by_assign. decide_by_computation. }
  set (df2 := match filter _ (columns df1) with [] => df1 | _ => _ end).
  assert (H2 : extends_by balance_names df1 df2).
  { subst df2. destruct (filter _ (columns df1)).
    - apply extends_by_refl.
    - apply extends_by_assign. decide_by_computation. }
  apply (extends_by_trans _ _ df1); [done|].
  apply (extends_by_trans _ _ df2); [done|].
  case_decide; [|apply extends_by_refl].
  eapply extends_by_trans; apply extends_by_assign; decide_by_computation.
Qed.

(** X8.  [add_balance_check] only adds: the columns of the table passed in stay
    first, in their order, followed by at most the four balance columns;
    the table keeps its rows in order, and in every row the year and every
    cell other than those four are unchanged. *)
Theorem add_balance_check_keeps_table (df : DataFrame) :
  (∃ new,
     data_columns (add_balance_columns df) = (data_columns df ++ new)%list ∧
     Forall (λ c, c ∈ ["Total_Supply"; "Total_Disposition";
                       "Balance_Difference"; "Balance_Pct_Diff"]) new) ∧
  length (rows (add_balance_columns df)) = length (rows df) ∧
  ∀ i r, rows df !! i = Some r →
    ∃ r', rows (add_balance_columns df) !! i = Some r' ∧
          w_year r' = w_year r ∧
          ∀ c, c ∉ ["Total_Supply"; "Total_Disposition";
                    "Balance_Difference"; "Balance_Pct_Diff"] →
               cell c r' = cell c r.
Proof.
  destruct (add_balance_columns_extends df) as [Hcols Hrows].
  split; [done|]. split; [symmetry; by eapply Forall2_length|].
  intros i r Hr.
  destruct (Forall2_lookup_l _ _ _ _ _ Hrows Hr) as (r' & Hr' & Hy & Hc).
  by exists r'.
Qed.


Lemma data_columns_assign_new name f df :
  name ∉ data_columns df →
  data_columns (assign name f df) = (data_columns df ++ [name])%list.
Proof. intros H. unfold assign. cbn [data_columns]. by rewrite decide_False. Qed.

Lemma add_balance_data_columns (df : DataFrame) :
  Forall (λ c, c ∉ columns df)
         ["Total_Supply"; "Total_Disposition"; "Balance_Difference";
          "Balance_Pct_Diff"] →
  data_columns (add_balance_columns df)
  = (data_columns df
     ++ match filter (λ col, col ∈ SUPPLY_COMPONENTS) (columns df),
              filter (λ col, col ∈ DISPOSITION_COMPONENTS) (columns df) with
        | [], [] => []
        | _ :: _, [] => ["Total_Supply"]
        | [], _ :: _ => ["Total_Disposition"]
        | _ :: _, _ :: _ =>
            ["Total_Supply"; "Total_Disposition"; "Balance_Difference";
             "Balance_Pct_Diff"]
        end)%list.
Proof.
  intros Hfresh.
  apply Forall_cons in Hfresh as [HTS Hfresh].
  apply Forall_cons in Hfresh as [HTD Hfresh].
  apply Forall_cons in Hfresh as [HBD Hfresh].
  apply Forall_cons in Hfresh as [HBP _].
  unfold columns in HTS, HTD, HBD, HBP.
  apply not_elem_of_cons in HTS as [_ HTS].
  apply not_elem_of_cons in HTD as [_ HTD].
  apply not_elem_of_cons in HBD as [_ HBD].
  apply not_elem_of_cons in HBP as [_ HBP].
  unfold add_balance_columns.
  set (scols := filter _ (columns df)).
  set (df1 := match scols with [] => df | _ => _ end).
  assert (Hd : filter (λ col, col ∈ DISPOSITION_COMPONENTS) (columns df1)
               = filter (λ col, col ∈ DISPOSITION_COMPONENTS) (columns df)).
  { subst df1. destruct scols; [done|].
    apply filter_columns_assign. decide_by_computation. }
  rewrite Hd. set (dcols := filter _ (columns df)).
  assert (H1 : data_columns df1
               = (data_columns df ++ match scols with
                                     | [] => []
                                     | _ => ["Total_Supply"]
                                     end)%list).
  { subst df1. destruct scols; [by rewrite app_nil_r|].
    by apply data_columns_assign_new. }
  set (df2 := match dcols with [] => df1 | _ => _ end).
  assert (H2 : data_columns df2
               = (data_columns df1 ++ match dcols with
                                      | [] => []
                                      | _ => ["Total_Disposition"]
                                      end)%list).
  { subst df2. destruct dcols; [by rewrite app_nil_r|].
    apply data_columns_assign_new. rewrite H1, elem_of_app.
    destruct scols; rewrite ?list_elem_of_singleton, ?elem_of_nil;
      intuition (subst; first [done | congruence]). }
  assert (Hin : ∀ c, c ∈ columns df2 ↔
                     c = "year" ∨ c ∈ data_columns df ∨
                     (scols ≠ [] ∧ c = "Total_Supply") ∨
                     (dcols ≠ [] ∧ c = "Total_Disposition")).
  { intros c. unfold columns. rewrite H2, H1.
    rewrite elem_of_cons, !elem_of_app.
    destruct scols, dcols; rewrite ?list_elem_of_singleton, ?elem_of_nil;
      intuition (subst; first [done | congruence]). }
  case_decide as Hcond.
  - rewrite !Hin in Hcond.
    destruct Hcond as [[?|[?|[[Hs _]|[_ ?]]]] [?|[?|[[_ ?]|[Ht _]]]]];
      try done.
    rewrite data_columns_assign_new.
    + rewrite data_columns_assign_new.
      * rewrite H2, H1. destruct scols, dcols; try done.
        by rewrite <- !app_assoc.
      * rewrite H2, H1, !elem_of_app.
        destruct scols, dcols; rewrite ?list_elem_of_singleton, ?elem_of_nil;
          intuition (subst; first [done | congruence]).
    + rewrite data_columns_assign_new.
      * rewrite H2, H1, !elem_of_app.
        destruct scols, dcols; rewrite ?list_elem_of_singleton, ?elem_of_nil;
          intuition (subst; first [done | congruence]).
      * rewrite H2, H1, !elem_of_app.
        destruct scols, dcols; rewrite ?list_elem_of_singleton, ?elem_of_nil;
          intuition (subst; first [done | congruence]).
  - rewrite H2, H1.
    destruct scols as [|c0 scols'], dcols as [|c1 dcols'];
      rewrite ?app_nil_r; [done..|].
    destruct Hcond. rewrite !Hin. intuition (subst; first [done | congruence]).
Qed.

(** X9.  Which columns [add_balance_check] adds to a table that has none of
    them yet: a total for each category that has at least one column, and
    the two balance columns only when both categories have one. *)
Theorem balance_columns_by_category (df : DataFrame) :
  Forall (λ c, c ∉ columns df)
         ["Total_Supply"; "Total_Disposition"; "Balance_Difference";
          "Balance_Pct_Diff"] →
  data_columns (add_balance_columns df)
  = (data_columns df
     ++ match filter (λ col, col ∈ SUPPLY_COMPONENTS) (columns df),
              filter (λ col, col ∈ DISPOSITION_COMPONENTS) (columns df) with
        | [], [] => []
        | _ :: _, [] => ["Total_Supply"]
        | [], _ :: _ => ["Total_Disposition"]
        | _ :: _, _ :: _ =>
            ["Total_Supply"; "Total_Disposition"; "Balance_Difference";
             "Balance_Pct_Diff"]
        end)%list.
Proof. apply add_balance_data_columns. Qed.

Lemma balance_columns_by_category_witness :
  data_columns (add_balance_columns disposition_only)
  = (data_columns disposition_only
     ++ match filter (λ col, col ∈ SUPPLY_COMPONENTS)
                     (columns disposition_only),
              filter (λ col, col ∈ DISPOSITION_COMPONENTS)
                     (columns disposition_only) with
        | [], [] => []
        | _ :: _, [] => ["Total_Supply"]
        | [], _ :: _ => ["Total_Disposition"]
        | _ :: _, _ :: _ =>
            ["Total_Supply"; "Total_Disposition"; "Balance_Difference";
             "Balance_Pct_Diff"]
        end)%list.
Proof.
  apply (balance_columns_by_category disposition_only).
  decide_by_computation.
Defined.

End BalanceMore.

(** ** Running the balance check twice *)

Section BalanceTwice.
Import Config GoldAggregation FrameSpec Examples MoreExamples.

Lemma assoc_set_same {V} k (v : V) l :
  assoc k l = Some v → assoc_set k v l = l.
Proof.
  induction l as [|[k' v'] l IH]; cbn [assoc assoc_set]; [done|].
  case_decide as Hk.
  - intros [= ->]. by subst.
  - intros H. by rewrite IH.
Qed.

(** Assigning to a column the values that it already holds changes
    nothing. *)
Lemma assign_fixed name f df :
  name ∈ data_columns df →
  Forall (λ r, cell name r = Some (f r)) (rows df) →
  assign name f df = df.
Proof.
  intros Hin Hrows. destruct df as [cols rs]. unfold assign.
  cbn [data_columns rows] in *. rewrite decide_True by done. f_equal.
  induction Hrows as [|r rs Hr _ IH]; [done|]. rewrite fmap_cons, IH.
  f_equal. destruct r as [y cs]. cbn [w_year cells]. f_equal.
  by apply assoc_set_same.
Qed.

Lemma data_columns_assign name f df c :
  c ∈ data_columns (assign name f df) ↔ c ∈ data_columns df ∨ c = name.
Proof.
  unfold assign. cbn [data_columns]. case_decide as Hin.
  - split; [tauto|]. by intros [?| ->].
  - rewrite elem_of_app, list_elem_of_singleton. tauto.
Qed.

Lemma filter_columns_add_balance (P : string → Prop) `{∀ c, Decision (P c)}
    df :
  Forall (λ c, ¬ P c) balance_names →
  filter P (columns (add_balance_columns df)) = filter P (columns df).
Proof.
  intros HP.
  apply Forall_cons in HP as [HTS HP]. apply Forall_cons in HP as [HTD HP].
  apply Forall_cons in HP as [HBD HP]. apply Forall_cons in HP as [HBP _].
  unfold add_balance_columns.
  set (df1 := match filter _ (columns df) with [] => df | _ => _ end).
  assert (H1 : filter P (columns df1) = filter P (columns df)).
  { subst df1.
    destruct (filter (λ col, col ∈ SUPPLY_COMPONENTS) (columns df));
      [done|].
    by apply filter_columns_assign. }
  set (df2 := match filter _ (columns df1) with [] => df1 | _ => _ end).
  assert (H2 : filter P (columns df2) = filter P (columns df1)).
  { subst df2.
    destruct (filter (λ col, col ∈ DISPOSITION_COMPONENTS) (columns df1));
      [done|].
    by apply filter_columns_assign. }
  case_decide.
  - rewrite !filter_columns_assign by done. congruence.
  - congruence.
Qed.

(** The columns that [add_balance_check] has assigned are columns of its
    result. *)
Lemma add_balance_columns_has df :
  let scols := filter (λ col, col ∈ SUPPLY_COMPONENTS) (columns df) in
  let dcols := filter (λ col, col ∈ DISPOSITION_COMPONENTS) (columns df) in
  let out := add_balance_columns df in
  (scols ≠ [] → "Total_Supply" ∈ data_columns out) ∧
  (dcols ≠ [] → "Total_Disposition" ∈ data_columns out) ∧
  ("Total_Supply" ∈ columns out → "Total_Disposition" ∈ columns out →
   "Balance_Difference" ∈ data_columns out ∧
   "Balance_Pct_Diff" ∈ data_columns out).
Proof.
  intros scols dcols out. subst out. unfold add_balance_columns.
  fold scols.
  set (df1 := match scols with [] => df | _ => _ end).
  assert (Hd : filter (λ col, col ∈ DISPOSITION_COMPONENTS) (columns df1)
               = dcols).
  { subst df1. destruct scols; [done|].
    apply filter_columns_assign. decide_by_computation. }
  rewrite Hd.
  set (df2 := match dcols with [] => df1 | _ => _ end).
  assert (H1 : scols ≠ [] → "Total_Supply" ∈ data_columns df1).
  { subst df1. destruct scols; [done|]. intros _.
    apply data_columns_assign. by right. }
  assert (H2 : (scols ≠ [] → "Total_Supply" ∈ data_columns df2) ∧
               (dcols ≠ [] → "Total_Disposition" ∈ data_columns df2)).
  { subst df2. destruct dcols; [done|]. split.
    - intros Hs. apply data_columns_assign. left. by apply H1.
    - intros _. apply data_columns_assign. by right. }
  destruct H2 as [H2 H3].
  case_decide as Hcond.
  - split; [|split].
    + intros Hs. do 2 (apply data_columns_assign; left). by apply H2.
    + intros Hs. do 2 (apply data_columns_assign; left). by apply H3.
    + intros _ _. split.
      * apply data_columns_assign. left. apply data_columns_assign. by right.
      * apply data_columns_assign. by right.
  - split; [done|]. split; [done|]. intros ? ?. by destruct Hcond.
Qed.

(** The balance cells of every row of the result, in terms of that row. *)
Lemma add_balance_rows df :
  let scols := filter (λ col, col ∈ SUPPLY_COMPONENTS) (columns df) in
  let dcols := filter (λ col, col ∈ DISPOSITION_COMPONENTS) (columns df) in
  let out := add_balance_columns df in
  Forall (λ r',
    (scols ≠ [] → cell "Total_Supply" r' = Some (sum_axis1 scols r')) ∧
    (dcols ≠ [] → cell "Total_Disposition" r' = Some (sum_axis1 dcols r')) ∧
    ("Total_Supply" ∈ columns out → "Total_Disposition" ∈ columns out →
     cell "Balance_Difference" r'
     = Some (fsub (get "Total_Supply" r') (get "Total_Disposition" r')) ∧
     cell "Balance_Pct_Diff" r'
     = Some (fround 3 (fmul (fdiv (get "Balance_Difference" r')
                                  (get "Total_Supply" r'))
                            (of_Z 100))))) (rows out).
Proof.
  intros scols dcols out. apply Forall_lookup. intros i r' Hr'.
  destruct (add_balance_columns_extends df) as [_ Hrows].
  destruct (Forall2_lookup_r _ _ _ _ _ Hrows Hr') as (r & Hr & Hy & Hcell).
  destruct (add_balance_columns_row df i r Hr)
    as (r'' & Hr'' & _ & H1 & H2 & H3).
  fold out in Hr''. rewrite Hr' in Hr''. injection Hr'' as <-.
  assert (Hsum : ∀ cols, Forall (λ c, c ∉ balance_names) cols →
                         sum_axis1 cols r' = sum_axis1 cols r).
  { intros cols Hc. unfold sum_axis1. f_equal. apply list_fmap_ext.
    intros j c Hj. unfold get. rewrite Hcell; [done|].
    rewrite Forall_forall in Hc. apply Hc. by eapply list_elem_of_lookup_2. }
  split; [|split; [|done]].
  - intros Hne. rewrite Hsum; [by apply H1|].
    apply Forall_forall. intros c [Hc _]%list_elem_of_filter.
    revert c Hc.
    apply (proj1 (Forall_forall (λ c, c ∉ balance_names) SUPPLY_COMPONENTS)).
    decide_by_computation.
  - intros Hne. rewrite Hsum; [by apply H2|].
    apply Forall_forall. intros c [Hc _]%list_elem_of_filter.
    revert c Hc.
    apply (proj1 (Forall_forall (λ c, c ∉ balance_names)
                    DISPOSITION_COMPONENTS)).
    decide_by_computation.
Qed.

(** X10.  [add_balance_check] is idempotent: run on its own result it
    recomputes the same totals and balance columns and changes nothing,
    whatever columns the table had to begin with. *)
Theorem add_balance_check_idempotent (df : DataFrame) :
  add_balance_columns (add_balance_columns df) = add_balance_columns df.
Proof.
  pose proof (add_balance_rows df) as Hrows.
  pose proof (add_balance_columns_has df) as (HTS & HTD & HB).
  pose proof (filter_columns_add_balance (λ c, c ∈ SUPPLY_COMPONENTS) df)
    as Hs.
  pose proof (filter_columns_add_balance (λ c, c ∈ DISPOSITION_COMPONENTS) df)
    as Hd.
  cbv zeta in Hrows, HTS, HTD, HB.
  set (scols := filter (λ c, c ∈ SUPPLY_COMPONENTS) (columns df)) in *.
  set (dcols := filter (λ c, c ∈ DISPOSITION_COMPONENTS) (columns df)) in *.
  remember (add_balance_columns df) as out eqn:Hout. clear Hout.
  unfold add_balance_columns. cbv zeta.
  rewrite Hs by decide_by_computation.
  assert (H1 : match scols with
               | [] => out
               | _ :: _ => assign "Total_Supply" (sum_axis1 scols) out
               end = out).
  { destruct scols as [|c0 scols'] eqn:E; [done|].
    apply assign_fixed; [by apply HTS|].
    eapply Forall_impl; [exact Hrows|]. intros r (H & _). by apply H. }
  rewrite H1, Hd by decide_by_computation.
  assert (H2 : match dcols with
               | [] => out
               | _ :: _ => assign "Total_Disposition" (sum_axis1 dcols) out
               end = out).
  { destruct dcols as [|c0 dcols'] eqn:E; [done|].
    apply assign_fixed; [by apply HTD|].
    eapply Forall_impl; [exact Hrows|]. intros r (_ & H & _). by apply H. }
  rewrite H2.
  case_decide as Hcond; [|done]. destruct Hcond as [Hc1 Hc2].
  destruct (HB Hc1 Hc2) as [HBD HBP].
  rewrite (assign_fixed "Balance_Difference").
  - apply assign_fixed; [done|].
    eapply Forall_impl; [exact Hrows|]. intros r (_ & _ & H).
    by destruct (H Hc1 Hc2).
  - done.
  - eapply Forall_impl; [exact Hrows|]. intros r (_ & _ & H).
    by destruct (H Hc1 Hc2).
Qed.

End BalanceTwice.

(** ** Rounding, sums and means *)

Section Numbers.
Import Config GoldAggregation Examples MoreExamples.
Local Open Scope Qc_scope.










End Numbers.

(** ** The columns of the gold table *)

Section GoldSchema.
Import Config GoldAggregation Examples MoreExamples.

Lemma wide_column_occurs df wide c :
  pivot_to_wide_table df = Ok wide →
  c ∈ data_columns wide ↔
  c ∈ a_component <$> df ∧
  (c ∈ SUPPLY_COMPONENTS ∨ c ∈ DISPOSITION_COMPONENTS).
Proof.
  intros Hw.
  destruct (pivot_to_wide_table_Ok df wide Hw) as (wide0 & Hp & Hcols & _).
  destruct (pivot_reset_index_Ok df wide0 Hp) as (_ & Hin & _ & _).
  rewrite Hcols. split.
  - intros (_ & Hc & Hcat)%component_order_classified. by rewrite <- Hin.
  - intros [Hc Hcat]. rewrite <- Hin in Hc.
    unfold component_order. rewrite elem_of_app, !list_elem_of_filter.
    unfold columns. rewrite !elem_of_cons.
    assert (Hvals : ∀ c, c ∈ SUPPLY_COMPONENTS ∨ c ∈ DISPOSITION_COMPONENTS →
                         c ∈ SERIES_MAPPING_values).
    { intros c' [H|H]; revert c' H; apply Forall_forall;
        decide_by_computation. }
    destruct Hcat; [left|right]; auto.
Qed.

(** X13.  The columns that the gold table has after the wide columns: both
    totals and both balance columns when the input has a Supply and a
    Disposition component; only [Total_Supply] when it has a Supply
    component and no Disposition component.  The gold file has the same
    columns as the table. *)
Theorem gold_table_balance_columns (df : list AnnualMetric)
    (wide : DataFrame) :
  pivot_to_wide_table df = Ok wide →
  Exists (λ a, a_component a ∈ SUPPLY_COMPONENTS) df →
  data_columns (rounded_copy (add_balance_columns wide))
  = data_columns (add_balance_columns wide) ∧
  (Exists (λ a, a_component a ∈ DISPOSITION_COMPONENTS) df →
   columns (add_balance_columns wide)
   = (columns wide ++ ["Total_Supply"; "Total_Disposition";
                       "Balance_Difference"; "Balance_Pct_Diff"])%list) ∧
  (Forall (λ a, a_component a ∉ DISPOSITION_COMPONENTS) df →
   columns (add_balance_columns wide)
   = (columns wide ++ ["Total_Supply"])%list).
Proof.
  intros Hw Hsup. split.
  { destruct (round_columns_spec (columns (add_balance_columns wide))
                (add_balance_columns wide)) as [Hc _]; [|done].
    by apply Forall_forall. }
  assert (Hfresh : Forall (λ c, c ∉ columns wide)
                     ["Total_Supply"; "Total_Disposition";
                      "Balance_Difference"; "Balance_Pct_Diff"]).
  { apply Forall_forall. intros c Hc. unfold columns.
    apply not_elem_of_cons. split.
    - intros ->. revert Hc. decide_by_computation.
    - intros Hin. apply (wide_column_occurs df wide c Hw) in Hin as [_ Hcat].
      revert c Hc Hcat.
      apply (proj1 (Forall_forall
                      (λ c, ¬ (c ∈ SUPPLY_COMPONENTS
                               ∨ c ∈ DISPOSITION_COMPONENTS)) _)).
      decide_by_computation. }
  pose proof (add_balance_data_columns wide Hfresh) as Hcols.
  assert (Hs : filter (λ col, col ∈ SUPPLY_COMPONENTS) (columns wide) ≠ []).
  { apply Exists_exists in Hsup as (a & Ha & Hcat).
    assert (a_component a ∈ filter (λ col, col ∈ SUPPLY_COMPONENTS)
                                   (columns wide)) as Hin.
    { apply list_elem_of_filter. split; [done|]. unfold columns. right.
      apply (wide_column_occurs df wide _ Hw). split; [|by left].
      apply list_elem_of_fmap. by exists a. }
    intros Hnil. rewrite Hnil in Hin. by apply elem_of_nil in Hin. }
  unfold columns at 1 3. rewrite Hcols.
  destruct (filter (λ col, col ∈ SUPPLY_COMPONENTS) (columns wide))
    as [|c0 scols]; [done|]. clear Hs.
  split.
  - intros Hdis.
    destruct (filter (λ col, col ∈ DISPOSITION_COMPONENTS) (columns wide))
      as [|c1 dcols] eqn:Hd; [|done].
    apply Exists_exists in Hdis as (a & Ha & Hcat).
    assert (a_component a ∈ filter (λ col, col ∈ DISPOSITION_COMPONENTS)
                                   (columns wide)) as Hin.
    { apply list_elem_of_filter. split; [done|]. unfold columns. right.
      apply (wide_column_occurs df wide _ Hw). split; [|by right].
      apply list_elem_of_fmap. by exists a. }
    rewrite Hd in Hin. by apply elem_of_nil in Hin.
  - intros Hnone.
    destruct (filter (λ col, col ∈ DISPOSITION_COMPONENTS) (columns wide))
      as [|c1 dcols] eqn:Hd; [done|].
    assert (c1 ∈ filter (λ col, col ∈ DISPOSITION_COMPONENTS) (columns wide))
      as [Hcat Hin]%list_elem_of_filter by (rewrite Hd; by left).
    unfold columns in Hin. apply elem_of_cons in Hin as [->|Hin].
    { revert Hcat. decide_by_computation. }
    apply (wide_column_occurs df wide _ Hw) in Hin as [Hin _].
    apply list_elem_of_fmap in Hin as (a & -> & Ha).
    rewrite Forall_forall in Hnone. by destruct (Hnone a Ha).
Qed.

Lemma gold_table_balance_columns_witness :
  data_columns (rounded_copy (add_balance_columns (wide_of with_other_metric)))
  = data_columns (add_balance_columns (wide_of with_other_metric)) ∧
  (Exists (λ a, a_component a ∈ DISPOSITION_COMPONENTS) with_other_metric →
   columns (add_balance_columns (wide_of with_other_metric))
   = (columns (wide_of with_other_metric)
      ++ ["Total_Supply"; "Total_Disposition";
          "Balance_Difference"; "Balance_Pct_Diff"])%list) ∧
  (Forall (λ a, a_component a ∉ DISPOSITION_COMPONENTS) with_other_metric →
   columns (add_balance_columns (wide_of with_other_metric))
   = (columns (wide_of with_other_metric) ++ ["Total_Supply"])%list).
Proof.
  apply (gold_table_balance_columns with_other_metric
           (wide_of with_other_metric)).
  - vm_compute. reflexivity.
  - decide_by_computation.
Defined.

End GoldSchema.

(** ** The bronze layer *)

Section Bronze.
Import Config EIADataIngestion Examples MoreExamples.

Variable http_get : list Request → Request → option ApiResponse.
Variable now : list Request → string.

Lemma assoc_set_fresh {V} k (v : V) l :
  k ∉ l.*1 → assoc_set k v l = (l ++ [(k, v)])%list.
Proof.
  induction l as [|[k' v'] l IH]; [done|]. cbn [assoc_set fmap list_fmap fst].
  intros [Hne Hnin]%not_elem_of_cons.
  rewrite decide_False by done. cbn [app]. by rewrite IH.
Qed.

Lemma fetch_series_data_known self series_id start_date comp s :
  assoc series_id SERIES_MAPPING = Some comp →
  fetch_series_data http_get now self series_id start_date s
  = let req := request_for self series_id start_date in
    let s' := {| files := files s; bronze_metadata := bronze_metadata s;
                 sent := sent s ++ [req] |} in
    match http_get (sent s) req with
    | None => (Failed RequestException, s')
    | Some data =>
        (Done {| envelope := data;
                 _metadata := {| m_series_id := series_id;
                                 m_component_name := comp;
                                 m_fetch_timestamp := now (sent s');
                                 m_start_date := start_date |} |}, s')
    end.
Proof. intros H. unfold fetch_series_data. by rewrite H. Qed.

(** What the loop of [fetch_all_series] does on series that the catalog
    knows and that are not yet in [all_data]. *)
Lemma fetch_loop_outcome self ids all_data s :
  NoDup ids →
  Forall (λ id, id ∉ all_data.*1) ids →
  Forall (λ id, is_Some (assoc id SERIES_MAPPING)) ids →
  match fetch_loop http_get now self ids all_data s with
  | (Done data, s') =>
      (∃ new, data = (all_data ++ new)%list ∧ new.*1 = ids ∧
              Forall (λ item,
                        m_series_id (_metadata item.2) = item.1 ∧
                        assoc item.1 SERIES_MAPPING
                        = Some (m_component_name (_metadata item.2)) ∧
                        m_start_date (_metadata item.2) = START_DATE) new ∧
              ∀ i item, new !! i = Some item →
                http_get (sent s ++ ((λ id, request_for self id START_DATE)
                                       <$> take i ids))%list
                         (request_for self item.1 START_DATE)
                = Some (envelope item.2) ∧
                m_fetch_timestamp (_metadata item.2)
                = now (sent s ++ ((λ id, request_for self id START_DATE)
                                    <$> take (S i) ids))%list) ∧
      files s' = files s ∧ bronze_metadata s' = bronze_metadata s ∧
      sent s' = (sent s ++ ((λ id, request_for self id START_DATE) <$> ids))%list
  | (Failed e, s') =>
      e = RequestException ∧
      files s' = files s ∧ bronze_metadata s' = bronze_metadata s ∧
      ∃ n, (n < length ids)%nat ∧
           sent s' = (sent s ++ ((λ id, request_for self id START_DATE)
                                   <$> take (S n) ids))%list ∧
           http_get (sent s ++ ((λ id, request_for self id START_DATE)
                                  <$> take n ids))%list
                    (request_for self (default "" (ids !! n)) START_DATE)
           = None
  end.
Proof.
  revert all_data s. induction ids as [|id ids IH]; intros all_data s.
  - intros _ _ _. cbn. split; [|by rewrite app_nil_r].
    exists []. by rewrite app_nil_r.
  - intros [Hnin Hnd]%NoDup_cons [Hfresh Hfreshs]%Forall_cons
      [[comp Hcomp] Hknown]%Forall_cons.
    cbn [fetch_loop]. unfold mbind, N_bind.
    rewrite (fetch_series_data_known _ _ _ comp) by done. cbv zeta.
    destruct (http_get (sent s) (request_for self id START_DATE))
      as [data|] eqn:Hget.
    + set (raw := {| envelope := data; _metadata := _ |}).
      set (s1 := {| files := files s; bronze_metadata := bronze_metadata s;
                    sent := _ |}).
      rewrite (assoc_set_fresh id raw all_data) by done.
      specialize (IH (all_data ++ [(id, raw)])%list s1 Hnd).
      destruct (fetch_loop http_get now self ids _ s1) as [[data'|e] s'].
      * destruct IH as ((new & -> & Hkeys & Hall & Hresp) & Hf & Hm & Hsent).
        { apply Forall_forall. intros id' Hid'. rewrite fmap_app.
          rewrite Forall_forall in Hfreshs. rewrite not_elem_of_app.
          split; [by apply Hfreshs|].
          cbn. rewrite list_elem_of_singleton. by intros ->. }
        { done. }
        split; [|split; [done|split; [done|]]].
        -- exists ((id, raw) :: new). rewrite <- app_assoc.
           split; [done|]. split; [by rewrite fmap_cons, Hkeys|].
           split; [by constructor|].
           intros [|i] item.
           ++ intros [= <-]. cbn [take fmap list_fmap fst snd envelope
                                  _metadata m_fetch_timestamp].
              rewrite app_nil_r. done.
           ++ intros Hi. cbn [lookup list_lookup] in Hi.
              destruct (Hresp i item Hi) as [H1 H2]. subst s1.
              cbn [sent] in H1, H2. rewrite <- !app_assoc in H1, H2.
              done.
        -- rewrite Hsent. subst s1. cbn [sent].
           by rewrite <- app_assoc, fmap_cons.
      * destruct IH as (-> & Hf & Hm & n & Hn & Hsent & Hfail).
        { apply Forall_forall. intros id' Hid'. rewrite fmap_app.
          rewrite Forall_forall in Hfreshs. rewrite not_elem_of_app.
          split; [by apply Hfreshs|].
          cbn. rewrite list_elem_of_singleton. by intros ->. }
        { done. }
        split; [done|]. split; [done|]. split; [done|].
        exists (S n). split; [cbn [length]; lia|].
        subst s1. cbn [sent] in *. rewrite <- !app_assoc in *.
        split; [by rewrite Hsent|]. done.
    + split; [done|]. split; [done|]. split; [done|].
      exists 0%nat. split; [cbn [length]; lia|]. cbn [take lookup].
      split; [done|]. cbn. by rewrite app_nil_r.
Qed.

Lemma init_Ok API_KEY key self :
  init API_KEY key = Ok self →
  api_key self ≠ "" ∧ base_url self = EIA_API_BASE_URL ∧
  series_ids self = SERIES_MAPPING.*1.
Proof.
  unfold init. case_decide as Hk; [done|]. intros [= <-]. done.
Qed.

Lemma run_outcome self s :
  series_ids self = SERIES_MAPPING.*1 →
  match run http_get now self s with
  | (Done _, s') =>
      ∃ data,
        data.*1 = SERIES_MAPPING.*1 ∧
        Forall (λ item,
                  m_series_id (_metadata item.2) = item.1 ∧
                  assoc item.1 SERIES_MAPPING
                  = Some (m_component_name (_metadata item.2)) ∧
                  m_start_date (_metadata item.2) = START_DATE) data ∧
        (∀ i item, data !! i = Some item →
           http_get (sent s ++ ((λ id, request_for self id START_DATE)
                                  <$> take i SERIES_MAPPING.*1))%list
                    (request_for self item.1 START_DATE)
           = Some (envelope item.2) ∧
           m_fetch_timestamp (_metadata item.2)
           = now (sent s ++ ((λ id, request_for self id START_DATE)
                               <$> take (S i) SERIES_MAPPING.*1))%list) ∧
        files s' = {| frames := frames (files s);
                      bronze_file := Some (prod_map id envelope <$> data);
                      silver_file := silver_file (files s);
                      gold_file := gold_file (files s) |} ∧
        bronze_metadata s' = Some (prod_map id _metadata <$> data) ∧
        sent s' = (sent s ++ ((λ id, request_for self id START_DATE)
                                <$> SERIES_MAPPING.*1))%list
  | (Failed e, s') =>
      e = RequestException ∧
      files s' = files s ∧ bronze_metadata s' = bronze_metadata s ∧
      ∃ n, (n < length SERIES_MAPPING)%nat ∧
           sent s' = (sent s ++ ((λ id, request_for self id START_DATE)
                                   <$> take (S n) SERIES_MAPPING.*1))%list ∧
           http_get (sent s ++ ((λ id, request_for self id START_DATE)
                                  <$> take n SERIES_MAPPING.*1))%list
                    (request_for self (default "" (SERIES_MAPPING.*1 !! n))
                                 START_DATE)
           = None
  end.
Proof.
  intros Hids. unfold run, fetch_all_series, mbind, N_bind. rewrite Hids.
  pose proof (fetch_loop_outcome self SERIES_MAPPING.*1 [] s) as H.
  destruct (fetch_loop http_get now self SERIES_MAPPING.*1 [] s)
    as [[data|e] s'].
  - destruct H as ((new & -> & Hkeys & Hall & Hresp) & Hf & Hm & Hsent);
      [decide_by_computation..|].
    exists new. cbn [app files bronze_metadata sent]. rewrite Hf. done.
  - destruct H as (-> & Hf & Hm & n & Hn & Hsent & Hfail);
      [decide_by_computation..|].
    split; [done|]. split; [done|]. split; [done|].
    exists n. by rewrite length_fmap in Hn.
Qed.

(** X14.  When the bronze [run] returns, it has sent exactly one request per
    catalog series, in catalog order, each for monthly values from
    [START_DATE] sorted by ascending period, at most 5000 of them, with a
    non-empty key; the bronze file maps exactly the catalog series ids, in
    that order, each to the envelope that the API answered to the request
    for that series, unchanged, and each [_metadata] block names its
    series, the catalog name of the series, [START_DATE] and the time read
    after the request.  Nothing else is written.  With an API that answers
    every request the run returns. *)
Theorem bronze_run_fetches_every_series
    (API_KEY key : option string) (self : Client) (s : net_world) :
  init API_KEY key = Ok self →
  (∀ s', run http_get now self s = (Done tt, s') →
     ∃ data,
       data.*1 = SERIES_MAPPING.*1 ∧
       Forall (λ item,
                 m_series_id (_metadata item.2) = item.1 ∧
                 assoc item.1 SERIES_MAPPING
                 = Some (m_component_name (_metadata item.2)) ∧
                 m_start_date (_metadata item.2) = START_DATE) data ∧
       (∀ i item, data !! i = Some item →
          http_get (sent s ++ ((λ id, request_for self id START_DATE)
                                 <$> take i SERIES_MAPPING.*1))%list
                   (request_for self item.1 START_DATE)
          = Some (envelope item.2) ∧
          m_fetch_timestamp (_metadata item.2)
          = now (sent s ++ ((λ id, request_for self id START_DATE)
                              <$> take (S i) SERIES_MAPPING.*1))%list) ∧
       files s' = {| frames := frames (files s);
                     bronze_file := Some (prod_map id envelope <$> data);
                     silver_file := silver_file (files s);
                     gold_file := gold_file (files s) |} ∧
       bronze_metadata s' = Some (prod_map id _metadata <$> data) ∧
       sent s' = (sent s ++ ((λ id, request_for self id START_DATE)
                               <$> SERIES_MAPPING.*1))%list) ∧
  Forall (λ req, p_api_key req ≠ "" ∧ p_frequency req = "monthly" ∧
                 p_data_0 req = "value" ∧ p_start req = START_DATE ∧
                 p_sort_column req = "period" ∧
                 p_sort_direction req = "asc" ∧
                 p_offset req = 0 ∧ p_length req = 5000 ∧
                 url req = "https://api.eia.gov/v2/petroleum/sum/snd/data/")
         ((λ id, request_for self id START_DATE) <$> SERIES_MAPPING.*1) ∧
  ((∀ sent req, is_Some (http_get sent req)) →
   ∃ s', run http_get now self s = (Done tt, s')).
Proof.
  intros (Hkey & Hurl & Hids)%init_Ok.
  pose proof (run_outcome self s Hids) as H.
  split; [|split].
  - intros s' Hrun. by rewrite Hrun in H.
  - apply Forall_fmap, Forall_forall. intros id _. cbn.
    rewrite Hurl. done.
  - intros Hanswers.
    destruct (run http_get now self s) as [[[]|e] s']; [by eexists|].
    destruct H as (_ & _ & _ & n & _ & _ & Hfail).
    match type of Hfail with http_get ?h ?r = None =>
      destruct (Hanswers h r) as [x Hx] end.
    rewrite Hx in Hfail. done.
Qed.

(** X15.  When a request fails, the bronze [run] raises the RequestException;
    it has sent the requests up to the failed one and no further, and it
    has written nothing: no partial bronze file. *)
Theorem failed_fetch_writes_nothing
    (API_KEY key : option string) (self : Client) (s s' : net_world)
    (e : fetch_exn) :
  init API_KEY key = Ok self →
  run http_get now self s = (Failed e, s') →
  e = RequestException ∧
  files s' = files s ∧ bronze_metadata s' = bronze_metadata s ∧
  ∃ n, (n < length SERIES_MAPPING)%nat ∧
       sent s' = (sent s ++ ((λ id, request_for self id START_DATE)
                               <$> take (S n) SERIES_MAPPING.*1))%list ∧
       http_get (sent s ++ ((λ id, request_for self id START_DATE)
                              <$> take n SERIES_MAPPING.*1))%list
                (request_for self (default "" (SERIES_MAPPING.*1 !! n))
                             START_DATE)
       = None.
Proof.
  intros (_ & _ & Hids)%init_Ok Hrun.
  pose proof (run_outcome self s Hids) as H. by rewrite Hrun in H.
Qed.

End Bronze.

Section BronzeWitnesses.
Import Config EIADataIngestion Examples MoreExamples.

Lemma bronze_run_fetches_every_series_witness :
  (∀ s', run good_api clock client start_state = (Done tt, s') →
     ∃ data,
       data.*1 = SERIES_MAPPING.*1 ∧
       Forall (λ item,
                 m_series_id (_metadata item.2) = item.1 ∧
                 assoc item.1 SERIES_MAPPING
                 = Some (m_component_name (_metadata item.2)) ∧
                 m_start_date (_metadata item.2) = START_DATE) data ∧
       (∀ i item, data !! i = Some item →
          good_api (sent start_state
                    ++ ((λ id, request_for client id START_DATE)
                          <$> take i SERIES_MAPPING.*1))%list
                   (request_for client item.1 START_DATE)
          = Some (envelope item.2) ∧
          m_fetch_timestamp (_metadata item.2)
          = clock (sent start_state
                   ++ ((λ id, request_for client id START_DATE)
                         <$> take (S i) SERIES_MAPPING.*1))%list) ∧
       files s' = {| frames := frames (files start_state);
                     bronze_file := Some (prod_map id envelope <$> data);
                     silver_file := silver_file (files start_state);
                     gold_file := gold_file (files start_state) |} ∧
       bronze_metadata s' = Some (prod_map id _metadata <$> data) ∧
       sent s' = (sent start_state
                  ++ ((λ id, request_for client id START_DATE)
                        <$> SERIES_MAPPING.*1))%list) ∧
  Forall (λ req, p_api_key req ≠ "" ∧ p_frequency req = "monthly" ∧
                 p_data_0 req = "value" ∧ p_start req = START_DATE ∧
                 p_sort_column req = "period" ∧
                 p_sort_direction req = "asc" ∧
                 p_offset req = 0 ∧ p_length req = 5000 ∧
                 url req = "https://api.eia.gov/v2/petroleum/sum/snd/data/")
         ((λ id, request_for client id START_DATE) <$> SERIES_MAPPING.*1) ∧
  ((∀ sent req, is_Some (good_api sent req)) →
   ∃ s', run good_api clock client start_state = (Done tt, s')).
Proof.
  apply (bronze_run_fetches_every_series good_api clock (Some "k") None
           client start_state).
  reflexivity.
Defined.

Lemma failed_fetch_writes_nothing_witness :
  RequestException = RequestException ∧
  files (run flaky_api clock client start_state).2 = files start_state ∧
  bronze_metadata (run flaky_api clock client start_state).2
  = bronze_metadata start_state ∧
  ∃ n, (n < length SERIES_MAPPING)%nat ∧
       sent (run flaky_api clock client start_state).2
       = (sent start_state ++ ((λ id, request_for client id START_DATE)
                                 <$> take (S n) SERIES_MAPPING.*1))%list ∧
       flaky_api (sent start_state
                  ++ ((λ id, request_for client id START_DATE)
                        <$> take n SERIES_MAPPING.*1))%list
                 (request_for client (default "" (SERIES_MAPPING.*1 !! n))
                              START_DATE)
       = None.
Proof.
  apply (failed_fetch_writes_nothing flaky_api clock (Some "k") None client
           start_state (run flaky_api clock client start_state).2
           RequestException).
  - reflexivity.
  - vm_compute. reflexivity.
Defined.

End BronzeWitnesses.

(** ** The pipeline runner *)

Section PipelineRunner.
Import Config Init EIADataIngestion Pipeline Examples MoreExamples.

Variable API_KEY : option string.
Variable http_get : list Request → Request → option ApiResponse.
Variable now : list Request → string.
Variable to_datetime : string → option Date.
Variable to_numeric : string → float64.

Lemma net_world_eta s :
  {| files := files s; bronze_metadata := bronze_metadata s;
     sent := sent s |} = s.
Proof. by destruct s. Qed.

Lemma silver_run_Raise w e w' :
  SilverTransformation.run to_datetime to_numeric w = (Raise e, w') → w' = w.
Proof.
  unfold SilverTransformation.run, mbind, M_bind,
    SilverTransformation.load_raw_data, lift.
  destruct (bronze_file w) as [raw|]; cbv beta iota; [|by intros [= _ <-]].
  destruct (SilverTransformation.parse_all raw) as [dfs|e1]; cbv beta iota;
    [|by intros [= _ <-]].
  destruct (SilverTransformation.pd_concat dfs) as [combined|e2];
    cbv beta iota; [|by intros [= _ <-]].
  destruct (SilverTransformation.clean_and_normalize _ _ combined)
    as [clean_df|e3]; cbv beta iota; [|by intros [= _ <-]].
  by intros [=].
Qed.

Lemma gold_run_Raise w e w' :
  GoldAggregation.run w = (Raise e, w') → w' = w.
Proof.
  destruct (silver_file w) as [clean|] eqn:Hs.
  - destruct (GoldAggregation.pivot_to_wide_table
                (GoldAggregation.calculate_annual_averages clean))
      as [wide|e'] eqn:Hp.
    + pose proof (run_spec clean wide w Hs Hp) as H. cbv zeta in H.
      rewrite H. by intros [=].
    + unfold GoldAggregation.run, mbind, M_bind,
        GoldAggregation.load_clean_data.
      rewrite Hs. unfold GoldAggregation.pivot_to_wide_format, mbind, M_bind,
        lift. rewrite Hp. by intros [= _ <-].
  - unfold GoldAggregation.run, mbind, M_bind,
      GoldAggregation.load_clean_data.
    rewrite Hs. by intros [= _ <-].
Qed.

(** The two outcomes of [run_silver]. *)
Lemma run_silver_outcome s :
  (∃ out,
     SilverTransformation.run to_datetime to_numeric (files s)
     = (Ok out, with_silver_file out (files s)) ∧
     run_silver to_datetime to_numeric s
     = (Done true, {| files := with_silver_file out (files s);
                      bronze_metadata := bronze_metadata s;
                      sent := sent s |})) ∨
  ((∃ e, SilverTransformation.run to_datetime to_numeric (files s)
         = (Raise e, files s)) ∧
   run_silver to_datetime to_numeric s = (Done false, s)).
Proof.
  unfold run_silver, attempt, liftM, mbind, M_bind, SilverTransformation_init.
  destruct (bronze_file (files s)) as [raw|] eqn:Hb.
  - destruct (SilverTransformation.run to_datetime to_numeric (files s))
      as [[out|e] w'] eqn:Hrun.
    + apply silver_run_rows in Hrun as Hw. destruct Hw as [-> _].
      left. by exists out.
    + apply silver_run_Raise in Hrun as Hw. subst w'.
      right. split; [by exists e|]. by rewrite net_world_eta.
  - right. split; [|by rewrite net_world_eta].
    exists FileNotFoundError.
    unfold SilverTransformation.run, mbind, M_bind,
      SilverTransformation.load_raw_data.
    by rewrite Hb.
Qed.

(** The two outcomes of [run_gold]. *)
Lemma run_gold_outcome s :
  (∃ l w',
     GoldAggregation.run (files s) = (Ok l, w') ∧
     run_gold s
     = (Done true, {| files := w'; bronze_metadata := bronze_metadata s;
                      sent := sent s |})) ∨
  ((∃ e, GoldAggregation.run (files s) = (Raise e, files s)) ∧
   run_gold s = (Done false, s)).
Proof.
  unfold run_gold, attempt, liftM, mbind, M_bind, GoldAggregation_init.
  destruct (silver_file (files s)) as [clean|] eqn:Hs.
  - destruct (GoldAggregation.run (files s)) as [[l|e] w'] eqn:Hrun.
    + left. by exists l, w'.
    + apply gold_run_Raise in Hrun as Hw. subst w'.
      right. split; [by exists e|]. by rewrite net_world_eta.
  - right. split; [|by rewrite net_world_eta].
    exists FileNotFoundError.
    unfold GoldAggregation.run, mbind, M_bind,
      GoldAggregation.load_clean_data.
    by rewrite Hs.
Qed.

(** The three outcomes of [run_bronze]. *)
Lemma run_bronze_outcome s :
  (∃ self s', init API_KEY None = Ok self ∧
     run http_get now self s = (Done tt, s') ∧
     run_bronze API_KEY http_get now s = (Done true, s')) ∨
  (init API_KEY None = Raise ValueError ∧
   run_bronze API_KEY http_get now s = (Done false, s)) ∨
  (∃ self e s', init API_KEY None = Ok self ∧
     run http_get now self s = (Failed e, s') ∧
     run_bronze API_KEY http_get now s = (Done false, s')).
Proof.
  unfold run_bronze, attempt, liftM, lift, mbind, N_bind.
  destruct (init API_KEY None) as [self|e] eqn:Hinit; cbv beta iota;
    rewrite net_world_eta.
  - destruct (run http_get now self s) as [[[]|e] s'] eqn:Hrun.
    + left. by exists self, s'.
    + right. right. by exists self, e, s'.
  - right. left. split; [|done].
    revert Hinit. unfold init. case_decide; [by intros [= <-]|done].
Qed.

Lemma init_without_key :
  API_KEY = None ∨ API_KEY = Some "" →
  init API_KEY None = Raise ValueError.
Proof. by intros [->| ->]. Qed.

Lemma init_with_key k :
  API_KEY = Some k → k ≠ "" →
  init API_KEY None
  = Ok {| api_key := k; base_url := EIA_API_BASE_URL;
          series_ids := SERIES_MAPPING.*1 |}.
Proof.
  intros -> Hk. unfold init, EIA_API_KEY. cbn [default].
  by rewrite decide_False.
Qed.

(** No silver row is of a component called "year". *)
Lemma silver_components_not_year w w' out :
  SilverTransformation.run to_datetime to_numeric w = (Ok out, w') →
  "year" ∉ component <$> out.
Proof.
  intros [_ Hrows]%silver_run_rows.
  intros (r & Hy & Hr)%list_elem_of_fmap.
  rewrite Forall_forall in Hrows.
  destruct (Hrows r Hr) as (Hcat & _).
  apply catalog_component_classified in Hcat as (Hin & _).
  rewrite <- Hy in Hin. revert Hin. decide_by_computation.
Qed.

Lemma gold_after_silver_run w w1 out :
  SilverTransformation.run to_datetime to_numeric w = (Ok out, w1) →
  ∃ wide l w2,
    GoldAggregation.pivot_to_wide_table
      (GoldAggregation.calculate_annual_averages out) = Ok wide ∧
    GoldAggregation.run w1 = (Ok l, w2) ∧
    frames w2 !! l = Some (GoldAggregation.add_balance_columns wide) ∧
    gold_file w2
    = Some (GoldAggregation.rounded_copy
              (GoldAggregation.add_balance_columns wide)) ∧
    bronze_file w2 = bronze_file w ∧ silver_file w2 = Some out.
Proof.
  intros Hrun. pose proof (silver_components_not_year _ _ _ Hrun) as Hy.
  apply silver_run_rows in Hrun as [-> _].
  destruct (gold_run_total (with_silver_file out w) out eq_refl Hy)
    as (wide & l & w2 & Hp & Hg & Hl & Hgold & Hb & Hs).
  by exists wide, l, w2.
Qed.

(** X16.  The silver and gold layers compose: on the files left by a silver
    [run] that returned, the gold [run] always returns.  It writes to the
    gold file the rounded table with the balance columns, computed from the
    annual averages of the rows that the silver run returned, and leaves
    the bronze and silver files as they are. *)
Theorem gold_accepts_silver_output (w w1 : world) (out : list ObservationRow) :
  SilverTransformation.run to_datetime to_numeric w = (Ok out, w1) →
  ∃ wide l w2,
    GoldAggregation.pivot_to_wide_table
      (GoldAggregation.calculate_annual_averages out) = Ok wide ∧
    GoldAggregation.run w1 = (Ok l, w2) ∧
    frames w2 !! l = Some (GoldAggregation.add_balance_columns wide) ∧
    gold_file w2
    = Some (GoldAggregation.rounded_copy
              (GoldAggregation.add_balance_columns wide)) ∧
    bronze_file w2 = bronze_file w ∧ silver_file w2 = Some out.
Proof. apply gold_after_silver_run. Qed.


Lemma gold_run_Ok_inv w l w' :
  GoldAggregation.run w = (Ok l, w') →
  frames w ⊆ frames w' ∧
  bronze_file w' = bronze_file w ∧ silver_file w' = silver_file w.
Proof.
  destruct (silver_file w) as [clean|] eqn:Hs.
  - destruct (GoldAggregation.pivot_to_wide_table
                (GoldAggregation.calculate_annual_averages clean))
      as [wide|e'] eqn:Hp.
    + pose proof (run_spec clean wide w Hs Hp) as H. cbv zeta in H.
      rewrite H. intros [= <- <-]. cbn. split; [|done].
      etrans; [|apply insert_subseteq].
      * apply insert_subseteq. apply not_elem_of_dom, is_fresh.
      * apply not_elem_of_dom, is_fresh.
    + unfold GoldAggregation.run, mbind, M_bind,
        GoldAggregation.load_clean_data.
      rewrite Hs. unfold GoldAggregation.pivot_to_wide_format, mbind, M_bind,
        lift. by rewrite Hp.
  - unfold GoldAggregation.run, mbind, M_bind,
      GoldAggregation.load_clean_data.
    by rewrite Hs.
Qed.

Lemma run_silver_no_bronze s :
  bronze_file (files s) = None →
  run_silver to_datetime to_numeric s = (Done false, s).
Proof.
  intros Hb.
  unfold run_silver, attempt, liftM, mbind, M_bind, SilverTransformation_init.
  by rewrite Hb, net_world_eta.
Qed.

Lemma run_gold_no_silver s :
  silver_file (files s) = None → run_gold s = (Done false, s).
Proof.
  intros Hs.
  unfold run_gold, attempt, liftM, mbind, M_bind, GoldAggregation_init.
  by rewrite Hs, net_world_eta.
Qed.

Lemma run_bronze_without_key s :
  API_KEY = None ∨ API_KEY = Some "" →
  run_bronze API_KEY http_get now s = (Done false, s).
Proof.
  intros Hk%init_without_key.
  destruct (run_bronze_outcome s)
    as [(self & s1 & Hinit & _)|[[_ Hb]|(self & e & s1 & Hinit & _)]];
    [congruence|done|congruence].
Qed.

(** What [run_silver] and [run_gold] leave alone. *)
Lemma run_silver_frame s :
  ∃ b s', run_silver to_datetime to_numeric s = (Done b, s') ∧
          sent s' = sent s ∧ bronze_metadata s' = bronze_metadata s ∧
          bronze_file (files s') = bronze_file (files s).
Proof.
  destruct (run_silver_outcome s) as [(out & _ & ->)|[_ ->]];
    by eexists _, _.
Qed.

Lemma run_gold_frame s :
  ∃ b s', run_gold s = (Done b, s') ∧
          sent s' = sent s ∧ bronze_metadata s' = bronze_metadata s ∧
          bronze_file (files s') = bronze_file (files s) ∧
          silver_file (files s') = silver_file (files s).
Proof.
  destruct (run_gold_outcome s) as [(l & w' & Hg & ->)|[_ ->]].
  - apply gold_run_Ok_inv in Hg as (_ & Hb & Hs). by eexists _, _.
  - by eexists _, _.
Qed.

(** X17.  Without an API key in the environment the full pipeline, and every
    selection of stages that includes the bronze stage, exits with status 1:
    no request is sent, no file is written and no later stage runs. *)
Theorem no_key_no_run (args : Args) (s : net_world) :
  API_KEY = None ∨ API_KEY = Some "" →
  bronze args = true ∨
  (bronze args = false ∧ silver args = false ∧ gold args = false) →
  main API_KEY http_get now to_datetime to_numeric args s = (Done 1, s).
Proof.
  intros Hk Hargs. pose proof (run_bronze_without_key s Hk) as Hb.
  destruct args as [b sv g]. cbn [bronze silver gold] in Hargs.
  unfold main, selected, mbind, N_bind. cbn [bronze silver gold].
  destruct Hargs as [->|(-> & -> & ->)]; cbn [negb orb].
  - rewrite Hb. by destruct sv, g.
  - unfold run_full_pipeline. by destruct Hk as [->| ->].
Qed.

(** [run_full_pipeline] by the outcomes of its stages; the key check
    agrees with the one of the bronze stage. *)
Lemma run_full_pipeline_stages s :
  run_full_pipeline API_KEY http_get now to_datetime to_numeric s
  = match run_bronze API_KEY http_get now s with
    | (Done true, s1) =>
        match run_silver to_datetime to_numeric s1 with
        | (Done true, s2) => run_gold s2
        | (Done false, s2) => (Done false, s2)
        | (Failed e, s2) => (Failed e, s2)
        end
    | (Done false, s1) => (Done false, s1)
    | (Failed e, s1) => (Failed e, s1)
    end.
Proof.
  assert (Hcases : (API_KEY = None ∨ API_KEY = Some "") ∨
                   ∃ a k, API_KEY = Some (String a k))
    by (destruct API_KEY as [[|a k]|]; eauto).
  destruct Hcases as [Hk|(a & k & Hk)].
  - rewrite run_bronze_without_key by done.
    unfold run_full_pipeline. by destruct Hk as [->| ->].
  - unfold run_full_pipeline. rewrite Hk. unfold mbind, N_bind.
    destruct (run_bronze _ _ _ s) as [[[|]|e] s1]; [|done..].
    cbn [negb]. by destruct (run_silver _ _ s1) as [[[|]|e] s2].
Qed.

Lemma init_Ok_key self :
  init API_KEY None = Ok self →
  ∃ key, API_KEY = Some key ∧ key ≠ "" ∧
         self = {| api_key := key; base_url := EIA_API_BASE_URL;
                   series_ids := SERIES_MAPPING.*1 |}.
Proof.
  unfold init, EIA_API_KEY. destruct API_KEY as [k|]; cbn [default].
  - case_decide; [done|]. intros [= <-]. by exists k.
  - done.
Qed.

(** X18.  Selecting all three stages is the full pipeline: with the flags
    [--bronze --silver --gold], [main] ends in the same state with the same
    exit status as with no flag, with or without an API key. *)
Theorem all_flags_is_full_pipeline (s : net_world) :
  main API_KEY http_get now to_datetime to_numeric
       {| bronze := true; silver := true; gold := true |} s
  = main API_KEY http_get now to_datetime to_numeric
         {| bronze := false; silver := false; gold := false |} s.
Proof.
  unfold main, selected, mbind, N_bind. cbn [bronze silver gold negb orb].
  rewrite run_full_pipeline_stages.
  destruct (run_bronze API_KEY http_get now s) as [[[|]|e] s1]; [|done..].
  destruct (run_silver to_datetime to_numeric s1) as [[[|]|e] s2]; [|done..].
  by destruct (run_gold s2) as [[[|]|e] s3].
Qed.

(** X19.  A stage whose input file is missing fails at once: [--silver] (with or
    without [--gold]) when there is no bronze file, and [--gold] alone when
    there is no silver file, exit with status 1 and change nothing. *)
Theorem stage_without_input_fails (args : Args) (s : net_world) :
  bronze args = false →
  (silver args = true ∧ bronze_file (files s) = None) ∨
  (silver args = false ∧ gold args = true ∧ silver_file (files s) = None) →
  main API_KEY http_get now to_datetime to_numeric args s = (Done 1, s).
Proof.
  destruct args as [b sv g]. cbn [bronze silver gold]. intros -> Hcase.
  unfold main, selected, mbind, N_bind, mret, N_ret.
  cbn [bronze silver gold negb orb].
  destruct Hcase as [[-> Hb]|(-> & -> & Hs)]; cbn [negb orb].
  - rewrite (run_silver_no_bronze s Hb). by destruct g.
  - by rewrite (run_gold_no_silver s Hs).
Qed.

(** X20.  A stage only writes its own file: a run of [main] that selects
    stages but not the bronze stage sends no request and leaves the bronze
    file and its metadata as they were, and a run of the gold stage alone
    also leaves the silver file as it was. *)
Theorem later_stages_send_nothing (args : Args) (s : net_world) :
  bronze args = false →
  silver args = true ∨ gold args = true →
  sent (main API_KEY http_get now to_datetime to_numeric args s).2 = sent s ∧
  bronze_metadata (main API_KEY http_get now to_datetime to_numeric args s).2
  = bronze_metadata s ∧
  bronze_file (files (main API_KEY http_get now to_datetime to_numeric
                        args s).2)
  = bronze_file (files s) ∧
  (silver args = false →
   silver_file (files (main API_KEY http_get now to_datetime to_numeric
                         args s).2)
   = silver_file (files s)).
Proof.
  destruct args as [b sv g]. cbn [bronze silver gold]. intros -> Hsel.
  unfold main, selected, mbind, N_bind, mret, N_ret.
  cbn [bronze silver gold negb orb].
  destruct sv.
  - cbn [negb orb].
    destruct (run_silver_frame s) as (b1 & s1 & -> & H1 & H2 & H3).
    destruct g; [|done]. destruct b1; [|done].
    destruct (run_gold_frame s1) as (b2 & s2 & -> & H4 & H5 & H6 & _).
    cbn [snd]. by rewrite H4, H5, H6.
  - destruct g; [|by destruct Hsel]. cbn [negb orb].
    by destruct (run_gold_frame s) as (b2 & s2 & -> & H4 & H5 & H6 & H7).
Qed.


(** The stages of a full run that returns true. *)
Lemma full_pipeline_true_inv s s' :
  run_full_pipeline API_KEY http_get now to_datetime to_numeric s
  = (Done true, s') →
  ∃ self s1 out l w3,
    init API_KEY None = Ok self ∧
    run http_get now self s = (Done tt, s1) ∧
    SilverTransformation.run to_datetime to_numeric (files s1)
    = (Ok out, with_silver_file out (files s1)) ∧
    GoldAggregation.run (with_silver_file out (files s1)) = (Ok l, w3) ∧
    s' = {| files := w3; bronze_metadata := bronze_metadata s1;
            sent := sent s1 |}.
Proof.
  rewrite run_full_pipeline_stages.
  destruct (run_bronze_outcome s)
    as [(self & s1 & Hinit & Hrun & ->)|
        [[Hinit ->]|(self & e & s1 & Hinit & Hrun & ->)]];
    [|by intros [=]..].
  destruct (run_silver_outcome s1) as [(out & Hs & ->)|[_ ->]];
    [|by intros [=]].
  match goal with |- run_gold ?s2 = _ → _ =>
    destruct (run_gold_outcome s2) as [(l & w3 & Hg & ->)|[_ ->]] end;
    [|by intros [=]].
  intros [= <-]. by exists self, s1, out, l, w3.
Qed.

(** The stages of a full run that returns false. *)
Lemma full_pipeline_false_inv s s' :
  run_full_pipeline API_KEY http_get now to_datetime to_numeric s
  = (Done false, s') →
  files s' = files s ∨
  ∃ self s1, init API_KEY None = Ok self ∧
             run http_get now self s = (Done tt, s1) ∧ s' = s1.
Proof.
  rewrite run_full_pipeline_stages.
  destruct (run_bronze_outcome s)
    as [(self & s1 & Hinit & Hrun & ->)|
        [[Hinit ->]|(self & e & s1 & Hinit & Hrun & ->)]].
  - destruct (run_silver_outcome s1) as [(out & Hs & ->)|[_ ->]];
      [|intros [= <-]; right; by exists self, s1].
    match goal with |- run_gold ?s2 = _ → _ =>
      destruct (run_gold_outcome s2) as [(l & w3 & Hg & ->)|[[e He] ->]] end;
      [by intros [=]|].
    cbn [files] in He.
    destruct (gold_after_silver_run _ _ _ Hs)
      as (wide & l & w2 & _ & Hg & _).
    congruence.
  - intros [= <-]. by left.
  - intros [= <-]. left.
    pose proof (init_Ok _ _ _ Hinit) as (_ & _ & Hids).
    pose proof (run_outcome http_get now self s Hids) as H.
    rewrite Hrun in H. by destruct H as (_ & Hf & _).
Qed.

(** X21.  A full run that fails leaves the silver file, the gold file and the
    DataFrame objects as they were: only the bronze file may have been
    rewritten.  In particular the gold stage is never the one that fails
    in a full run. *)
Theorem failed_pipeline_keeps_outputs (s s' : net_world) :
  run_full_pipeline API_KEY http_get now to_datetime to_numeric s
  = (Done false, s') →
  silver_file (files s') = silver_file (files s) ∧
  gold_file (files s') = gold_file (files s) ∧
  frames (files s') = frames (files s).
Proof.
  intros [->|(self & s1 & Hinit & Hrun & ->)]%full_pipeline_false_inv;
    [done|].
  pose proof (init_Ok _ _ _ Hinit) as (_ & _ & Hids).
  pose proof (run_outcome http_get now self s Hids) as H.
  rewrite Hrun in H. destruct H as (data & _ & _ & _ & -> & _). done.
Qed.

(** X22.  After a full run that succeeds the three files fit together: the
    bronze file holds one response per catalog series, in catalog order;
    the silver file is [clean_and_normalize] of the rows parsed from that
    bronze file; the gold file is the rounded balance table of the annual
    averages of that silver file; and exactly one request per catalog
    series has been sent, with the key of the environment. *)
Theorem successful_pipeline_artifacts (s s' : net_world) :
  run_full_pipeline API_KEY http_get now to_datetime to_numeric s
  = (Done true, s') →
  ∃ key raw dfs out wide,
    API_KEY = Some key ∧ key ≠ "" ∧
    sent s'
    = (sent s ++ ((λ id, request_for {| api_key := key;
                                        base_url := EIA_API_BASE_URL;
                                        series_ids := SERIES_MAPPING.*1 |}
                                     id START_DATE)
                    <$> SERIES_MAPPING.*1))%list ∧
    bronze_file (files s') = Some raw ∧ raw.*1 = SERIES_MAPPING.*1 ∧
    SilverTransformation.parse_all raw = Ok dfs ∧
    SilverTransformation.clean_and_normalize to_datetime to_numeric
      (concat dfs) = Ok out ∧
    silver_file (files s') = Some out ∧
    GoldAggregation.pivot_to_wide_table
      (GoldAggregation.calculate_annual_averages out) = Ok wide ∧
    gold_file (files s')
    = Some (GoldAggregation.rounded_copy
              (GoldAggregation.add_balance_columns wide)).
Proof.
  intros (self & s1 & out & l & w3 & Hinit & Hrun & Hs & Hg & ->)
    %full_pipeline_true_inv.
  apply init_Ok_key in Hinit as (key & Hk & Hne & ->).
  set (self := {| api_key := key; base_url := EIA_API_BASE_URL;
                  series_ids := SERIES_MAPPING.*1 |}) in *.
  pose proof (run_outcome http_get now self s eq_refl) as H.
  rewrite Hrun in H.
  destruct H as (data & Hkeys & _ & _ & Hf & _ & Hsent).
  destruct (gold_after_silver_run _ _ _ Hs)
    as (wide & l' & w2 & Hp & Hg' & _ & Hgold & Hb & Hsil).
  rewrite Hg in Hg'. injection Hg' as <- <-.
  apply run_Ok_inv in Hs as (raw & dfs & Hraw & Hparse & _ & Hclean & _).
  exists key, raw, dfs, out, wide. cbn [files sent].
  rewrite Hb, <- Hraw, Hsil, Hgold, Hsent.
  repeat split; try done.
  rewrite Hf in Hraw. cbn [bronze_file] in Hraw. injection Hraw as <-.
  rewrite <- Hkeys, <- list_fmap_compose. by apply list_fmap_ext.
Qed.

Lemma full_pipeline_total (k : string) (s : net_world) :
  API_KEY = Some k → k ≠ "" →
  (∀ hist req, ∃ resp,
     http_get hist req = Some resp ∧
     SilverTransformation.observation_list resp ≠ [] ∧
     Forall (λ rec, is_Some (to_datetime (period rec)))
            (SilverTransformation.observation_list resp)) →
  ∃ s', run_full_pipeline API_KEY http_get now to_datetime to_numeric s
        = (Done true, s').
Proof.
  intros Hk Hne Hapi.
  pose proof (init_with_key k Hk Hne) as Hinit.
  set (self := {| api_key := k; base_url := EIA_API_BASE_URL;
                  series_ids := SERIES_MAPPING.*1 |}) in Hinit.
  pose proof (run_outcome http_get now self s eq_refl) as H.
  destruct (run http_get now self s) as [[[]|e] s1] eqn:Hrun; cycle 1.
  { destruct H as (_ & _ & _ & n & _ & _ & Hfail).
    match type of Hfail with http_get ?h ?r = None =>
      destruct (Hapi h r) as (x & Hx & _) end.
    congruence. }
  destruct H as (data & Hkeys & Hall & Hresp & Hf & _ & _).
  set (raw := prod_map id envelope <$> data) in Hf.
  assert (Hgood : Forall (λ item,
            SilverTransformation.observation_list item.2 ≠ [] ∧
            Forall (λ rec, is_Some (to_datetime (period rec)))
                   (SilverTransformation.observation_list item.2)) raw).
  { apply Forall_fmap, Forall_lookup. intros i item Hi.
    destruct (Hresp i item Hi) as [Hget _].
    match type of Hget with http_get ?h ?r = _ =>
      destruct (Hapi h r) as (x & Hx & Hobs & Hdates) end.
    rewrite Hget in Hx. injection Hx as <-. done. }
  assert (Hknown : Forall (λ item,
            SilverTransformation.observation_list item.2 ≠ [] →
            is_Some (assoc item.1 SERIES_MAPPING)) raw).
  { apply Forall_fmap. eapply Forall_impl; [exact Hall|].
    intros [id r] (_ & Hcat & _) _. cbn in *. by eexists. }
  destruct (parse_all_total raw Hknown) as (dfs & Hparse & Hdfs).
  assert (Hne' : dfs ≠ []).
  { apply Hdfs. subst raw. destruct data as [|item data]; [done|].
    rewrite fmap_cons. apply Exists_cons_hd.
    rewrite fmap_cons in Hgood. by apply Forall_cons in Hgood as [[? _] _]. }
  destruct (parse_all_Ok raw dfs Hparse) as (_ & Hper & _ & _).
  destruct (clean_and_normalize_spec to_datetime to_numeric (concat dfs))
    as [Htot _].
  destruct Htot as [out Hout].
  { apply (Forall_fmap r_period (λ p, is_Some (to_datetime p))).
    rewrite Hper. apply Forall_fmap, Forall_bind.
    eapply Forall_impl; [exact Hgood|]. by intros item [_ ?]. }
  assert (Hsilver :
    SilverTransformation.run to_datetime to_numeric (files s1)
    = (Ok out, with_silver_file out (files s1))).
  { apply (run_Ok _ _ (files s1) raw dfs); auto. by rewrite Hf. }
  destruct (gold_after_silver_run _ _ _ Hsilver)
    as (wide & l & w2 & _ & Hg & _).
  rewrite run_full_pipeline_stages.
  destruct (run_bronze_outcome s)
    as [(self' & s1' & Hinit' & Hrun' & ->)|
        [[Hinit' _]|(self' & e & s1' & Hinit' & Hrun' & _)]];
    [|congruence..].
  rewrite Hinit in Hinit'. injection Hinit' as <-.
  rewrite Hrun in Hrun'. injection Hrun' as <-.
  destruct (run_silver_outcome s1) as [(out' & Hs' & ->)|[[e He] _]];
    [|congruence].
  rewrite Hsilver in Hs'. injection Hs' as <-.
  match goal with |- ∃ s', run_gold ?s2 = _ =>
    destruct (run_gold_outcome s2) as [(l' & w3 & _ & ->)|[[e He] _]] end;
    [by eexists|].
  cbn [files] in He. congruence.
Qed.

(** X23.  With a key in the environment and an API that answers every request
    with at least one record, all of whose periods parse, the full
    pipeline succeeds: every stage returns and [main] exits with
    status 0. *)
Theorem pipeline_succeeds_when_api_answers (k : string) (s : net_world) :
  API_KEY = Some k → k ≠ "" →
  (∀ hist req, ∃ resp,
     http_get hist req = Some resp ∧
     SilverTransformation.observation_list resp ≠ [] ∧
     Forall (λ rec, is_Some (to_datetime (period rec)))
            (SilverTransformation.observation_list resp)) →
  ∃ s',
    run_full_pipeline API_KEY http_get now to_datetime to_numeric s
    = (Done true, s') ∧
    main API_KEY http_get now to_datetime to_numeric
         {| bronze := false; silver := false; gold := false |} s
    = (Done 0, s').
Proof.
  intros Hk Hne Hapi.
  destruct (full_pipeline_total k s Hk Hne Hapi) as [s' Hfull].
  exists s'. split; [done|].
  unfold main, mbind, N_bind. cbn [bronze silver gold negb orb].
  by rewrite Hfull.
Qed.

End PipelineRunner.

Section PipelineWitnesses.
Import Config Init EIADataIngestion Pipeline Examples MoreExamples.
Import SilverTransformation.

Lemma gold_accepts_silver_output_witness :
  ∃ wide l w2,
    GoldAggregation.pivot_to_wide_table
      (GoldAggregation.calculate_annual_averages one_series_out) = Ok wide ∧
    GoldAggregation.run one_series_run.2 = (Ok l, w2) ∧
    frames w2 !! l = Some (GoldAggregation.add_balance_columns wide) ∧
    gold_file w2
    = Some (GoldAggregation.rounded_copy
              (GoldAggregation.add_balance_columns wide)) ∧
    bronze_file w2 = bronze_file (bronze_world one_series_raw) ∧
    silver_file w2 = Some one_series_out.
Proof.
  apply (gold_accepts_silver_output strptime_Ym parse_float
           (bronze_world one_series_raw)).
  vm_compute. reflexivity.
Defined.

Lemma no_key_no_run_witness :
  main None good_api clock strptime_Ym parse_float
       {| bronze := true; silver := true; gold := false |} start_state
  = (Done 1, start_state).
Proof.
  apply (no_key_no_run None good_api clock strptime_Ym parse_float).
  - left. reflexivity.
  - left. reflexivity.
Defined.

Lemma stage_without_input_fails_witness :
  main (Some "k") good_api clock strptime_Ym parse_float
       {| bronze := false; silver := true; gold := true |} start_state
  = (Done 1, start_state).
Proof.
  apply (stage_without_input_fails (Some "k") good_api clock strptime_Ym
           parse_float).
  - reflexivity.
  - left. split; reflexivity.
Defined.

Lemma later_stages_send_nothing_witness :
  sent (main (Some "k") good_api clock strptime_Ym parse_float
          {| bronze := false; silver := false; gold := true |}
          silver_only_state).2
  = sent silver_only_state ∧
  bronze_metadata (main (Some "k") good_api clock strptime_Ym parse_float
                     {| bronze := false; silver := false; gold := true |}
                     silver_only_state).2
  = bronze_metadata silver_only_state ∧
  bronze_file (files (main (Some "k") good_api clock strptime_Ym parse_float
                        {| bronze := false; silver := false; gold := true |}
                        silver_only_state).2)
  = bronze_file (files silver_only_state) ∧
  (silver {| bronze := false; silver := false; gold := true |} = false →
   silver_file (files (main (Some "k") good_api clock strptime_Ym
                         parse_float
                         {| bronze := false; silver := false; gold := true |}
                         silver_only_state).2)
   = silver_file (files silver_only_state)).
Proof.
  apply (later_stages_send_nothing (Some "k") good_api clock strptime_Ym
           parse_float).
  - reflexivity.
  - right. reflexivity.
Defined.

Lemma failed_pipeline_keeps_outputs_witness :
  silver_file (files failed_run.2) = silver_file (files start_state) ∧
  gold_file (files failed_run.2) = gold_file (files start_state) ∧
  frames (files failed_run.2) = frames (files start_state).
Proof.
  apply (failed_pipeline_keeps_outputs (Some "k") flaky_api clock
           strptime_Ym parse_float).
  vm_compute. reflexivity.
Defined.

Lemma successful_pipeline_artifacts_witness :
  ∃ key raw dfs out wide,
    Some "k" = Some key ∧ key ≠ "" ∧
    sent full_run.2
    = (sent start_state
       ++ ((λ id, request_for {| api_key := key;
                                 base_url := EIA_API_BASE_URL;
                                 series_ids := SERIES_MAPPING.*1 |}
                              id START_DATE)
             <$> SERIES_MAPPING.*1))%list ∧
    bronze_file (files full_run.2) = Some raw ∧
    raw.*1 = SERIES_MAPPING.*1 ∧
    parse_all raw = Ok dfs ∧
    clean_and_normalize strptime_Ym parse_float (concat dfs) = Ok out ∧
    silver_file (files full_run.2) = Some out ∧
    GoldAggregation.pivot_to_wide_table
      (GoldAggregation.calculate_annual_averages out) = Ok wide ∧
    gold_file (files full_run.2)
    = Some (GoldAggregation.rounded_copy
              (GoldAggregation.add_balance_columns wide)).
Proof.
  apply (successful_pipeline_artifacts (Some "k") good_api clock
           strptime_Ym parse_float start_state).
  vm_compute. reflexivity.
Defined.

Lemma pipeline_succeeds_when_api_answers_witness :
  ∃ s',
    run_full_pipeline (Some "k") good_api clock strptime_Ym parse_float
      start_state
    = (Done true, s') ∧
    main (Some "k") good_api clock strptime_Ym parse_float
         {| bronze := false; silver := false; gold := false |} start_state
    = (Done 0, s').
Proof.
  apply (pipeline_succeeds_when_api_answers (Some "k") good_api clock
           strptime_Ym parse_float "k" start_state).
  - reflexivity.
  - discriminate.
  - intros hist req. exists some_records.
    split; [reflexivity|]. split; [discriminate|].
    decide_by_computation.
Defined.

End PipelineWitnesses.
